(** * Vorratio: unit conversion, FIFO batch consumption, stock correction,
      recipe cooking, shopping-list generation and completion.

    A shallow embedding of the API routes of the Vorratio inventory server
    (the unit, article, batch, recipe and shopping-list routes) and the
    properties of their specification.

    Conventions of the embedding.
    - A JavaScript [number] is an exact rational ([Q]); arithmetic is exact,
      equality of numbers is [==] ([Qeq]).  [Math.round], [Math.ceil] and
      [Math.min] are [js_round], [Qceiling] and [Qmin].  The properties of
      quantities are stated on what the code computes (its comparisons,
      [Math.min], the difference of a number and itself, its running
      subtraction of [remaining]), not on laws of exact arithmetic that the
      rounding of floating point would break.
    - [null] and [undefined] are [None]; a JavaScript truthiness test on a
      nullable string or number is [truthy_str] / [truthy_num] (the empty
      string and zero are falsy).
    - The relational store behind Prisma is a record of tables (lists of
      rows); a query is a function of the store, a mutation returns the new
      store.  Identifiers are strings.  A route returns a [Reply] and the
      store it leaves.
    - What a route takes from outside the store is an argument: the clock
      ([now]), the identifiers that the store gives new rows, the consumption
      forecast, the printing of numbers and dates.
    - Division by zero does not arise on the data that the routes accept
      (unit factors, custom amounts and package sizes are positive). *)

From Stdlib Require Import QArith Qabs Qround Qminmax Lqa ZArith Lia Permutation Sorted.
From stdpp Require Import gmap strings list fin_maps.

Local Open Scope Q_scope.

(** ** JavaScript values *)

Module Js.

(** [Math.round(x)]: the integer nearest to [x], halves rounded up. *)
Definition js_round (x : Q) : Q := inject_Z (Qfloor (x + (1 # 2))).

Definition truthy_str (o : option string) : bool :=
  match o with
  | Some s => negb (bool_decide (s = EmptyString))
  | None => false
  end.

Definition truthy_num (o : option Q) : bool :=
  match o with
  | Some q => negb (Qeq_bool q 0)
  | None => false
  end.

(** [a || b] on nullable numbers. *)
Definition or_num (a b : option Q) : option Q :=
  if truthy_num a then a else b.

(** [a || b] on nullable strings. *)
Definition or_str (a b : option string) : option string :=
  if truthy_str a then a else b.

(** [x < y] and [x <= y] as tests. *)
Definition ltb (x y : Q) : bool := negb (Qle_bool y x).
Definition leb (x y : Q) : bool := Qle_bool x y.

(** Equality of numbers up to representation, lifted to nullable ones. *)
Definition opt_Qeq (a b : option Q) : Prop :=
  match a, b with
  | Some x, Some y => x == y
  | None, None => True
  | _, _ => False
  end.

End Js.
Import Js.

(** ** Units ([routes/units.ts]) *)

Module Units.

(** A row of the [Unit] table. *)
Record UnitRow := mkUnitRow {
  row_id : string;
  row_symbol : string;
  row_conversionGroup : option string;
  row_conversionFactor : Q;
  row_convertsToUnitId : option string;
  row_convertsToAmount : option Q
}.

(** [interface UnitData]; [unitId] is the optional [id], [convertsToUnit]
    the optional joined target, as its pair [(id, symbol)]. *)
Record UnitData := mkUnitData {
  unitId : option string;
  symbol : string;
  conversionGroup : option string;
  conversionFactor : Q;
  convertsToUnitId : option string;
  convertsToAmount : option Q;
  convertsToUnit : option (string * string)
}.

(** [u.convertsToUnit?.symbol === v.symbol || u.convertsToUnitId === v.id] *)
Definition targetsb (u v : UnitData) : bool :=
  match convertsToUnit u with
  | Some (_, s) => bool_decide (s = symbol v)
  | None => false
  end
  || match convertsToUnitId u, unitId v with
     | Some i, Some j => bool_decide (i = j)
     | _, _ => false
     end.

(** The amount of the custom conversion of [u] when it leads to [v]:
<<
    if (u.convertsToUnitId && u.convertsToAmount) {
      if (u.convertsToUnit?.symbol === v.symbol || u.convertsToUnitId === v.id) ...
>> *)
Definition customAmount (u v : UnitData) : option Q :=
  if truthy_str (convertsToUnitId u) && truthy_num (convertsToAmount u) && targetsb u v
  then convertsToAmount u
  else None.

Definition convertUnits (quantity : Q) (fromUnit toUnit : UnitData) : option Q :=
  if bool_decide (symbol fromUnit = symbol toUnit) then Some quantity
  else if truthy_str (conversionGroup fromUnit)
          && bool_decide (conversionGroup fromUnit = conversionGroup toUnit)
  then
    let baseQuantity := quantity * conversionFactor fromUnit in
    Some (baseQuantity / conversionFactor toUnit)
  else
    match customAmount fromUnit toUnit with
    | Some amount => Some (quantity * amount)
    | None =>
      match customAmount toUnit fromUnit with
      | Some amount => Some (quantity / amount)
      | None => None
      end
    end.

(** [prisma.unit.findUnique({ where: { symbol }, include: { convertsToUnit:
    { select: { id, symbol } } } })] *)
Definition findRow (p : UnitRow -> bool) (units : list UnitRow) : option UnitRow :=
  List.find p units.

Definition findUnitBySymbol (units : list UnitRow) (s : string) : option UnitData :=
  match findRow (fun r => bool_decide (row_symbol r = s)) units with
  | Some r =>
    Some {| unitId := Some (row_id r);
            symbol := row_symbol r;
            conversionGroup := row_conversionGroup r;
            conversionFactor := row_conversionFactor r;
            convertsToUnitId := row_convertsToUnitId r;
            convertsToAmount := row_convertsToAmount r;
            convertsToUnit :=
              match row_convertsToUnitId r with
              | Some i =>
                match findRow (fun t => bool_decide (row_id t = i)) units with
                | Some t => Some (row_id t, row_symbol t)
                | None => None
                end
              | None => None
              end |}
  | None => None
  end.

Definition convertQuantityBetweenUnits (units : list UnitRow)
    (quantity : Q) (fromSymbol toSymbol : string) : option Q :=
  if bool_decide (fromSymbol = toSymbol) then Some quantity
  else
    match findUnitBySymbol units fromSymbol, findUnitBySymbol units toSymbol with
    | Some fromUnit, Some toUnit => convertUnits quantity fromUnit toUnit
    | _, _ => None
    end.

(** *** The rules of the specification, in its words *)

(** Both units share a non-null conversion group. *)
Definition sharesGroup (u v : UnitData) : Prop :=
  exists g, conversionGroup u = Some g /\ conversionGroup v = Some g.

(** [u] has a custom conversion edge, of amount [a], whose target is [v]. *)
Definition edgeTo (u v : UnitData) (a : Q) : Prop :=
  (exists i, convertsToUnitId u = Some i) /\
  convertsToAmount u = Some a /\
  targetsb u v = true.

(** What the validation schemas of the unit routes guarantee of a stored
    unit: a conversion group, when present, is not the empty string
    ([conversionGroup || null]); the factor and a custom amount are
    positive ([z.number().positive()]); a target id is a UUID. *)
Record wf_unit (u : UnitData) : Prop := {
  wf_group : conversionGroup u <> Some EmptyString;
  wf_factor : 0 < conversionFactor u;
  wf_target : convertsToUnitId u <> Some EmptyString;
  wf_amount : forall a, convertsToAmount u = Some a -> 0 < a
}.

End Units.
Import Units.

(** ** The store *)

Module Store.

Record Article := mkArticle {
  a_id : string;
  a_name : string;
  a_defaultUnit : string;
  a_packageSize : Q;
  a_packageUnit : string;
  a_minStock : option Q;
  a_category : option string
}.

(** Dates are instants on the integer time line. *)
Record Batch := mkBatch {
  b_id : string;
  b_articleId : string;
  b_quantity : Q;
  b_initialQuantity : Q;
  b_purchaseDate : Z;
  b_expiryDate : option Z;
  b_purchasePrice : option Q;
  b_notes : option string
}.

Record ConsumptionLog := mkLog {
  l_articleId : string;
  l_batchId : option string;
  l_quantity : Q;
  l_source : string;
  l_recipeId : option string;
  l_notes : option string
}.

Record RecipeIngredient := mkIngredient {
  ri_id : string;
  ri_articleId : option string;
  ri_categoryMatch : option string;
  ri_quantity : Q;
  ri_unit : string;
  ri_isOptional : bool
}.

Record Recipe := mkRecipe {
  r_id : string;
  r_name : string;
  r_servings : Q;
  r_ingredients : list RecipeIngredient
}.

(** A meal-plan row with its (required) recipe relation resolved. *)
Record MealPlanEntry := mkEntry {
  e_date : Z;
  e_servings : Q;
  e_completedAt : option Z;
  e_recipe : Recipe
}.

Record ShoppingListItem := mkItem {
  i_listId : string;
  i_articleId : option string;
  i_customName : option string;
  i_neededQuantity : Q;
  i_recommendedPacks : Z;
  i_reason : string;
  i_estimatedPrice : option Q;
  i_isPurchased : bool;
  i_purchasedQuantity : option Q;
  i_actualPrice : option Q;
  i_purchaseDate : option Z;
  i_expiryDate : option Z
}.

Record ShoppingList := mkList {
  sl_id : string;
  sl_name : string;
  sl_shopDate : Z;
  sl_planUntilDate : Z;
  sl_completedAt : option Z
}.

Record Db := mkDb {
  units : list UnitRow;
  articles : list Article;
  batches : list Batch;
  consumptionLogs : list ConsumptionLog;
  recipes : list Recipe;
  mealPlanEntries : list MealPlanEntry;
  shoppingLists : list ShoppingList;
  shoppingListItems : list ShoppingListItem
}.

Definition setBatches (bs : list Batch) (db : Db) : Db :=
  mkDb (units db) (articles db) bs (consumptionLogs db) (recipes db)
       (mealPlanEntries db) (shoppingLists db) (shoppingListItems db).

Definition setLogs (ls : list ConsumptionLog) (db : Db) : Db :=
  mkDb (units db) (articles db) (batches db) ls (recipes db)
       (mealPlanEntries db) (shoppingLists db) (shoppingListItems db).

Definition setLists (ls : list ShoppingList) (db : Db) : Db :=
  mkDb (units db) (articles db) (batches db) (consumptionLogs db) (recipes db)
       (mealPlanEntries db) ls (shoppingListItems db).

Definition setItems (its : list ShoppingListItem) (db : Db) : Db :=
  mkDb (units db) (articles db) (batches db) (consumptionLogs db) (recipes db)
       (mealPlanEntries db) (shoppingLists db) its.

Definition setQuantity (q : Q) (b : Batch) : Batch :=
  mkBatch (b_id b) (b_articleId b) q (b_initialQuantity b) (b_purchaseDate b)
          (b_expiryDate b) (b_purchasePrice b) (b_notes b).

(** [prisma.batch.update({ where: { id }, data: { quantity } })] *)
Definition batchUpdateQuantity (id : string) (q : Q) (db : Db) : Db :=
  setBatches
    (List.map (fun b => if bool_decide (b_id b = id) then setQuantity q b else b)
              (batches db))
    db.

(** [prisma.batch.create({ data })] *)
Definition batchCreate (b : Batch) (db : Db) : Db :=
  setBatches (batches db ++ [b]) db.

(** [prisma.consumptionLog.create({ data })] *)
Definition logCreate (l : ConsumptionLog) (db : Db) : Db :=
  setLogs (consumptionLogs db ++ [l]) db.

Definition findArticle (db : Db) (id : string) : option Article :=
  List.find (fun a => bool_decide (a_id a = id)) (articles db).

Definition findBatch (db : Db) (id : string) : option Batch :=
  List.find (fun b => bool_decide (b_id b = id)) (batches db).

(** [batches.reduce((sum, b) => sum + b.quantity, 0)] *)
Definition totalStock (bs : list Batch) : Q :=
  fold_left (fun sum b => sum + b_quantity b) bs 0.

(** Rows of an article that still hold stock:
    [where: { articleId, quantity: { gt: 0 } }]. *)
Definition inStock (articleId : string) (b : Batch) : bool :=
  bool_decide (b_articleId b = articleId) && ltb 0 (b_quantity b).

Section Ordering.

(** The store's collation for
    [orderBy: [{ expiryDate: 'asc' }, { purchaseDate: 'asc' }]]:
    [fifo_le a b] when row [a] may come before row [b]. *)
Variable fifo_le : Batch -> Batch -> bool.

Fixpoint insertBy (b : Batch) (l : list Batch) : list Batch :=
  match l with
  | [] => [b]
  | x :: r => if fifo_le b x then b :: l else x :: insertBy b r
  end.

Definition orderBy (l : list Batch) : list Batch := foldr insertBy [] l.

(** [prisma.batch.findMany({ where: { articleId, quantity: { gt: 0 } },
    orderBy: [...] })] *)
Definition findStock (db : Db) (articleId : string) : list Batch :=
  orderBy (List.filter (inStock articleId) (batches db)).

End Ordering.

(** The collation of the store (SQLite) for that [orderBy]: in ascending
    order [NULL] sorts before every value, so rows without expiry date come
    first, then the earliest expiry; among rows of equal expiry, the
    earliest purchase.  Rows of equal keys stay in the order of the table. *)
Definition expiryThenPurchase (a b : Batch) : bool :=
  match b_expiryDate a, b_expiryDate b with
  | Some x, Some y => (x <? y)%Z || ((x =? y)%Z && (b_purchaseDate a <=? b_purchaseDate b)%Z)
  | None, Some _ => true
  | Some _, None => false
  | None, None => (b_purchaseDate a <=? b_purchaseDate b)%Z
  end.

(** The reply of a route: a result, or an HTTP error status with its body. *)
Inductive Reply (A E : Type) : Type :=
  | Ok (a : A)
  | Err (status : Z) (body : E).
Arguments Ok {A E} a.
Arguments Err {A E} status body.

End Store.
Import Store.

(** ** FIFO consumption, stock correction, batch consumption and cooking *)

Module Consumption.

(** [{ consumed, remaining, logs }] of [POST /articles/:id/consume]. *)
Record ConsumeResult := mkConsumeResult {
  consumed : Q;
  remaining : Q;
  logs : list ConsumptionLog
}.

(** The replies of [POST /articles/:id/correct-stock]. *)
Inductive CorrectResult : Type :=
  | StockMatches (currentStock actualStock : Q)
  | StockIncreased (previousStock newStock difference : Q)
  | StockDecreased (previousStock newStock difference : Q) (logs : list ConsumptionLog).

(** [{ batch, log, conversion }] of [POST /batches/:id/consume];
    [conversion] is [((quantity, unit), (quantity, unit))]. *)
Record BatchConsumeResult := mkBatchConsumeResult {
  bc_batch : option Batch;
  bc_log : ConsumptionLog;
  bc_conversion : option ((Q * string) * (Q * string))
}.

(** Error body of [POST /batches/:id/consume]: [{ error, requested? }]. *)
Record BatchConsumeError := mkBatchConsumeError {
  bc_error : string;
  bc_requested : option string
}.

(** An entry of [missing[]] of [POST /recipes/:id/cook]. *)
Inductive Missing : Type :=
  | MissingArticle (name : string) (quantity : Q) (unit : string)
  | MissingConversion (articleId name : string) (needed : Q)
      (unit articleUnit error : string)
  | MissingStock (articleId name : string) (needed available : Q)
      (unit : string) (originalQuantity : Q) (originalUnit : string).

(** An entry of [consumed[]] of [POST /recipes/:id/cook]. *)
Record Cooked := mkCooked {
  c_articleId : string;
  c_name : string;
  c_consumed : Q;
  c_unit : string;
  c_originalQuantity : Q;
  c_originalUnit : string
}.

Inductive CookError : Type :=
  | RecipeNotFound
  | MissingIngredients (missing : list Missing) (consumed : list Cooked).

Record CookResult := mkCookResult {
  ck_recipe : string;
  ck_servings : Q;
  ck_consumed : list Cooked
}.

Section Routes.

Variable fifo_le : Batch -> Batch -> bool.

(** Conversion of a number to its text, and [String.prototype.trim]. *)
Variable numToString : Q -> string.
Variable trim : string -> string.

(** The loop that the three FIFO consumers repeat:
<<
  for (const batch of batches) {
    if (remaining <= 0) break;
    const toConsume = Math.min(batch.quantity, remaining);
    await prisma.batch.update({ where: { id: batch.id },
                                data: { quantity: batch.quantity - toConsume } });
    const log = await prisma.consumptionLog.create({ data: ... });
    consumptionLogs.push(log);
    remaining -= toConsume;
  }
>>
    [mkLogOf batch toConsume] is the log row that the caller writes. *)
Fixpoint fifoLoop (mkLogOf : Batch -> Q -> ConsumptionLog)
    (bs : list Batch) (remaining : Q) (logs : list ConsumptionLog) (db : Db)
    : Db * Q * list ConsumptionLog :=
  match bs with
  | [] => (db, remaining, logs)
  | batch :: rest =>
    if leb remaining 0 then (db, remaining, logs)
    else
      let toConsume := Qmin (b_quantity batch) remaining in
      let db1 := batchUpdateQuantity (b_id batch) (b_quantity batch - toConsume) db in
      let log := mkLogOf batch toConsume in
      let db2 := logCreate log db1 in
      fifoLoop mkLogOf rest (remaining - toConsume) (logs ++ [log]) db2
  end.

(** [POST /articles/:id/consume] *)
Definition consumeFromArticle (db : Db) (id : string) (quantity : Q)
    (source notes : option string) : Reply ConsumeResult string * Db :=
  if Qeq_bool quantity 0 || leb quantity 0
  then (Err 400 "Quantity must be positive"%string, db)
  else
    let batches := findStock fifo_le db id in
    if Nat.eqb (length batches) 0
    then (Err 400 "No stock available"%string, db)
    else
      let src := default "MANUAL"%string source in
      let '(db', remaining, consumptionLogs) :=
        fifoLoop (fun batch toConsume =>
                    mkLog id (Some (b_id batch)) toConsume src None notes)
                 batches quantity [] db in
      (Ok (mkConsumeResult (quantity - remaining) remaining consumptionLogs), db').

(** The three branches of [POST /articles/:id/correct-stock] on the value
    of [difference]:
<<
    if (difference === 0) { return { message: 'Stock already matches', ... }; }
    if (difference > 0) {
      const newBatch = await prisma.batch.create({ data: { articleId: id, ... } });
      await prisma.consumptionLog.create({ data: { ..., quantity: -difference, ... } });
    } else {
      let remaining = Math.abs(difference);
      for (const batch of batches) { ... }
    }
>>
    [batch.create] fails on the foreign key [Batch.articleId] when the
    article does not exist; the request then ends with status 500 and
    nothing is written. *)
Definition correctByDifference (db : Db) (id : string) (batches : list Batch)
    (currentStock actualStock difference : Q)
    (notes : option string) (now : Z) (newId : string)
    : Reply CorrectResult string * Db :=
  let corrected :=
    ("Stock corrected from " +:+ numToString currentStock +:+ " to "
       +:+ numToString actualStock)%string in
  if Qeq_bool difference 0 then (Ok (StockMatches currentStock actualStock), db)
  else if ltb 0 difference then
    match findArticle db id with
    | None => (Err 500 "Internal Server Error"%string, db)
    | Some _ =>
      let newBatch :=
        mkBatch newId id difference difference now None None
                (or_str notes (Some "Stock correction (added)"%string)) in
      let db1 := batchCreate newBatch db in
      let db2 :=
        logCreate (mkLog id (Some (b_id newBatch)) (- difference)
                         "CORRECTION"%string None
                         (or_str notes (Some corrected))) db1 in
      (Ok (StockIncreased currentStock actualStock difference), db2)
    end
  else
    let '(db', _, consumptionLogs) :=
      fifoLoop (fun batch toConsume =>
                  mkLog id (Some (b_id batch)) toConsume "CORRECTION"%string
                        None (or_str notes (Some corrected)))
               batches (Qabs difference) [] db in
    (Ok (StockDecreased currentStock actualStock difference consumptionLogs), db').

(** [POST /articles/:id/correct-stock]; [now] is [new Date()] and
    [newId] the identifier that the store gives the created batch. *)
Definition correctStock (db : Db) (id : string) (actualStock : Q)
    (notes : option string) (now : Z) (newId : string)
    : Reply CorrectResult string * Db :=
  if ltb actualStock 0
  then (Err 400 "actualStock must be a non-negative number"%string, db)
  else
    let batches := findStock fifo_le db id in
    let currentStock := totalStock batches in
    let difference := actualStock - currentStock in
    correctByDifference db id batches currentStock actualStock difference notes now newId.

(** [ConsumeBatchSchema] *)
Definition validConsumeBatch (quantity : Q) (unit source notes : option string) : bool :=
  ltb 0 quantity
  && from_option (fun s => Nat.leb (String.length s) 20) true unit
  && from_option (fun s => Nat.leb (String.length s) 20) true source
  && from_option (fun s => Nat.leb (String.length s) 500) true notes.

(** The requested quantity in the article's unit:
<<
  let quantityInDefaultUnit = quantity;
  if (unit && unit !== batch.article.defaultUnit) {
    const converted = await convertQuantityBetweenUnits(quantity, unit, defaultUnit);
    ...
>>
    [None] when the units do not convert. *)
Definition unitDiffers (unit : option string) (defaultUnit : string) : bool :=
  truthy_str unit && negb (bool_decide (unit = Some defaultUnit)).

Definition toDefaultUnit (db : Db) (quantity : Q) (unit : option string)
    (defaultUnit : string) : option Q :=
  if unitDiffers unit defaultUnit
  then convertQuantityBetweenUnits (units db) quantity (default EmptyString unit) defaultUnit
  else Some quantity.

(** [POST /batches/:id/consume] *)
Definition consumeFromBatch (db : Db) (id : string) (quantity : Q)
    (unit source notes : option string)
    : Reply BatchConsumeResult BatchConsumeError * Db :=
  if negb (validConsumeBatch quantity unit source notes)
  then (Err 400 (mkBatchConsumeError "Validation failed" None), db)
  else
    let src := default "MANUAL"%string source in
    match findBatch db id with
    | None => (Err 404 (mkBatchConsumeError "Batch not found" None), db)
    | Some batch =>
      (* [include: { article: { select: { defaultUnit: true } } }] *)
      match findArticle db (b_articleId batch) with
      | None => (Err 500 (mkBatchConsumeError "Internal Server Error" None), db)
      | Some article =>
        let defaultUnit := a_defaultUnit article in
        match toDefaultUnit db quantity unit defaultUnit with
        | None =>
          (Err 400 (mkBatchConsumeError
                      ("Cannot convert " +:+ default EmptyString unit +:+ " to "
                         +:+ defaultUnit) None), db)
        | Some quantityInDefaultUnit =>
          if ltb (b_quantity batch) quantityInDefaultUnit
          then
            (Err 400 (mkBatchConsumeError
                        ("Insufficient stock. Available: "
                           +:+ numToString (b_quantity batch) +:+ " " +:+ defaultUnit)
                        (Some (if truthy_str unit
                               then numToString quantity +:+ " "
                                    +:+ default EmptyString unit +:+ " (= "
                                    +:+ numToString quantityInDefaultUnit +:+ " "
                                    +:+ defaultUnit +:+ ")"
                               else numToString quantity))), db)
          else
            let db1 :=
              batchUpdateQuantity id (b_quantity batch - quantityInDefaultUnit) db in
            let log :=
              mkLog (b_articleId batch) (Some id) quantityInDefaultUnit src None
                    (if unitDiffers unit defaultUnit
                     then Some (trim (default EmptyString (or_str notes (Some EmptyString))
                                        +:+ " (" +:+ numToString quantity +:+ " "
                                        +:+ default EmptyString unit +:+ ")"))
                     else notes) in
            let db2 := logCreate log db1 in
            (Ok (mkBatchConsumeResult
                   (findBatch db2 id) log
                   (if unitDiffers unit defaultUnit
                    then Some ((quantity, default EmptyString unit),
                               (quantityInDefaultUnit, defaultUnit))
                    else None)), db2)
        end
      end
    end.

(** [prisma.article.findFirst({ where: { category, batches: { some:
        { quantity: { gt: 0 } } } } })] *)
Definition findArticleByCategory (db : Db) (category : string) : option Article :=
  List.find (fun a => bool_decide (a_category a = Some category)
                      && existsb (inStock (a_id a)) (batches db))
            (articles db).

(** The state of the ingredient loop of [POST /recipes/:id/cook]. *)
Record CookState := mkCookState {
  cs_db : Db;
  cs_consumed : list Cooked;
  cs_missing : list Missing
}.

(** The article of an ingredient: the one it names or, for an ingredient
that names none but has a category, the first article of that category
with stock:
<<
  let articleId = ing.articleId;
  let article = ing.article;
  if (!articleId && ing.categoryMatch) {
    const matchingArticle = await prisma.article.findFirst(...);
    if (matchingArticle) { articleId = matchingArticle.id; article = matchingArticle; }
  }
  if (!articleId || !article) { ... }
>> *)
Definition resolveArticle (db : Db) (ing : RecipeIngredient) : option (string * Article) :=
  (* [include: { article: true }] *)
  let ingArticle := ri_articleId ing ≫= findArticle db in
  let matching :=
    if negb (truthy_str (ri_articleId ing)) && truthy_str (ri_categoryMatch ing)
    then findArticleByCategory db (default EmptyString (ri_categoryMatch ing))
    else None in
  let articleId :=
    match matching with
    | Some m => Some (a_id m)
    | None => ri_articleId ing
    end in
  let article :=
    match matching with
    | Some m => Some m
    | None => ingArticle
    end in
  match (if truthy_str articleId then articleId else None), article with
  | Some articleId, Some article => Some (articleId, article)
  | _, _ => None
  end.

(** The quantity of an ingredient in the unit of its article:
<<
      if (recipeUnit !== articleUnit) {
        const converted = await convertQuantityBetweenUnits(recipeQuantity, recipeUnit, articleUnit);
>> *)
Definition neededInArticleUnit (db : Db) (recipeQuantity : Q) (recipeUnit articleUnit : string)
    : option Q :=
  if negb (bool_decide (recipeUnit = articleUnit))
  then convertQuantityBetweenUnits (units db) recipeQuantity recipeUnit articleUnit
  else Some recipeQuantity.

(** The checks of one iteration of [for (const ing of recipe.ingredients)],
    up to [// Consume from batches]: the entry pushed on [missing[]], or the
    article, the quantity in the article's unit and the rows to consume. *)
Definition checkIngredient (db : Db) (portionMultiplier : Q) (ing : RecipeIngredient)
    : Missing + (string * Article * Q * list Batch) :=
  let recipeQuantity := ri_quantity ing * portionMultiplier in
  match resolveArticle db ing with
  | Some (articleId, article) =>
    let recipeUnit := ri_unit ing in
    let articleUnit := a_defaultUnit article in
    match neededInArticleUnit db recipeQuantity recipeUnit articleUnit with
    | None =>
      inl (MissingConversion articleId (a_name article) recipeQuantity recipeUnit
             articleUnit
             ("Cannot convert " +:+ recipeUnit +:+ " to " +:+ articleUnit))
    | Some neededQuantity =>
      let batches := findStock fifo_le db articleId in
      let stock := totalStock batches in
      if ltb stock neededQuantity
      then
        inl (MissingStock articleId (a_name article) neededQuantity stock
               articleUnit recipeQuantity recipeUnit)
      else inr (articleId, article, neededQuantity, batches)
    end
  | None =>
    inl (MissingArticle
           (default "Unknown"%string
              (or_str (a_name <$> (ri_articleId ing ≫= findArticle db))
                 (or_str (ri_categoryMatch ing) (Some "Unknown"%string))))
           recipeQuantity (ri_unit ing))
  end.

(** One iteration of [for (const ing of recipe.ingredients)]. *)
Definition cookIngredient (recipe : Recipe) (portionMultiplier : Q)
    (st : CookState) (ing : RecipeIngredient) : CookState :=
  let db := cs_db st in
  match checkIngredient db portionMultiplier ing with
  | inl missing => mkCookState db (cs_consumed st) (cs_missing st ++ [missing])
  | inr (articleId, article, neededQuantity, batches) =>
    let '(db', _, _) :=
      fifoLoop (fun batch toConsume =>
                  mkLog articleId (Some (b_id batch)) toConsume "RECIPE"%string
                        (Some (r_id recipe))
                        (Some ("Cooked: " +:+ r_name recipe)))
               batches neededQuantity [] db in
    mkCookState db'
      (cs_consumed st ++
         [mkCooked articleId (a_name article) neededQuantity (a_defaultUnit article)
            (ri_quantity ing * portionMultiplier) (ri_unit ing)])
      (cs_missing st)
  end.

(** [POST /recipes/:id/cook] *)
Definition cookRecipe (db : Db) (id : string) (servings : option Q)
    : Reply CookResult CookError * Db :=
  match List.find (fun r => bool_decide (r_id r = id)) (recipes db) with
  | None => (Err 404 RecipeNotFound, db)
  | Some recipe =>
    (* [include: { ingredients: { where: { isOptional: false } } }] *)
    let ingredients :=
      List.filter (fun i => negb (ri_isOptional i)) (r_ingredients recipe) in
    let portionMultiplier :=
      if truthy_num servings then default 0 servings / r_servings recipe else 1 in
    let st :=
      fold_left (cookIngredient recipe portionMultiplier) ingredients
                (mkCookState db [] []) in
    if Nat.ltb 0 (length (cs_missing st))
    then (Err 400 (MissingIngredients (cs_missing st) (cs_consumed st)), cs_db st)
    else
      (Ok (mkCookResult (r_name recipe)
             (default (r_servings recipe) (or_num servings None))
             (cs_consumed st)), cs_db st)
  end.

End Routes.
End Consumption.
Import Consumption.

(** ** Shopping lists ([routes/shopping.ts]) *)

Module Shopping.

(** A value of the [requiredIngredients] map. *)
Record Required := mkRequired {
  rq_articleId : option string;
  rq_articleName : option string;
  rq_categoryMatch : option string;
  rq_unit : string;
  rq_totalQuantity : Q;
  rq_reason : string
}.

(** A value of [packageInfoMap]. *)
Record PackageInfo := mkPackageInfo {
  packageSize : Q;
  packageUnit : string;
  defaultUnit : string
}.

(** An element of [itemsToCreate]. *)
Record NewItem := mkNewItem {
  n_articleId : option string;
  n_customName : option string;
  n_neededQuantity : Q;
  n_recommendedPacks : Z;
  n_reason : string
}.

(** An element of the result of [getForecastedShoppingItems]. *)
Record ForecastItem := mkForecastItem {
  f_articleId : string;
  f_quantity : Q
}.

(** [const roundQuantity = (n) => Math.round(n * 10000) / 10000] *)
Definition roundQuantity (n : Q) : Q := js_round (n * 10000) / 10000.

(** [Math.round(x * 100) / 100] *)
Definition round2 (x : Q) : Q := js_round (x * 100) / 100.

(** [requiredIngredients]: a [Map], iterated in insertion order. *)
Definition RequiredMap := list (string * Required).

Definition requiredGet (key : string) (m : RequiredMap) : option Required :=
  snd <$> List.find (fun kv => bool_decide (fst kv = key)) m.

(** [existing.totalQuantity += neededQuantity] on the entry of [key]. *)
Definition requiredAdd (key : string) (q : Q) (m : RequiredMap) : RequiredMap :=
  List.map (fun kv =>
              if bool_decide (fst kv = key)
              then (fst kv,
                    mkRequired (rq_articleId (snd kv)) (rq_articleName (snd kv))
                      (rq_categoryMatch (snd kv)) (rq_unit (snd kv))
                      (rq_totalQuantity (snd kv) + q) (rq_reason (snd kv)))
              else kv) m.

(** The body of [for (const ing of entry.recipe.ingredients)]. *)
Definition requireIngredient (db : Db) (portionMultiplier : Q)
    (m : RequiredMap) (ing : RecipeIngredient) : RequiredMap :=
  let key :=
    default EmptyString
      (or_str (ri_articleId ing)
         (or_str (ri_categoryMatch ing) (Some ("unknown-" +:+ ri_id ing)))) in
  let existing := requiredGet key m in
  let quantity := ri_quantity ing * portionMultiplier in
  let article := ri_articleId ing ≫= findArticle db in
  let articleUnit := a_defaultUnit <$> article in
  let '(neededQuantity, targetUnit) :=
    if truthy_str articleUnit
    then
      let defaultUnit := default EmptyString articleUnit in
      if negb (bool_decide (ri_unit ing = defaultUnit))
      then
        match convertQuantityBetweenUnits (units db) quantity (ri_unit ing) defaultUnit with
        | Some converted => (converted, defaultUnit)
        | None => (quantity, ri_unit ing)
        end
      else (quantity, defaultUnit)
    else (quantity, ri_unit ing) in
  match existing with
  | Some _ => requiredAdd key neededQuantity m
  | None =>
    m ++ [(key, mkRequired (ri_articleId ing) (a_name <$> article)
                  (ri_categoryMatch ing) targetUnit neededQuantity "RECIPE")]
  end.

(** The body of [for (const entry of mealEntries)]. *)
Definition requireEntry (db : Db) (m : RequiredMap) (entry : MealPlanEntry) : RequiredMap :=
  let portionMultiplier := e_servings entry / r_servings (e_recipe entry) in
  fold_left (requireIngredient db portionMultiplier) (r_ingredients (e_recipe entry)) m.

(** [prisma.mealPlanEntry.findMany({ where: { date: { gte, lte },
    completedAt: null } })] *)
Definition findMealEntries (db : Db) (shopDate planUntil : Z) : list MealPlanEntry :=
  List.filter (fun e => (shopDate <=? e_date e)%Z && (e_date e <=? planUntil)%Z
                        && bool_decide (e_completedAt e = None))
              (mealPlanEntries db).

(** [article.batches] under [include: { batches: { where: { quantity:
    { gt: 0 } } } }], summed. *)
Definition articleStock (db : Db) (a : Article) : Q :=
  totalStock (List.filter (inStock (a_id a)) (batches db)).

Definition packageInfoOf (a : Article) : PackageInfo :=
  mkPackageInfo (a_packageSize a) (a_packageUnit a) (a_defaultUnit a).

(** The lookup tables of the generator. *)
Record Tables := mkTables {
  stockMap : gmap string Q;
  packageInfoMap : gmap string PackageInfo;
  forecastMap : gmap string Q;
  minStockMap : gmap string Q
}.

(** Step 3: [for (const article of articlesWithStock)]. *)
Definition trackStock (db : Db) (t : Tables) (article : Article) : Tables :=
  mkTables (<[a_id article := articleStock db article]> (stockMap t))
           (<[a_id article := packageInfoOf article]> (packageInfoMap t))
           (forecastMap t) (minStockMap t).

(** Step 4: [for (const item of forecastedItems)]. *)
Definition trackForecast (t : Tables) (item : ForecastItem) : Tables :=
  mkTables (stockMap t) (packageInfoMap t)
           (<[f_articleId item := f_quantity item]> (forecastMap t)) (minStockMap t).

(** Step 5: [for (const article of allArticlesWithMinStock)]. *)
Definition trackMinStock (db : Db) (t : Tables) (article : Article) : Tables :=
  if truthy_num (a_minStock article)
  then
    mkTables
      (match stockMap t !! a_id article with
       | Some _ => stockMap t
       | None => <[a_id article := articleStock db article]> (stockMap t)
       end)
      (match packageInfoMap t !! a_id article with
       | Some _ => packageInfoMap t
       | None => <[a_id article := packageInfoOf article]> (packageInfoMap t)
       end)
      (forecastMap t)
      (<[a_id article := default 0 (a_minStock article)]> (minStockMap t))
  else t.

(** The package size in the unit of the need, [None] when the units do not
  convert:
<<
    let packageSizeInNeededUnit = pkgInfo.packageSize;
    if (pkgInfo.packageUnit !== neededUnit) {
      const converted = await convertQuantityBetweenUnits(
        pkgInfo.packageSize, pkgInfo.packageUnit, neededUnit);
>> *)
Definition packageSizeIn (db : Db) (pkgInfo : PackageInfo) (neededUnit : string)
    : option Q :=
  if negb (bool_decide (packageUnit pkgInfo = neededUnit))
  then convertQuantityBetweenUnits (units db) (packageSize pkgInfo)
         (packageUnit pkgInfo) neededUnit
  else Some (packageSize pkgInfo).

(** [calculateRecommendedPacks] *)
Definition calculateRecommendedPacks (db : Db) (t : Tables)
    (articleId : option string) (neededQuantity : Q) (neededUnit : string) : Z :=
  match (if truthy_str articleId then articleId else None) with
  | None => 1%Z
  | Some articleId =>
    match packageInfoMap t !! articleId with
    | None => 1%Z
    | Some pkgInfo =>
      if leb (packageSize pkgInfo) 0 then 1%Z
      else
        match packageSizeIn db pkgInfo neededUnit with
        | Some packageSizeInNeededUnit =>
          Qceiling (neededQuantity / packageSizeInNeededUnit)
        | None => 1%Z
        end
    end
  end.

(** The state of the three loops of step 6. *)
Record GenState := mkGenState {
  itemsToCreate : list NewItem;
  processedArticles : gset string
}.

(** The body of [for (const [, req] of requiredIngredients)] up to the
  push: the identifier of the article when there is one, and the item
  pushed on [itemsToCreate] when [totalNeed > 0]. *)
Definition requiredArticle (req : Required) : option string :=
  if truthy_str (rq_articleId req) then rq_articleId req else None.

Definition requiredItem (db : Db) (t : Tables) (req : Required) : option NewItem :=
  let articleId := requiredArticle req in
  let currentStock := default 0 (articleId ≫= (stockMap t !!.)) in
  let minStock := default 0 (articleId ≫= (minStockMap t !!.)) in
  let forecastedNeed := default 0 (articleId ≫= (forecastMap t !!.)) in
  let totalNeed :=
    roundQuantity (rq_totalQuantity req + forecastedNeed + minStock - currentStock) in
  if ltb 0 totalNeed
  then
    let recommendedPacks :=
      calculateRecommendedPacks db t (rq_articleId req) totalNeed (rq_unit req) in
    Some (mkNewItem (rq_articleId req)
                    (or_str (rq_articleName req) (rq_categoryMatch req))
                    (round2 totalNeed) recommendedPacks (rq_reason req))
  else None.

(** [for (const [, req] of requiredIngredients)] *)
Definition processRequired (db : Db) (t : Tables) (st : GenState)
    (kv : string * Required) : GenState :=
  let req := snd kv in
  mkGenState
    (match requiredItem db t req with
     | Some item => itemsToCreate st ++ [item]
     | None => itemsToCreate st
     end)
    (match requiredArticle req with
     | Some a => {[a]} ∪ processedArticles st
     | None => processedArticles st
     end).

(** The item pushed by the body of [for (const item of forecastedItems)]
    for an article that is not yet processed, when [totalNeed > 0]. *)
Definition forecastItem (db : Db) (t : Tables) (item : ForecastItem) : option NewItem :=
  let currentStock := default 0 (stockMap t !! f_articleId item) in
  let minStock := default 0 (minStockMap t !! f_articleId item) in
  let pkgInfo := packageInfoMap t !! f_articleId item in
  let unit :=
    default "pcs"%string (or_str (defaultUnit <$> pkgInfo) (Some "pcs"%string)) in
  let totalNeed := roundQuantity (f_quantity item + minStock - currentStock) in
  if ltb 0 totalNeed
  then
    let recommendedPacks :=
      calculateRecommendedPacks db t (Some (f_articleId item)) totalNeed unit in
    Some (mkNewItem (Some (f_articleId item)) None (round2 totalNeed)
                    recommendedPacks "FORECAST")
  else None.

(** [for (const item of forecastedItems)] *)
Definition processForecast (db : Db) (t : Tables) (st : GenState)
    (item : ForecastItem) : GenState :=
  if bool_decide (f_articleId item ∈ processedArticles st) then st
  else
    mkGenState
      (match forecastItem db t item with
       | Some new => itemsToCreate st ++ [new]
       | None => itemsToCreate st
       end)
      ({[f_articleId item]} ∪ processedArticles st).

(** The item pushed by the body of
    [for (const article of allArticlesWithMinStock)] for an article that is
    not yet processed, when [article.minStock && totalStock < article.minStock]. *)
Definition lowStockItem (db : Db) (t : Tables) (article : Article) : option NewItem :=
  let stock := articleStock db article in
  if truthy_num (a_minStock article) && ltb stock (default 0 (a_minStock article))
  then
    let neededQuantity := roundQuantity (default 0 (a_minStock article) - stock) in
    let recommendedPacks :=
      calculateRecommendedPacks db t (Some (a_id article)) neededQuantity
        (a_defaultUnit article) in
    Some (mkNewItem (Some (a_id article)) None (round2 neededQuantity)
                    recommendedPacks "LOW_STOCK")
  else None.

(** [for (const article of allArticlesWithMinStock)] *)
Definition processLowStock (db : Db) (t : Tables) (st : GenState)
    (article : Article) : GenState :=
  if bool_decide (a_id article ∈ processedArticles st) then st
  else
    mkGenState
      (match lowStockItem db t article with
       | Some new => itemsToCreate st ++ [new]
       | None => itemsToCreate st
       end)
      (processedArticles st).

(** Steps 1 and 2: the required ingredients of the planned meals. *)
Definition requiredIngredients (db : Db) (shopDate planUntil : Z) : RequiredMap :=
  fold_left (requireEntry db) (findMealEntries db shopDate planUntil) [].

(** [Array.from(requiredIngredients.values()).map(i => i.articleId)
      .filter(id => id !== null)] *)
Definition requiredArticleIds (m : RequiredMap) : list string :=
  omap (fun kv => rq_articleId (snd kv)) m.

(** [prisma.article.findMany({ where: { id: { in: articleIds } } })] *)
Definition findArticlesIn (db : Db) (ids : list string) : list Article :=
  List.filter (fun a => bool_decide (a_id a ∈ ids)) (articles db).

(** [prisma.article.findMany({ where: { minStock: { not: null } } })] *)
Definition findArticlesWithMinStock (db : Db) : list Article :=
  List.filter (fun a => bool_decide (is_Some (a_minStock a))) (articles db).

(** Steps 3 to 5: the lookup tables. *)
Definition buildTables (db : Db) (m : RequiredMap) (forecastedItems : list ForecastItem)
    : Tables :=
  let t1 := fold_left (trackStock db) (findArticlesIn db (requiredArticleIds m))
                      (mkTables ∅ ∅ ∅ ∅) in
  let t2 := fold_left trackForecast forecastedItems t1 in
  fold_left (trackMinStock db) (findArticlesWithMinStock db) t2.

(** Step 6: [itemsToCreate] after the three loops. *)
Definition generateState (db : Db) (m : RequiredMap) (forecastedItems : list ForecastItem)
    : GenState :=
  let t := buildTables db m forecastedItems in
  let s1 := fold_left (processRequired db t) m (mkGenState [] ∅) in
  let s2 := fold_left (processForecast db t) forecastedItems s1 in
  fold_left (processLowStock db t) (findArticlesWithMinStock db) s2.

Definition generateItems (db : Db) (shopDate planUntil : Z)
    (forecastedItems : list ForecastItem) : list NewItem :=
  itemsToCreate
    (generateState db (requiredIngredients db shopDate planUntil) forecastedItems).

(** Step 7: [article.batches] under [where: { purchasePrice: { not: null } },
    orderBy: { purchaseDate: 'desc' }, take: 10], and the average price per
    pack, [None] when the article has no priced purchase. *)
Definition pricedBatches (db : Db) (articleId : string) : list Batch :=
  take 10
    (orderBy (fun a b => (b_purchaseDate b <=? b_purchaseDate a)%Z)
       (List.filter (fun b => bool_decide (b_articleId b = articleId)
                              && bool_decide (is_Some (b_purchasePrice b)))
                    (batches db))).

Definition avgPricePerPack (db : Db) (articleId : string) : option Q :=
  let batchesWithPrice :=
    List.filter (fun b => bool_decide (is_Some (b_purchasePrice b)))
                (pricedBatches db articleId) in
  if Nat.ltb 0 (length batchesWithPrice)
  then
    let totalPrice :=
      fold_left (fun sum b => sum + default 0 (or_num (b_purchasePrice b) (Some 0)))
                batchesWithPrice 0 in
    Some (totalPrice / inject_Z (Z.of_nat (length batchesWithPrice)))
  else None.

(** [priceMap.get(item.articleId)] with [hasPrice] folded into the option:
    the article must be one that the price query returned. *)
Definition priceOf (db : Db) (articleId : option string) : option Q :=
  match (if truthy_str articleId then articleId else None) with
  | Some a =>
    match findArticle db a with
    | Some _ => avgPricePerPack db a
    | None => None
    end
  | None => None
  end.

(** The row created for an element of [itemsToCreate]. *)
Definition itemRow (db : Db) (listId : string) (item : NewItem) : ShoppingListItem :=
  let estimatedPrice :=
    match priceOf db (n_articleId item) with
    | Some avg => Some (round2 (avg * inject_Z (n_recommendedPacks item)))
    | None => None
    end in
  mkItem listId (n_articleId item) (n_customName item) (n_neededQuantity item)
         (n_recommendedPacks item) (n_reason item) estimatedPrice
         false None None None None.

Section Routes.

(** [Date.prototype.toLocaleDateString] and the UUID test of zod. *)
Variable dateToString : Z -> string.
Variable isUuid : string -> bool.

(** [POST /shopping-lists/generate].  [shopDate] and [planUntil] are the
    parsed bounds of the window (start and end of day), [forecastedItems]
    the answer of the consumption forecast for the window, [newListId]
    the identifier that the store gives the list. *)
Definition generateShoppingList (db : Db) (name : option string)
    (shopDate planUntil : Z) (forecastedItems : list ForecastItem)
    (newListId : string)
    : Reply (ShoppingList * list ShoppingListItem) string * Db :=
  if negb (from_option (fun s => Nat.leb (String.length s) 200) true name)
  then (Err 400 "Validation failed"%string, db)
  else
    let items := generateItems db shopDate planUntil forecastedItems in
    let list :=
      mkList newListId
        (default ("Shopping " +:+ dateToString shopDate)
                 (or_str name (Some ("Shopping " +:+ dateToString shopDate))))
        shopDate planUntil None in
    let rows := List.map (itemRow db newListId) items in
    (Ok (list, rows),
     setItems (shoppingListItems db ++ rows) (setLists (shoppingLists db ++ [list]) db)).

(** [AddItemSchema] *)
Definition validAddItem (articleId customName : option string) (quantity : Q)
    (unit reason : string) : bool :=
  from_option isUuid true articleId
  && from_option (fun s => Nat.leb (String.length s) 200) true customName
  && ltb 0 quantity
  && Nat.leb (String.length unit) 20
  && bool_decide (reason ∈ ["RECIPE"; "LOW_STOCK"; "FORECAST"; "MANUAL"]%string).

(** [POST /shopping-lists/:id/items]; the row violates the foreign key
    of [listId] when the list does not exist. *)
Definition addItem (db : Db) (id : string) (articleId customName : option string)
    (quantity : Q) (unit reason : string) (estimatedPrice : option Q)
    : Reply ShoppingListItem string * Db :=
  if negb (validAddItem articleId customName quantity unit reason)
  then (Err 400 "Validation failed"%string, db)
  else
    match List.find (fun l => bool_decide (sl_id l = id)) (shoppingLists db) with
    | None => (Err 500 "Internal Server Error"%string, db)
    | Some _ =>
      let item :=
        mkItem id articleId customName quantity 1 reason estimatedPrice
               false None None None None in
      (Ok item, setItems (shoppingListItems db ++ [item]) db)
    end.

(** The batch that completion creates for a purchased item. *)
Definition batchOfItem (now : Z) (newId : string) (item : ShoppingListItem)
    : option Batch :=
  match (if truthy_str (i_articleId item) then i_articleId item else None) with
  | None => None
  | Some articleId =>
    let quantity :=
      default (i_neededQuantity item)
              (or_num (i_purchasedQuantity item) (Some (i_neededQuantity item))) in
    Some (mkBatch newId articleId quantity quantity
                  (default now (i_purchaseDate item))
                  (i_expiryDate item)
                  (or_num (i_actualPrice item) (i_estimatedPrice item))
                  None)
  end.

(** [POST /shopping-lists/:id/complete]; [newIds n] is the identifier
    that the store gives the batch of the [n]-th purchased item. *)
Definition completeShoppingList (db : Db) (id : string) (now : Z)
    (newIds : nat -> string) : Reply ShoppingList string * Db :=
  match List.find (fun l => bool_decide (sl_id l = id)) (shoppingLists db) with
  | None => (Err 404 "Shopping list not found"%string, db)
  | Some list =>
    if bool_decide (is_Some (sl_completedAt list))
    then (Err 400 "Shopping list already completed"%string, db)
    else
      (* [include: { items: { where: { isPurchased: true,
                                       articleId: { not: null } } } }] *)
      let items :=
        List.filter (fun i => bool_decide (i_listId i = id) && i_isPurchased i
                              && bool_decide (is_Some (i_articleId i)))
                    (shoppingListItems db) in
      let created :=
        omap (fun x => x) (imap (fun n => batchOfItem now (newIds n)) items) in
      let db1 := fold_left (fun d b => batchCreate b d) created db in
      let updated :=
        mkList (sl_id list) (sl_name list) (sl_shopDate list)
               (sl_planUntilDate list) (Some now) in
      (Ok updated,
       setLists (List.map (fun l => if bool_decide (sl_id l = id) then updated else l)
                          (shoppingLists db1)) db1)
  end.

End Routes.

End Shopping.
Import Shopping.

(** ** Vocabulary of the properties *)

Module Vocabulary.

(** All rows of an article in a batch table, and their summed quantity. *)
Definition rowsOf (articleId : string) (l : list Batch) : list Batch :=
  List.filter (fun b => bool_decide (b_articleId b = articleId)) l.

Definition stockOfArticle (db : Db) (articleId : string) : Q :=
  totalStock (rowsOf articleId (batches db)).

(** No batch holds a negative quantity. *)
Definition nonNegative (db : Db) : Prop :=
  Forall (fun b => 0 <= b_quantity b) (batches db).

(** Batch identifiers are a primary key. *)
Definition batchKey (db : Db) : Prop := List.NoDup (List.map b_id (batches db)).






(** The quantity and the price that completion records for a purchased
    item: the purchased quantity (actual price) when it is neither null nor
    zero, the needed quantity (estimated price) otherwise. *)
Definition boughtQuantity (item : ShoppingListItem) : Q :=
  match i_purchasedQuantity item with
  | Some p => if Qeq_bool p 0 then i_neededQuantity item else p
  | None => i_neededQuantity item
  end.

Definition paidPrice (item : ShoppingListItem) : option Q :=
  match i_actualPrice item with
  | Some p => if Qeq_bool p 0 then i_estimatedPrice item else Some p
  | None => i_estimatedPrice item
  end.

(** The purchased items of a list that are linked to an article. *)
Definition purchasedItems (db : Db) (listId : string) : list ShoppingListItem :=
  List.filter (fun i => bool_decide (i_listId i = listId) && i_isPurchased i
                        && truthy_str (i_articleId i))
              (shoppingListItems db).

(** What the validation schema of the unit routes guarantees of the rows of
    the unit table: positive factors and positive custom amounts. *)
Definition wf_row (r : UnitRow) : Prop :=
  0 < row_conversionFactor r /\
  forall a, row_convertsToAmount r = Some a -> 0 < a.

Definition wf_units (db : Db) : Prop := Forall wf_row (units db).

(** The inventory query: the summed quantity of the batches of an article
    that hold stock. *)
Definition currentStockOf (db : Db) (articleId : string) : Q :=
  totalStock (List.filter (inStock articleId) (batches db)).


(** The forecast for an article, 0 when there is none. *)
Definition forecastNeed (forecastedItems : list ForecastItem) (articleId : string) : Q :=
  default 0 (f_quantity <$>
               List.find (fun f => bool_decide (f_articleId f = articleId)) forecastedItems).

(** The items of a list that are linked to an article. *)
Definition itemsOf (articleId : string) (items : list NewItem) : list NewItem :=
  List.filter (fun it => bool_decide (n_articleId it = Some articleId)) items.

(** The shape of [requiredIngredients]: its keys are distinct, its entries
    come from recipes, and an entry that carries an article is filed under
    the identifier of that article. *)
Definition requiredInv (m : RequiredMap) : Prop :=
  List.NoDup (List.map fst m) /\
  forall kv, In kv m ->
    rq_reason (snd kv) = "RECIPE"%string /\
    forall a, requiredArticle (snd kv) = Some a -> fst kv = a.

End Vocabulary.
Import Vocabulary.

(** ** Sample data *)

Module Samples.
Local Open Scope string_scope.

Definition kg : UnitData := mkUnitData (Some "u-kg") "kg" (Some "mass") 1000 None None None.
Definition g : UnitData := mkUnitData (Some "u-g") "g" (Some "mass") 1 None None None.
Definition ml : UnitData := mkUnitData (Some "u-ml") "ml" (Some "volume") 1 None None None.
Definition Page : UnitData := mkUnitData (Some "u-page") "Page" None 1 None None None.
Definition Sheet : UnitData :=
    mkUnitData (Some "u-sheet") "Sheet" None 1 (Some "u-page") (Some 2) (Some ("u-page", "Page")).
Definition Roll : UnitData :=
    mkUnitData (Some "u-roll") "Roll" None 1 (Some "u-sheet") (Some 50) (Some ("u-sheet", "Sheet")).

(** A pantry: milk in two batches (3 ml expiring on day 2 and 5 ml expiring
    on day 10), rice in one batch of 5, flour in two batches (2 and 3), no
    eggs in stock. *)
Definition unitTable : list UnitRow :=
  [ mkUnitRow "u-pcs" "pcs" None 1 None None;
    mkUnitRow "u-g" "g" (Some "mass") 1 None None;
    mkUnitRow "u-kg" "kg" (Some "mass") 1000 None None;
    mkUnitRow "u-ml" "ml" (Some "volume") 1 None None;
    mkUnitRow "u-l" "l" (Some "volume") 1000 None None ].

Definition milk : Article := mkArticle "milk" "Milk" "ml" 1000 "ml" None None.
Definition rice : Article := mkArticle "rice" "Rice" "kg" 1 "kg" None None.
Definition flour : Article := mkArticle "flour" "Flour" "g" 1000 "g" None None.
Definition eggs : Article := mkArticle "eggs" "Eggs" "pcs" 10 "pcs" None None.

Definition pantry : Db :=
  mkDb unitTable [milk; rice; flour; eggs]
       [ mkBatch "milk-B" "milk" 5 5 0 (Some 10%Z) None None;
         mkBatch "milk-A" "milk" 3 3 0 (Some 2%Z) None None;
         mkBatch "rice-1" "rice" 5 5 0 None None None;
         mkBatch "flour-A" "flour" 2 2 0 (Some 2%Z) None None;
         mkBatch "flour-B" "flour" 3 3 0 (Some 10%Z) None None ]
       [] [] [] [] [].



(** A bakery: flour, measured in grams, in one batch of 1500 g. *)
Definition bakery : Db :=
  mkDb unitTable [flour] [mkBatch "flour-1" "flour" 1500 1500 0 None None None]
       [] [] [] [] [].



(** A shop: the active list "list-1" holds one purchased item of milk,
    bought for free (actual price 0, estimate 4.99) with a purchased
    quantity recorded as 0 for 3 needed; "list-0" is completed. *)
Definition shop : Db :=
  mkDb (units pantry) (articles pantry) [] [] [] []
       [ mkList "list-0" "Last week" 0 6 (Some 6%Z);
         mkList "list-1" "This week" 7 13 None ]
       [ mkItem "list-1" (Some "milk") None 3 1 "MANUAL" (Some (499 # 100))
                true (Some 0) (Some 0) None (Some 20%Z) ].

(** Scenario A: milk in packages of 1000 ml, 200 ml in stock, no minimum
    stock; a meal planned on day 3 needs 1500 ml. *)
Definition milkRecipe : Recipe :=
  mkRecipe "r-milk" "Rice pudding" 2 [mkIngredient "i-1" (Some "milk") None 1500 "ml" false].

Definition planA : Db :=
  mkDb unitTable [milk] [mkBatch "milk-1" "milk" 200 200 0 None None None] []
       [milkRecipe] [mkEntry 3 2 None milkRecipe] [] [].

(** A meal planned on day 3 needs 0.004 g of saffron, of which there is no
    stock. *)
Definition saffron : Article := mkArticle "saffron" "Saffron" "g" 1 "g" None None.

Definition saffronRecipe : Recipe :=
  mkRecipe "r-saffron" "Risotto" 2
    [mkIngredient "i-2" (Some "saffron") None (4 # 1000) "g" false].

Definition planTiny : Db :=
  mkDb unitTable [saffron] [] [] [saffronRecipe] [mkEntry 3 2 None saffronRecipe] [] [].

(** Rice with a minimum stock of 1 kg, of which 0.99999 kg are in stock. *)
Definition planLow : Db :=
  mkDb unitTable [mkArticle "rice" "Rice" "kg" 1 "kg" (Some 1) None]
       [mkBatch "rice-1" "rice" (99999 # 100000) 1 0 None None None] [] [] [] [] [].

End Samples.

(** ** The unit routes ([routes/units.ts]) *)

Module UnitRoutes.

(** A row of the [Unit] table: the columns of [UnitRow] and those that the
    conversion helpers do not read. *)
Record Unit := mkUnit {
  u_row : UnitRow;
  u_name : string;
  u_isDefault : bool;
  u_sortOrder : Z
}.

Definition u_id (u : Unit) : string := row_id (u_row u).
Definition u_symbol (u : Unit) : string := row_symbol (u_row u).

(** The table as [convertQuantityBetweenUnits] reads it. *)
Definition rowsOfUnits (us : list Unit) : list UnitRow := List.map u_row us.

(** [prisma.unit.findUnique({ where: { id } })] and
    [prisma.unit.findUnique({ where: { symbol } })] *)
Definition findUnitById (us : list Unit) (id : string) : option Unit :=
  List.find (fun u => bool_decide (u_id u = id)) us.

Definition findUnitWithSymbol (us : list Unit) (s : string) : option Unit :=
  List.find (fun u => bool_decide (u_symbol u = s)) us.

(** [DEFAULT_UNITS]: symbol, name, conversion group, factor, sort order. *)
Definition DEFAULT_UNITS : list (string * string * option string * Q * Z) :=
  [ ("pcs", "Stück", None, 1, 0%Z);
    ("g", "Gramm", Some "mass", 1, 1%Z);
    ("kg", "Kilogramm", Some "mass", 1000, 2%Z);
    ("ml", "Milliliter", Some "volume", 1, 3%Z);
    ("l", "Liter", Some "volume", 1000, 4%Z) ]%string.

(** The start of [unitsRoutes]: the default units are created when the
    table is empty; [newIds n] is the identifier that the store gives the
    [n]-th of them. *)
Definition seedUnits (newIds : nat -> string) (us : list Unit) : list Unit :=
  let existingUnits := length us in
  if Nat.eqb existingUnits 0
  then
    us ++ imap (fun n u =>
                  let '(symbol, name, conversionGroup, conversionFactor, sortOrder) := u in
                  mkUnit (mkUnitRow (newIds n) symbol conversionGroup conversionFactor
                                    None None)
                         name true sortOrder)
               DEFAULT_UNITS
  else us.

(** [prisma.unit.aggregate({ _max: { sortOrder: true } })]: [None] on the
    empty table. *)
Definition maxSortOrder (us : list Unit) : option Z :=
  fold_left (fun acc u =>
               match acc with
               | Some m => Some (Z.max m (u_sortOrder u))
               | None => Some (u_sortOrder u)
               end) us None.

(** The body of an error reply: [{ error, details }]. *)
Record UnitError := mkUnitError {
  ue_error : string;
  ue_details : option string
}.

(** The parsed body of [POST /units]; an absent and a [null] field are both
    [None] (the route reads them through [||]). *)
Record CreateUnit := mkCreateUnit {
  cu_symbol : string;
  cu_name : string;
  cu_conversionGroup : option string;
  cu_conversionFactor : option Q;
  cu_convertsToUnitId : option string;
  cu_convertsToAmount : option Q
}.

(** The parsed body of [PUT /units/:id]: the outer [None] is an absent
    field ([undefined]), [Some None] is [null]. *)
Record UpdateUnit := mkUpdateUnit {
  uu_symbol : option string;
  uu_name : option string;
  uu_conversionGroup : option (option string);
  uu_conversionFactor : option Q;
  uu_convertsToUnitId : option (option string);
  uu_convertsToAmount : option (option Q);
  uu_sortOrder : option Z
}.

(** [z.string().min(lo).max(hi)] *)
Definition lengthIn (lo hi : nat) (s : string) : bool :=
  Nat.leb lo (String.length s) && Nat.leb (String.length s) hi.

Section Routes.

(** The UUID test of zod, [parseFloat] ([None] when the result is [NaN])
    and the printing of a count. *)
Variable isUuid : string -> bool.
Variable parseFloat : string -> option Q.
Variable countToString : nat -> string.

(** [CreateUnitSchema] *)
Definition validCreateUnit (body : CreateUnit) : bool :=
  lengthIn 1 20 (cu_symbol body)
  && lengthIn 1 50 (cu_name body)
  && from_option (lengthIn 0 20) true (cu_conversionGroup body)
  && from_option (ltb 0) true (cu_conversionFactor body)
  && from_option isUuid true (cu_convertsToUnitId body)
  && from_option (ltb 0) true (cu_convertsToAmount body).

(** [UpdateUnitSchema] *)
Definition validUpdateUnit (body : UpdateUnit) : bool :=
  from_option (lengthIn 1 20) true (uu_symbol body)
  && from_option (lengthIn 1 50) true (uu_name body)
  && from_option (from_option (lengthIn 0 20) true) true (uu_conversionGroup body)
  && from_option (ltb 0) true (uu_conversionFactor body)
  && from_option (from_option isUuid true) true (uu_convertsToUnitId body)
  && from_option (from_option (ltb 0) true) true (uu_convertsToAmount body).

(** [POST /units]; [newId] is the identifier that the store gives the row. *)
Definition createUnit (authenticated : bool) (body : CreateUnit) (newId : string)
    (us : list Unit) : Reply Unit UnitError * list Unit :=
  if negb authenticated
  then (Err 401 (mkUnitError "Not authenticated" None), us)
  else if negb (validCreateUnit body)
  then (Err 400 (mkUnitError "Validation failed" None), us)
  else
    (* [conversionFactor: z.number().positive().optional().default(1)] *)
    let conversionFactor := default 1 (cu_conversionFactor body) in
    match findUnitWithSymbol us (cu_symbol body) with
    | Some _ => (Err 409 (mkUnitError "Unit with this symbol already exists" None), us)
    | None =>
      if truthy_str (cu_convertsToUnitId body)
         && negb (bool_decide
                    (is_Some (cu_convertsToUnitId body ≫= findUnitById us)))
      then (Err 400 (mkUnitError "Target conversion unit not found" None), us)
      else
        let nextSortOrder := (default (-1) (maxSortOrder us) + 1)%Z in
        let unit :=
          mkUnit (mkUnitRow newId (cu_symbol body)
                            (or_str (cu_conversionGroup body) None)
                            (default 1 (or_num (Some conversionFactor) (Some 1)))
                            (or_str (cu_convertsToUnitId body) None)
                            (or_num (cu_convertsToAmount body) None))
                 (cu_name body) false nextSortOrder in
        (Ok unit, us ++ [unit])
    end.

(** The row that [prisma.unit.update] writes: a field is replaced when the
    body carries it ([x !== undefined && { x }]). *)
Definition updatedUnit (existing : Unit) (body : UpdateUnit) : Unit :=
  let r := u_row existing in
  mkUnit
    (mkUnitRow (row_id r)
       (default (row_symbol r) (uu_symbol body))
       (match uu_conversionGroup body with
        | Some conversionGroup => or_str conversionGroup None
        | None => row_conversionGroup r
        end)
       (default (row_conversionFactor r) (uu_conversionFactor body))
       (match uu_convertsToUnitId body with
        | Some convertsToUnitId => or_str convertsToUnitId None
        | None => row_convertsToUnitId r
        end)
       (match uu_convertsToAmount body with
        | Some convertsToAmount => or_num convertsToAmount None
        | None => row_convertsToAmount r
        end))
    (default (u_name existing) (uu_name body))
    (u_isDefault existing)
    (default (u_sortOrder existing) (uu_sortOrder body)).

(** [PUT /units/:id] *)
Definition updateUnit (authenticated : bool) (id : string) (body : UpdateUnit)
    (us : list Unit) : Reply Unit UnitError * list Unit :=
  if negb authenticated
  then (Err 401 (mkUnitError "Not authenticated" None), us)
  else if negb (validUpdateUnit body)
  then (Err 400 (mkUnitError "Validation failed" None), us)
  else
    match findUnitById us id with
    | None => (Err 404 (mkUnitError "Unit not found" None), us)
    | Some existing =>
      if truthy_str (uu_symbol body)
         && negb (bool_decide (uu_symbol body = Some (u_symbol existing)))
         && bool_decide (is_Some (uu_symbol body ≫= findUnitWithSymbol us))
      then (Err 409 (mkUnitError "Unit with this symbol already exists" None), us)
      else
        let convertsToUnitId := mjoin (uu_convertsToUnitId body) in
        if truthy_str convertsToUnitId
           && negb (bool_decide (is_Some (convertsToUnitId ≫= findUnitById us)))
        then (Err 400 (mkUnitError "Target conversion unit not found" None), us)
        else if truthy_str convertsToUnitId
                && bool_decide (convertsToUnitId = Some id)
        then (Err 400 (mkUnitError "Unit cannot convert to itself" None), us)
        else
          let updated := updatedUnit existing body in
          (Ok updated,
           List.map (fun u => if bool_decide (u_id u = id) then updated else u) us)
    end.

(** [prisma.unit.delete({ where: { id } })]: the row goes, and the foreign
    key of [convertsToUnitId] ([ON DELETE SET NULL]) clears the references
    to it. *)
Definition unitDelete (id : string) (us : list Unit) : list Unit :=
  List.map (fun u =>
              if bool_decide (row_convertsToUnitId (u_row u) = Some id)
              then mkUnit (mkUnitRow (u_id u) (u_symbol u)
                                     (row_conversionGroup (u_row u))
                                     (row_conversionFactor (u_row u))
                                     None
                                     (row_convertsToAmount (u_row u)))
                          (u_name u) (u_isDefault u) (u_sortOrder u)
              else u)
           (List.filter (fun u => negb (bool_decide (u_id u = id))) us).

(** The three counts of [DELETE /units/:id]. *)
Definition articlesUsingUnit (db : Db) (symbol : string) : nat :=
  length (List.filter (fun a => bool_decide (a_defaultUnit a = symbol)
                                || bool_decide (a_packageUnit a = symbol))
                      (articles db)).

Definition recipesUsingUnit (db : Db) (symbol : string) : nat :=
  length (List.filter (fun i => bool_decide (ri_unit i = symbol))
                      (concat (List.map r_ingredients (recipes db)))).

Definition dependentUnits (us : list Unit) (id : string) : nat :=
  length (List.filter (fun u => bool_decide (row_convertsToUnitId (u_row u) = Some id))
                      us).

(** [DELETE /units/:id]; the articles and the recipe ingredients are those
    of [db]. *)
Definition deleteUnit (db : Db) (authenticated : bool) (id : string)
    (us : list Unit) : Reply unit UnitError * list Unit :=
  if negb authenticated
  then (Err 401 (mkUnitError "Not authenticated" None), us)
  else
    match findUnitById us id with
    | None => (Err 404 (mkUnitError "Unit not found" None), us)
    | Some existing =>
      if Nat.ltb 0 (articlesUsingUnit db (u_symbol existing))
      then
        (Err 400
           (mkUnitError "Unit is in use"
              (Some ("This unit is used by "
                     +:+ countToString (articlesUsingUnit db (u_symbol existing))
                     +:+ " article(s). Please change the unit on those articles first."))),
         us)
      else if Nat.ltb 0 (recipesUsingUnit db (u_symbol existing))
      then
        (Err 400
           (mkUnitError "Unit is in use"
              (Some ("This unit is used in "
                     +:+ countToString (recipesUsingUnit db (u_symbol existing))
                     +:+ " recipe ingredient(s). Please change the unit on those ingredients first."))),
         us)
      else if Nat.ltb 0 (dependentUnits us id)
      then
        (Err 400
           (mkUnitError "Unit has dependencies"
              (Some (countToString (dependentUnits us id)
                     +:+ " unit(s) are configured to convert to this unit. Please remove those conversions first."))),
         us)
      else (Ok tt, unitDelete id us)
    end.

(** A row as [prisma.unit.findUnique({ where: { symbol } })] returns it,
    without the joined target. *)
Definition unitDataOf (u : Unit) : UnitData :=
  {| unitId := Some (u_id u);
     symbol := u_symbol u;
     conversionGroup := row_conversionGroup (u_row u);
     conversionFactor := row_conversionFactor (u_row u);
     convertsToUnitId := row_convertsToUnitId (u_row u);
     convertsToAmount := row_convertsToAmount (u_row u);
     convertsToUnit := None |}.

(** The reply of [GET /units/convert]:
    [{ from: { symbol, quantity }, to: { symbol, quantity } }]. *)
Record Conversion := mkConversion {
  cv_from : string * Q;
  cv_to : string * Q
}.

(** [GET /units/convert?from=&to=&quantity=] *)
Definition convertRoute (us : list Unit) (from to quantityStr : string)
    : Reply Conversion UnitError :=
  match parseFloat quantityStr with
  | None => Err 400 (mkUnitError "Invalid quantity" None)
  | Some quantity =>
    match findUnitWithSymbol us from, findUnitWithSymbol us to with
    | None, _ => Err 404 (mkUnitError ("Unit '" +:+ from +:+ "' not found") None)
    | Some _, None => Err 404 (mkUnitError ("Unit '" +:+ to +:+ "' not found") None)
    | Some fromUnit, Some toUnit =>
      match convertUnits quantity (unitDataOf fromUnit) (unitDataOf toUnit) with
      | None =>
        Err 400
          (mkUnitError "Units are not convertible"
             (Some ("Cannot convert between '" +:+ from +:+ "' and '" +:+ to +:+ "'")))
      | Some result => Ok (mkConversion (from, quantity) (to, result))
      end
    end
  end.

End Routes.

(** *** Vocabulary *)

(** The shape of the unit table: identifiers and symbols are keys, factors
    and custom amounts are positive, a conversion group is not the empty
    string, and the target of a custom conversion is an existing unit other
    than the unit itself. *)
Definition unitsInv (us : list Unit) : Prop :=
  List.NoDup (List.map u_id us) /\
  List.NoDup (List.map u_symbol us) /\
  (forall u, In u us ->
     wf_row (u_row u) /\ row_conversionGroup (u_row u) <> Some EmptyString) /\
  (forall u t, In u us -> row_convertsToUnitId (u_row u) = Some t ->
     t <> EmptyString /\ t <> u_id u /\ In t (List.map u_id us)).

(** A row with its joined target, as
    [prisma.unit.findUnique({ where: { symbol }, include: { convertsToUnit } })]
    returns it. *)
Definition joinedUnit (us : list Unit) (u : Unit) : UnitData :=
  {| unitId := Some (u_id u);
     symbol := u_symbol u;
     conversionGroup := row_conversionGroup (u_row u);
     conversionFactor := row_conversionFactor (u_row u);
     convertsToUnitId := row_convertsToUnitId (u_row u);
     convertsToAmount := row_convertsToAmount (u_row u);
     convertsToUnit :=
       match row_convertsToUnitId (u_row u) with
       | Some i =>
         match findUnitById us i with
         | Some t => Some (u_id t, u_symbol t)
         | None => None
         end
       | None => None
       end |}.

(** The store with the unit table [us]. *)
Definition withUnits (us : list Unit) (db : Db) : Db :=
  mkDb (rowsOfUnits us) (articles db) (batches db) (consumptionLogs db) (recipes db)
       (mealPlanEntries db) (shoppingLists db) (shoppingListItems db).

End UnitRoutes.
Import UnitRoutes.

(** ** Arrays *)

Module Arrays.

Section Sort.

Context {A : Type}.

(** [Array.prototype.sort(compare)] for a consistent comparator: the stable
    sort that puts [a] before [b] when [compare(a, b) <= 0]. *)
Variable compare : A -> A -> Q.

Fixpoint insertSorted (x : A) (l : list A) : list A :=
  match l with
  | [] => [x]
  | y :: r => if leb (compare x y) 0 then x :: l else y :: insertSorted x r
  end.

Definition sort (l : list A) : list A := foldr insertSorted [] l.

End Sort.

End Arrays.
Import Arrays.

(** ** Tables with further columns *)

Module Columns.

(** A row of [Article] with the columns [isConsumable] and
    [defaultExpiryDays], and a row of [ConsumptionLog] with [consumedAt]. *)
Record ArticleRow := mkArticleRow {
  ar_article : Article;
  ar_isConsumable : bool;
  ar_defaultExpiryDays : option Z
}.

Record LogRow := mkLogRow {
  lr_log : ConsumptionLog;
  lr_consumedAt : Z
}.

Definition ar_id (a : ArticleRow) : string := a_id (ar_article a).

End Columns.
Import Columns.

(** ** Consumption forecast ([lib/forecast.ts]) *)

Module Forecast.

(** [interface ConsumptionForecast] *)
Record ConsumptionForecast := mkForecast {
  cf_articleId : string;
  cf_articleName : string;
  cf_unit : string;
  cf_totalConsumed : Q;
  cf_consumptionDays : Q;
  cf_averagePerDay : Q;
  cf_averagePerWeek : Q;
  cf_currentStock : Q;
  cf_daysUntilEmpty : option Q;
  cf_predictedNeedByDate : option Z;
  cf_recommendedPurchase : Q
}.

(** [interface ForecastOptions] *)
Record ForecastOptions := mkOptions {
  fo_lookbackDays : option Q;
  fo_forecastDays : option Q
}.

(** An element of the result of [getForecastedShoppingItems]. *)
Record ForecastedItem := mkForecastedItem {
  fi_articleId : string;
  fi_quantity : Q;
  fi_unit : string;
  fi_reason : string
}.

(** The comparator of [forecasts.sort]: by days until empty, most urgent
    first, [null] last. *)
Definition compareUrgency (a b : ConsumptionForecast) : Q :=
  match cf_daysUntilEmpty a, cf_daysUntilEmpty b with
  | None, None => 0
  | None, Some _ => 1
  | Some _, None => -1
  | Some x, Some y => x - y
  end.

Section Dates.

(** [subDays] and [differenceInDays] of date-fns, and
    [d.setDate(d.getDate() + n)]. *)
Variable subDays : Z -> Q -> Z.
Variable differenceInDays : Z -> Z -> Q.
Variable setDatePlus : Z -> Q -> Z.

(** The logs and batches that the queries include with an article:
    [consumptionLogs: { where: { consumedAt: { gte: lookbackDate } } }] and
    [batches: { where: { quantity: { gt: 0 } } }]. *)
Definition logsSince (logs : list LogRow) (articleId : string) (lookbackDate : Z)
    : list LogRow :=
  List.filter (fun l => bool_decide (l_articleId (lr_log l) = articleId)
                        && (lookbackDate <=? lr_consumedAt l)%Z)
              logs.

Definition batchesInStock (bs : list Batch) (articleId : string) : list Batch :=
  List.filter (inStock articleId) bs.

(** [getConsumptionForecasts]; [now] is [new Date()]. *)
Definition getConsumptionForecasts (now : Z) (arts : list ArticleRow)
    (logs : list LogRow) (bs : list Batch) (options : ForecastOptions)
    : list ConsumptionForecast :=
  let lookbackDays := default 30 (fo_lookbackDays options) in
  let forecastDays := default 7 (fo_forecastDays options) in
  let lookbackDate := subDays now lookbackDays in
  let articles := List.filter ar_isConsumable arts in
  let forecasts :=
    List.map
      (fun article =>
         let totalConsumed :=
           fold_left (fun sum log => sum + l_quantity (lr_log log))
                     (logsSince logs (ar_id article) lookbackDate) 0 in
         let currentStock :=
           fold_left (fun sum batch => sum + b_quantity batch)
                     (batchesInStock bs (ar_id article)) 0 in
         let averagePerDay := totalConsumed / lookbackDays in
         let averagePerWeek := averagePerDay * 7 in
         let '(daysUntilEmpty, predictedNeedByDate) :=
           if ltb 0 averagePerDay && ltb 0 currentStock
           then
             let daysUntilEmpty := inject_Z (Qfloor (currentStock / averagePerDay)) in
             (Some daysUntilEmpty, Some (setDatePlus now daysUntilEmpty))
           else if leb currentStock 0
           then (Some 0, Some now)
           else (None, None) in
         let neededForPeriod := averagePerDay * forecastDays in
         let recommendedPurchase := Qmax 0 (neededForPeriod - currentStock) in
         mkForecast (ar_id article) (a_name (ar_article article))
                    (a_defaultUnit (ar_article article))
                    totalConsumed lookbackDays averagePerDay averagePerWeek
                    currentStock daysUntilEmpty predictedNeedByDate
                    (inject_Z (Qceiling recommendedPurchase)))
      articles in
  sort compareUrgency forecasts.

(** [getArticleForecast] *)
Definition getArticleForecast (now : Z) (arts : list ArticleRow)
    (logs : list LogRow) (bs : list Batch) (articleId : string)
    (options : ForecastOptions) : option ConsumptionForecast :=
  let lookbackDays := default 30 (fo_lookbackDays options) in
  let forecastDays := default 7 (fo_forecastDays options) in
  let lookbackDate := subDays now lookbackDays in
  match List.find (fun a => bool_decide (ar_id a = articleId)) arts with
  | None => None
  | Some article =>
    let totalConsumed :=
      fold_left (fun sum log => sum + l_quantity (lr_log log))
                (logsSince logs (ar_id article) lookbackDate) 0 in
    let currentStock :=
      fold_left (fun sum batch => sum + b_quantity batch)
                (batchesInStock bs (ar_id article)) 0 in
    let averagePerDay := totalConsumed / lookbackDays in
    let averagePerWeek := averagePerDay * 7 in
    let '(daysUntilEmpty, predictedNeedByDate) :=
      if ltb 0 averagePerDay && ltb 0 currentStock
      then
        let daysUntilEmpty := inject_Z (Qfloor (currentStock / averagePerDay)) in
        (Some daysUntilEmpty, Some (setDatePlus now daysUntilEmpty))
      else if leb currentStock 0
      then (Some 0, Some now)
      else (None, None) in
    let neededForPeriod := averagePerDay * forecastDays in
    let recommendedPurchase := Qmax 0 (neededForPeriod - currentStock) in
    Some (mkForecast (ar_id article) (a_name (ar_article article))
                     (a_defaultUnit (ar_article article))
                     totalConsumed lookbackDays averagePerDay averagePerWeek
                     currentStock daysUntilEmpty predictedNeedByDate
                     (inject_Z (Qceiling recommendedPurchase)))
  end.

(** [getArticlesRunningLow]; [days] is [None] when the argument is left
    out. *)
Definition getArticlesRunningLow (now : Z) (arts : list ArticleRow)
    (logs : list LogRow) (bs : list Batch) (days : option Q)
    : list ConsumptionForecast :=
  let days := default 7 days in
  let forecasts :=
    getConsumptionForecasts now arts logs bs (mkOptions None (Some days)) in
  List.filter (fun f => match cf_daysUntilEmpty f with
                        | Some d => leb d days
                        | None => false
                        end)
              forecasts.

(** [getForecastedShoppingItems] *)
Definition getForecastedShoppingItems (now : Z) (arts : list ArticleRow)
    (logs : list LogRow) (bs : list Batch) (shopDate planUntilDate : Z)
    : list ForecastedItem :=
  let forecastDays := differenceInDays planUntilDate shopDate in
  let forecasts :=
    getConsumptionForecasts now arts logs bs (mkOptions None (Some forecastDays)) in
  List.map (fun f => mkForecastedItem (cf_articleId f) (cf_recommendedPurchase f)
                                      (cf_unit f) "FORECAST")
           (List.filter (fun f => ltb 0 (cf_recommendedPurchase f)) forecasts).

(** The forecast that both functions compute for one article, for the
    statements of the properties. *)
Definition forecastFor (now : Z) (logs : list LogRow) (bs : list Batch)
    (options : ForecastOptions) (article : ArticleRow) : ConsumptionForecast :=
  let lookbackDays := default 30 (fo_lookbackDays options) in
  let forecastDays := default 7 (fo_forecastDays options) in
  let totalConsumed :=
    fold_left (fun sum log => sum + l_quantity (lr_log log))
              (logsSince logs (ar_id article) (subDays now lookbackDays)) 0 in
  let currentStock := totalStock (batchesInStock bs (ar_id article)) in
  let averagePerDay := totalConsumed / lookbackDays in
  let '(daysUntilEmpty, predictedNeedByDate) :=
    if ltb 0 averagePerDay && ltb 0 currentStock
    then
      let daysUntilEmpty := inject_Z (Qfloor (currentStock / averagePerDay)) in
      (Some daysUntilEmpty, Some (setDatePlus now daysUntilEmpty))
    else if leb currentStock 0
    then (Some 0, Some now)
    else (None, None) in
  mkForecast (ar_id article) (a_name (ar_article article))
             (a_defaultUnit (ar_article article))
             totalConsumed lookbackDays averagePerDay (averagePerDay * 7)
             currentStock daysUntilEmpty predictedNeedByDate
             (inject_Z (Qceiling (Qmax 0 (averagePerDay * forecastDays - currentStock)))).

End Dates.

(** What the generator of shopping lists reads of a forecasted item. *)
Definition toForecastItem (i : ForecastedItem) : ForecastItem :=
  mkForecastItem (fi_articleId i) (fi_quantity i).

(** *** Vocabulary *)

(** [a] is at least as urgent as [b]: it runs empty no later; a forecast
    without a day comes after all others. *)
Definition urgencyLe (a b : ConsumptionForecast) : Prop :=
  match cf_daysUntilEmpty a, cf_daysUntilEmpty b with
  | Some x, Some y => x <= y
  | _, None => True
  | None, Some _ => False
  end.

(** The articles of a table without its further columns. *)
Definition articlesOfRows (arts : list ArticleRow) : list Article :=
  List.map ar_article arts.

End Forecast.
Import Forecast.

(** ** The batch routes ([routes/batches.ts]) *)

Module BatchRoutes.

(** The parsed bodies of [POST /batches], [PUT /batches/:id] and
    [PUT /batches/:id/purchase].  A date is the instant that [new Date]
    makes of the validated string.  In the bodies of the two [PUT] routes
    the outer [None] is an absent field ([undefined]) and [Some None] is
    [null]. *)
Record CreateBatch := mkCreateBatch {
  cb_articleId : string;
  cb_quantity : Q;
  cb_purchaseDate : option Z;
  cb_expiryDate : option Z;
  cb_purchasePrice : option Q;
  cb_notes : option string
}.

Record UpdateBatch := mkUpdateBatch {
  ub_quantity : option Q;
  ub_purchaseDate : option Z;
  ub_expiryDate : option (option Z);
  ub_purchasePrice : option (option Q);
  ub_notes : option (option string)
}.

Record UpdatePurchase := mkUpdatePurchase {
  up_initialQuantity : option Q;
  up_purchaseDate : option Z;
  up_expiryDate : option (option Z);
  up_purchasePrice : option (option Q);
  up_notes : option (option string)
}.

(** The body of an error reply: [{ error, details, consumed }]. *)
Record BatchError := mkBatchError {
  be_error : string;
  be_details : option string;
  be_consumed : option Q
}.

(** The reply of [PUT /batches/:id/purchase]:
    [{ ...batch, consumed, hasBeenConsumed }]. *)
Record PurchaseResult := mkPurchaseResult {
  pr_batch : Batch;
  pr_consumed : Q;
  pr_hasBeenConsumed : bool
}.

(** A JavaScript truthiness test on a nullable integer. *)
Definition truthy_int (o : option Z) : bool :=
  match o with
  | Some n => negb (n =? 0)%Z
  | None => false
  end.

(** [prisma.batch.update({ where: { id }, data })] with the row that the
    data make of the existing one. *)
Definition batchReplace (id : string) (new : Batch) (db : Db) : Db :=
  setBatches
    (List.map (fun b => if bool_decide (b_id b = id) then new else b) (batches db))
    db.

(** [prisma.batch.delete({ where: { id } })]: the row goes, and the foreign
    key of [ConsumptionLog.batchId] ([ON DELETE SET NULL]) clears the
    references to it. *)
Definition batchDelete (id : string) (db : Db) : Db :=
  setLogs
    (List.map (fun l =>
                 if bool_decide (l_batchId l = Some id)
                 then mkLog (l_articleId l) None (l_quantity l) (l_source l)
                            (l_recipeId l) (l_notes l)
                 else l)
              (consumptionLogs db))
    (setBatches (List.filter (fun b => negb (bool_decide (b_id b = id))) (batches db)) db).

Section Routes.

(** The UUID test of zod, [addDays] of date-fns and the printing of a
    number. *)
Variable isUuid : string -> bool.
Variable addDays : Z -> Z -> Z.
Variable numToString : Q -> string.

(** [CreateBatchSchema], [UpdateBatchSchema] and [UpdatePurchaseSchema] *)
Definition validCreateBatch (body : CreateBatch) : bool :=
  isUuid (cb_articleId body)
  && ltb 0 (cb_quantity body)
  && from_option (leb 0) true (cb_purchasePrice body)
  && from_option (lengthIn 0 500) true (cb_notes body).

Definition validUpdateBatch (body : UpdateBatch) : bool :=
  from_option (leb 0) true (ub_quantity body)
  && from_option (from_option (leb 0) true) true (ub_purchasePrice body)
  && from_option (from_option (lengthIn 0 500) true) true (ub_notes body).

Definition validUpdatePurchase (body : UpdatePurchase) : bool :=
  from_option (ltb 0) true (up_initialQuantity body)
  && from_option (from_option (leb 0) true) true (up_purchasePrice body)
  && from_option (from_option (lengthIn 0 500) true) true (up_notes body).

(** [POST /batches]; the article table is [arts], [now] is [new Date()] and
    [newId] the identifier that the store gives the row. *)
Definition createBatch (arts : list ArticleRow) (body : CreateBatch) (now : Z)
    (newId : string) (db : Db) : Reply Batch BatchError * Db :=
  if negb (validCreateBatch body)
  then (Err 400 (mkBatchError "Validation failed" None None), db)
  else
    match List.find (fun a => bool_decide (ar_id a = cb_articleId body)) arts with
    | None => (Err 404 (mkBatchError "Article not found" None None), db)
    | Some article =>
      let finalExpiryDate := cb_expiryDate body in
      let finalExpiryDate :=
        if negb (bool_decide (is_Some finalExpiryDate))
           && truthy_int (ar_defaultExpiryDays article)
        then
          let baseDate := default now (cb_purchaseDate body) in
          Some (addDays baseDate (default 0%Z (ar_defaultExpiryDays article)))
        else finalExpiryDate in
      let batch :=
        mkBatch newId (cb_articleId body) (cb_quantity body) (cb_quantity body)
                (default now (cb_purchaseDate body)) finalExpiryDate
                (cb_purchasePrice body) (cb_notes body) in
      (Ok batch, batchCreate batch db)
    end.

(** [PUT /batches/:id] *)
Definition updateBatch (id : string) (body : UpdateBatch) (db : Db)
    : Reply Batch BatchError * Db :=
  if negb (validUpdateBatch body)
  then (Err 400 (mkBatchError "Validation failed" None None), db)
  else
    match findBatch db id with
    | None => (Err 404 (mkBatchError "Batch not found" None None), db)
    | Some existingBatch =>
      let newInitialQuantity :=
        match ub_quantity body with
        | Some quantity =>
          if Qeq_bool (b_quantity existingBatch) (b_initialQuantity existingBatch)
             || ltb (b_initialQuantity existingBatch) quantity
          then quantity
          else b_initialQuantity existingBatch
        | None => b_initialQuantity existingBatch
        end in
      let batch :=
        mkBatch (b_id existingBatch) (b_articleId existingBatch)
                (default (b_quantity existingBatch) (ub_quantity body))
                (match ub_quantity body with
                 | Some _ => newInitialQuantity
                 | None => b_initialQuantity existingBatch
                 end)
                (default (b_purchaseDate existingBatch) (ub_purchaseDate body))
                (default (b_expiryDate existingBatch) (ub_expiryDate body))
                (default (b_purchasePrice existingBatch) (ub_purchasePrice body))
                (default (b_notes existingBatch) (ub_notes body)) in
      (Ok batch, batchReplace id batch db)
    end.

(** [PUT /batches/:id/purchase] *)
Definition updatePurchase (id : string) (body : UpdatePurchase) (db : Db)
    : Reply PurchaseResult BatchError * Db :=
  if negb (validUpdatePurchase body)
  then (Err 400 (mkBatchError "Validation failed" None None), db)
  else
    match findBatch db id with
    | None => (Err 404 (mkBatchError "Batch not found" None None), db)
    | Some existingBatch =>
      let consumed := b_initialQuantity existingBatch - b_quantity existingBatch in
      let hasBeenConsumed := ltb 0 consumed in
      (* [updateData.initialQuantity] and [updateData.quantity], or the
         rejection *)
      let quantities : option (Q * Q) :=
        match up_initialQuantity body with
        | Some initialQuantity =>
          if negb hasBeenConsumed
          then Some (initialQuantity, initialQuantity)
          else
            let newQuantity := initialQuantity - consumed in
            if ltb newQuantity 0 then None
            else Some (initialQuantity, newQuantity)
        | None => Some (b_initialQuantity existingBatch, b_quantity existingBatch)
        end in
      match quantities with
      | None =>
        (Err 400
           (mkBatchError "Invalid quantity"
              (Some ("Cannot set initial quantity to "
                     +:+ numToString (default 0 (up_initialQuantity body))
                     +:+ " because " +:+ numToString consumed
                     +:+ " has already been consumed"))
              (Some consumed)),
         db)
      | Some (initialQuantity, quantity) =>
        let batch :=
          mkBatch (b_id existingBatch) (b_articleId existingBatch)
                  quantity initialQuantity
                  (default (b_purchaseDate existingBatch) (up_purchaseDate body))
                  (default (b_expiryDate existingBatch) (up_expiryDate body))
                  (default (b_purchasePrice existingBatch) (up_purchasePrice body))
                  (default (b_notes existingBatch) (up_notes body)) in
        (Ok (mkPurchaseResult batch consumed hasBeenConsumed), batchReplace id batch db)
      end
    end.

(** [DELETE /batches/:id]: the store answers [P2025] when there is no such
    row. *)
Definition deleteBatch (id : string) (db : Db) : Reply unit BatchError * Db :=
  match findBatch db id with
  | None => (Err 404 (mkBatchError "Batch not found" None None), db)
  | Some _ => (Ok tt, batchDelete id db)
  end.

End Routes.

(** *** Vocabulary *)

(** Every batch holds between 0 and what was purchased. *)
Definition withinPurchase (db : Db) : Prop :=
  Forall (fun b => 0 <= b_quantity b /\ b_quantity b <= b_initialQuantity b)
         (batches db).

End BatchRoutes.
Import BatchRoutes.

(** ** The article routes ([routes/articles.ts]) *)

Module ArticleRoutes.

(** An element of the reply of [GET /articles]: the article with its
    batches in stock and the computed fields. *)
Record ArticleView := mkArticleView {
  av_article : Article;
  av_batches : list Batch;
  av_totalStock : Q;
  av_earliestExpiry : option Z;
  av_batchCount : nat;
  av_isLowStock : bool
}.

(** The reply of [GET /articles/:id]. *)
Record ArticleDetail := mkArticleDetail {
  ad_article : Article;
  ad_batches : list Batch;
  ad_totalStock : Q;
  ad_isLowStock : bool;
  ad_allBatches : list Batch;
  ad_lastPurchasePrice : option Q;
  ad_avgPrice : option Q
}.

(** [article.minStock ? totalStock < article.minStock : false] *)
Definition isLowStock (article : Article) (totalStock : Q) : bool :=
  match a_minStock article with
  | Some minStock =>
    if truthy_num (Some minStock) then ltb totalStock minStock else false
  | None => false
  end.

(** The store's collations for [orderBy: { purchaseDate: 'desc' }] and for
    [orderBy: { expiryDate: 'asc' }], rows without a date first; rows that
    tie stay in the order of the table. *)
Definition latestPurchaseFirst (a b : Batch) : bool :=
  (b_purchaseDate b <=? b_purchaseDate a)%Z.

Definition earliestExpiryFirst (a b : Batch) : bool :=
  match b_expiryDate a, b_expiryDate b with
  | Some x, Some y => (x <=? y)%Z
  | None, _ => true
  | Some _, None => false
  end.

(** [purchasePrice / initialQuantity] of a batch with a price. *)
Definition pricePerUnit (b : Batch) : option Q :=
  (fun purchasePrice => purchasePrice / b_initialQuantity b) <$> b_purchasePrice b.

(** [prisma.batch.findMany({ where: { quantity: { gt: 0 },
    expiryDate: { lte: endDate } }, orderBy: { expiryDate: 'asc' } })], the
    query of [GET /articles/expiring] and of the dashboard. *)
Definition expiringUntil (db : Db) (endDate : Z) : list Batch :=
  orderBy earliestExpiryFirst
    (List.filter (fun b => ltb 0 (b_quantity b)
                           && from_option (fun d => (d <=? endDate)%Z) false (b_expiryDate b))
                 (batches db)).

Section Routes.

(** The collation of the batches in stock. *)
Variable fifo_le : Batch -> Batch -> bool.

(** The [where] clause that the query string of [GET /articles] makes on
    location, category and search text, and the collation of
    [orderBy: [{ sortOrder: 'asc' }, { name: 'asc' }]] as a comparator. *)
Variable selected : Article -> bool.
Variable byOrder : Article -> Article -> Q.

(** [parseInt(s, 10)], [None] for [NaN]; [addDays] and [endOfDay] of
    date-fns. *)
Variable parseInt : string -> option Z.
Variable addDays : Z -> Z -> Z.
Variable endOfDay : Z -> Z.

(** The element that [GET /articles] makes of an article. *)
Definition articleView (db : Db) (article : Article) : ArticleView :=
  let batches := findStock fifo_le db (a_id article) in
  let totalStock := totalStock batches in
  let earliestExpiry :=
    List.find (fun b => bool_decide (is_Some (b_expiryDate b))) batches
    ≫= b_expiryDate in
  let batchCount := length batches in
  mkArticleView article batches totalStock earliestExpiry batchCount
                (isLowStock article totalStock).

(** [GET /articles]; [lowStock] is the parameter of the query string. *)
Definition listArticles (db : Db) (lowStock : option string) : list ArticleView :=
  let articles := Arrays.sort byOrder (List.filter selected (articles db)) in
  let result := List.map (articleView db) articles in
  if bool_decide (lowStock = Some "true"%string)
  then List.filter av_isLowStock result
  else result.

(** [GET /articles/expiring]; a [days] that is not a number makes an
    invalid date, which the store refuses. *)
Definition articlesExpiring (db : Db) (now : Z) (days : option string)
    : Reply (list Batch) string :=
  match parseInt (default "7"%string (or_str days (Some "7"%string))) with
  | Some days =>
    let endDate := endOfDay (addDays now days) in
    Ok (expiringUntil db endDate)
  | None => Err 500 "Internal Server Error"%string
  end.

(** [GET /articles/:id] *)
Definition articleDetail (db : Db) (id : string) : Reply ArticleDetail string :=
  match findArticle db id with
  | None => Err 404 "Article not found"%string
  | Some article =>
    let batches := findStock fifo_le db id in
    let allBatches :=
      take 50
        (orderBy latestPurchaseFirst
           (List.filter (fun b => bool_decide (b_articleId b = id)) (Store.batches db))) in
    let totalStock := totalStock batches in
    let batchesWithPrice :=
      List.filter (fun b => bool_decide (is_Some (b_purchasePrice b))
                            && ltb 0 (b_initialQuantity b))
                  allBatches in
    let lastPricePerUnit :=
      if Nat.ltb 0 (length batchesWithPrice)
      then head batchesWithPrice ≫= pricePerUnit
      else None in
    let avgPricePerUnit :=
      if Nat.ltb 0 (length batchesWithPrice)
      then
        let totalSpent :=
          fold_left (fun sum b => sum + default 0 (or_num (b_purchasePrice b) (Some 0)))
                    batchesWithPrice 0 in
        let totalQuantityPurchased :=
          fold_left (fun sum b => sum + b_initialQuantity b) batchesWithPrice 0 in
        if ltb 0 totalQuantityPurchased
        then Some (totalSpent / totalQuantityPurchased)
        else None
      else None in
    Ok (mkArticleDetail article batches totalStock (isLowStock article totalStock)
                        allBatches lastPricePerUnit avgPricePerUnit)
  end.

End Routes.

(** *** Vocabulary *)

(** The purchases that the prices of [GET /articles/:id] are taken from:
    the listed batches with a price and a positive purchased quantity. *)
Definition pricedPurchase (b : Batch) : Prop :=
  is_Some (b_purchasePrice b) /\ 0 < b_initialQuantity b.

End ArticleRoutes.
Import ArticleRoutes.

(** ** The dashboard ([routes/dashboard.ts]) *)

Module Dashboard.

(** An element of [lowStock]: the article with [totalStock] and
    [shortfall]. *)
Record LowStockArticle := mkLowStockArticle {
  ls_article : Article;
  ls_totalStock : Q;
  ls_shortfall : Q
}.

Section Routes.

(** [startOfDay], [endOfDay] and [addDays] of date-fns. *)
Variable startOfDay : Z -> Z.
Variable endOfDay : Z -> Z.
Variable addDays : Z -> Z -> Z.

(** [expired] and [expiringSoon] of [GET /dashboard]; [today] is
    [new Date()]. *)
Definition expiringBatches (db : Db) (today : Z) : list Batch :=
  let in7Days := endOfDay (addDays today 7) in
  expiringUntil db in7Days.

Definition expired (db : Db) (today : Z) : list Batch :=
  let todayStart := startOfDay today in
  List.filter (fun b => from_option (fun d => (d <? todayStart)%Z) false (b_expiryDate b))
              (expiringBatches db today).

Definition expiringSoon (db : Db) (today : Z) : list Batch :=
  let todayStart := startOfDay today in
  List.filter (fun b => from_option (fun d => (todayStart <=? d)%Z) false (b_expiryDate b))
              (expiringBatches db today).

End Routes.

(** [lowStock] of [GET /dashboard] *)
Definition lowStockArticles (db : Db) : list LowStockArticle :=
  let allArticles :=
    List.filter (fun a => bool_decide (is_Some (a_minStock a))) (articles db) in
  Arrays.sort (fun a b => ls_shortfall b - ls_shortfall a)
    (List.filter
       (fun a => ltb (ls_totalStock a)
                     (default 0 (or_num (a_minStock (ls_article a)) (Some 0))))
       (List.map
          (fun article =>
             let totalStock :=
               totalStock (List.filter (inStock (a_id article)) (batches db)) in
             mkLowStockArticle article totalStock
               (default 0 (or_num (a_minStock article) (Some 0)) - totalStock))
          allArticles)).

End Dashboard.
Import Dashboard.

(** ** The items of a shopping list ([routes/shopping.ts]) *)

Module ItemRoutes.

(** A row of [ShoppingListItem] with its identifier. *)
Record ItemRow := mkItemRow {
  ir_id : string;
  ir_item : ShoppingListItem
}.

(** The body of [PUT /shopping-lists/:listId/items/:itemId] as the route
    types it; [None] is an absent field.  For the two dates the instant is
    what [new Date] makes of the string, and [Some None] is [null] or the
    empty string. *)
Record UpdateItem := mkUpdateItem {
  ui_purchased : option bool;
  ui_quantity : option Q;
  ui_neededQuantity : option Q;
  ui_purchasedQuantity : option Q;
  ui_actualPrice : option Q;
  ui_purchaseDate : option (option Z);
  ui_expiryDate : option (option Z)
}.

Definition findItem (rows : list ItemRow) (itemId : string) : option ItemRow :=
  List.find (fun r => bool_decide (ir_id r = itemId)) rows.

(** [newEstimatedPrice], [None] when it stays [undefined]. *)
Definition newEstimatedPrice (rows : list ItemRow) (itemId : string)
    (body : UpdateItem) : option Q :=
  match ui_neededQuantity body with
  | Some neededQuantity =>
    match findItem rows itemId with
    | Some currentItem =>
      let item := ir_item currentItem in
      if truthy_str (i_articleId item)
         && ltb 0 (i_neededQuantity item)
         && bool_decide (is_Some (i_estimatedPrice item))
      then
        let pricePerUnit := default 0 (i_estimatedPrice item) / i_neededQuantity item in
        Some (js_round (pricePerUnit * neededQuantity * 100) / 100)
      else None
    | None => None
    end
  | None => None
  end.

(** [PUT /shopping-lists/:listId/items/:itemId]; the reply is the updated
    row. *)
Definition updateItem (rows : list ItemRow) (itemId : string) (body : UpdateItem)
    : Reply ItemRow string * list ItemRow :=
  let newEstimatedPrice := newEstimatedPrice rows itemId body in
  match findItem rows itemId with
  | None => (Err 404 "Item not found"%string, rows)
  | Some row =>
    let item := ir_item row in
    let purchasedQuantity :=
      match ui_purchasedQuantity body, ui_quantity body with
      | Some purchasedQuantity, _ => Some purchasedQuantity
      | None, Some quantity => Some quantity
      | None, None => i_purchasedQuantity item
      end in
    let updated :=
      mkItemRow (ir_id row)
        (mkItem (i_listId item) (i_articleId item) (i_customName item)
                (default (i_neededQuantity item) (ui_neededQuantity body))
                (i_recommendedPacks item) (i_reason item)
                (match newEstimatedPrice with
                 | Some price => Some price
                 | None => i_estimatedPrice item
                 end)
                (default (i_isPurchased item) (ui_purchased body))
                purchasedQuantity
                (match ui_actualPrice body with
                 | Some actualPrice => Some actualPrice
                 | None => i_actualPrice item
                 end)
                (default (i_purchaseDate item) (ui_purchaseDate body))
                (default (i_expiryDate item) (ui_expiryDate body))) in
    (Ok updated,
     List.map (fun r => if bool_decide (ir_id r = itemId) then updated else r) rows)
  end.

(** [DELETE /shopping-lists/:listId/items/:itemId] *)
Definition deleteItem (rows : list ItemRow) (itemId : string)
    : Reply unit string * list ItemRow :=
  match findItem rows itemId with
  | None => (Err 404 "Item not found"%string, rows)
  | Some _ =>
    (Ok tt, List.filter (fun r => negb (bool_decide (ir_id r = itemId))) rows)
  end.

(** [DELETE /shopping-lists/:id]: the items of the list go first, then the
    list; without the list the store answers [P2025]. *)
Definition deleteShoppingList (db : Db) (id : string) : Reply unit string * Db :=
  let db1 :=
    setItems (List.filter (fun i => negb (bool_decide (i_listId i = id)))
                          (shoppingListItems db)) db in
  match List.find (fun l => bool_decide (sl_id l = id)) (shoppingLists db1) with
  | None => (Err 404 "Shopping list not found"%string, db1)
  | Some _ =>
    (Ok tt,
     setLists (List.filter (fun l => negb (bool_decide (sl_id l = id)))
                           (shoppingLists db1)) db1)
  end.

(** *** Vocabulary *)

(** The store with the items of an item table. *)
Definition withItems (rows : list ItemRow) (db : Db) : Db :=
  setItems (List.map ir_item rows) db.

(** What completion adds to the stock of an article: the bought
    quantities of the purchased items of the list that name it. *)
Definition boughtOf (db : Db) (listId articleId : string) : Q :=
  fold_left (fun sum i => sum + boughtQuantity i)
            (List.filter (fun i => bool_decide (i_articleId i = Some articleId))
                         (purchasedItems db listId))
            0.

End ItemRoutes.
Import ItemRoutes.

(** ** The meal plan routes ([routes/mealPlan.ts]) *)

Module MealPlanRoutes.

(** A row of [MealPlanEntry] with its identifier. *)
Record EntryRow := mkEntryRow {
  er_id : string;
  er_entry : MealPlanEntry
}.

(** A value of [ingredientMap]. *)
Record PlanIngredient := mkPlanIngredient {
  pi_articleId : option string;
  pi_articleName : option string;
  pi_categoryMatch : option string;
  pi_unit : string;
  pi_totalQuantity : Q;
  pi_recipes : list string
}.

(** [ingredientMap]: a [Map], iterated in insertion order. *)
Definition IngredientMap := list (string * PlanIngredient).

Definition findEntry (rows : list EntryRow) (id : string) : option EntryRow :=
  List.find (fun r => bool_decide (er_id r = id)) rows.

(** [prisma.mealPlanEntry.update({ where: { id }, data: { completedAt } })]
    on the row [entry] of the identifier: the updated row and the table. *)
Definition setCompletedAt (completedAt : option Z) (entry : EntryRow)
    (rows : list EntryRow) : EntryRow * list EntryRow :=
  let updated :=
    mkEntryRow (er_id entry)
      (mkEntry (e_date (er_entry entry)) (e_servings (er_entry entry))
               completedAt (e_recipe (er_entry entry))) in
  (updated,
   List.map (fun r => if bool_decide (er_id r = er_id entry) then updated else r) rows).

(** [POST /meal-plan/:id/complete]; [now] is [new Date()]. *)
Definition completeMeal (rows : list EntryRow) (id : string) (now : Z)
    : Reply EntryRow string * list EntryRow :=
  match findEntry rows id with
  | None => (Err 404 "Meal plan entry not found"%string, rows)
  | Some entry =>
    if bool_decide (is_Some (e_completedAt (er_entry entry)))
    then (Err 400 "Meal already completed"%string, rows)
    else
      let '(updated, rows') := setCompletedAt (Some now) entry rows in
      (Ok updated, rows')
  end.

(** [POST /meal-plan/:id/uncomplete] *)
Definition uncompleteMeal (rows : list EntryRow) (id : string)
    : Reply EntryRow string * list EntryRow :=
  match findEntry rows id with
  | None => (Err 404 "Meal plan entry not found"%string, rows)
  | Some entry =>
    if negb (bool_decide (is_Some (e_completedAt (er_entry entry))))
    then (Err 400 "Meal is not completed"%string, rows)
    else
      let '(updated, rows') := setCompletedAt None entry rows in
      (Ok updated, rows')
  end.

(** The body of [for (const ing of entry.recipe.ingredients)] of
    [GET /meal-plan/ingredients]. *)
Definition aggregateIngredient (db : Db) (recipeName : string) (portionMultiplier : Q)
    (m : IngredientMap) (ing : RecipeIngredient) : IngredientMap :=
  let key :=
    default EmptyString
      (or_str (ri_articleId ing)
         (or_str (ri_categoryMatch ing) (Some ("unknown-" +:+ ri_id ing)))) in
  let existing := snd <$> List.find (fun kv => bool_decide (fst kv = key)) m in
  let neededQuantity := ri_quantity ing * portionMultiplier in
  match existing with
  | Some _ =>
    List.map
      (fun kv =>
         if bool_decide (fst kv = key)
         then
           let existing := snd kv in
           (fst kv,
            mkPlanIngredient (pi_articleId existing) (pi_articleName existing)
              (pi_categoryMatch existing) (pi_unit existing)
              (pi_totalQuantity existing + neededQuantity)
              (if bool_decide (recipeName ∈ pi_recipes existing)
               then pi_recipes existing
               else pi_recipes existing ++ [recipeName]))
         else kv)
      m
  | None =>
    let article := ri_articleId ing ≫= findArticle db in
    m ++ [(key,
           mkPlanIngredient (ri_articleId ing) (or_str (a_name <$> article) None)
             (ri_categoryMatch ing) (ri_unit ing) neededQuantity [recipeName])]
  end.

(** The body of [for (const entry of entries)]. *)
Definition aggregateEntry (db : Db) (m : IngredientMap) (entry : MealPlanEntry)
    : IngredientMap :=
  let portionMultiplier := e_servings entry / r_servings (e_recipe entry) in
  fold_left (aggregateIngredient db (r_name (e_recipe entry)) portionMultiplier)
            (r_ingredients (e_recipe entry)) m.

Definition ingredientMap (db : Db) (fromDate toDate : Z) : IngredientMap :=
  fold_left (aggregateEntry db) (findMealEntries db fromDate toDate) [].

Section Routes.

(** [parseISO], [startOfDay] and [endOfDay] of date-fns; a string that is
    not a date is outside the model. *)
Variable parseISO : string -> Z.
Variable startOfDay : Z -> Z.
Variable endOfDay : Z -> Z.

(** [GET /meal-plan/ingredients] *)
Definition planIngredients (db : Db) (from to : option string)
    : Reply (list PlanIngredient) string :=
  if negb (truthy_str from) || negb (truthy_str to)
  then Err 400 "from and to dates are required"%string
  else
    let fromDate := startOfDay (parseISO (default EmptyString from)) in
    let toDate := endOfDay (parseISO (default EmptyString to)) in
    Ok (List.map snd (ingredientMap db fromDate toDate)).

End Routes.

(** *** Vocabulary *)

(** The store with the entries of an entry table. *)
Definition withEntries (rows : list EntryRow) (db : Db) : Db :=
  mkDb (units db) (articles db) (batches db) (consumptionLogs db) (recipes db)
       (List.map er_entry rows) (shoppingLists db) (shoppingListItems db).

(** The ingredient is measured in the unit that the generator of shopping
    lists counts it in: it has no article in the store, or the article has
    no default unit, or the units are the same. *)
Definition inCountedUnit (db : Db) (ing : RecipeIngredient) : Prop :=
  forall article, ri_articleId ing ≫= findArticle db = Some article ->
    a_defaultUnit article = EmptyString \/ ri_unit ing = a_defaultUnit article.

End MealPlanRoutes.
Import MealPlanRoutes.

(** ** More sample data *)

Module Examples.
Local Open Scope string_scope.

(** A unit table: grams and kilograms, and rolls of 50 sheets. *)
Definition sheet : Unit :=
  mkUnit (mkUnitRow "u-sheet" "Sheet" None 1 None None) "Sheet" false 5.

Definition roll : Unit :=
  mkUnit (mkUnitRow "u-roll" "Roll" None 1 (Some "u-sheet") (Some 50)) "Roll" false 6.

Definition shelf : list Unit :=
  [ mkUnit (mkUnitRow "u-g" "g" (Some "mass") 1 None None) "Gramm" true 1;
    mkUnit (mkUnitRow "u-kg" "kg" (Some "mass") 1000 None None) "Kilogramm" true 2;
    sheet;
    roll ].

(** A request for a new unit, a box of 12 rolls, and the row that it
    creates under the identifier "u-box". *)
Definition boxOfRolls : CreateUnit :=
  mkCreateUnit "Box" "Box" None None (Some "u-roll") (Some 12).

Definition box : Unit :=
  mkUnit (mkUnitRow "u-box" "Box" None 1 (Some "u-roll") (Some 12)) "Box" false 7.

(** The articles of the pantry with their further columns: eggs are
    consumable and out of stock, flour is not consumable. *)
Definition milkRow : ArticleRow := mkArticleRow Samples.milk true (Some 7%Z).
Definition riceRow : ArticleRow := mkArticleRow Samples.rice true None.
Definition eggsRow : ArticleRow := mkArticleRow Samples.eggs true None.
Definition flourRow : ArticleRow := mkArticleRow Samples.flour false None.

Definition larder : list ArticleRow := [milkRow; riceRow; eggsRow; flourRow].

(** The consumption of milk: 4 ml on day 10, 20 ml on day 80 and 40 ml on
    day 95. *)
Definition diary : list LogRow :=
  [ mkLogRow (mkLog "milk" None 4 "MANUAL" None None) 10;
    mkLogRow (mkLog "milk" None 20 "MANUAL" None None) 80;
    mkLogRow (mkLog "milk" None 40 "RECIPE" None None) 95 ].

(** The consumption of rice and eggs: 30 kg of rice on day 90 and 90 eggs
    on day 95. *)
Definition ledger : list LogRow :=
  [ mkLogRow (mkLog "rice" None 30 "MANUAL" None None) 90;
    mkLogRow (mkLog "eggs" None 90 "MANUAL" None None) 95 ].

(** The pantry after 2 of the 3 ml of the batch "milk-A" were consumed. *)
Definition opened : Db :=
  mkDb Samples.unitTable [Samples.milk; Samples.rice; Samples.flour; Samples.eggs]
       [ mkBatch "milk-B" "milk" 5 5 0 (Some 10%Z) None None;
         mkBatch "milk-A" "milk" 1 3 0 (Some 2%Z) None None;
         mkBatch "rice-1" "rice" 5 5 0 None None None ]
       [ mkLog "milk" (Some "milk-A") 2 "MANUAL" None None ] [] [] [] [].

(** A purchase of 2 ml of milk, and the correction of a purchase to 2.5. *)
Definition moreMilk : CreateBatch := mkCreateBatch "milk" 2 None None (Some 1) None.

Definition halfMore : UpdatePurchase :=
  mkUpdatePurchase (Some (5 # 2)) None None None None.

(** A cellar: milk with a minimum stock of 10, bought twice (5 for 10 on
    day 1, 3 for 3 on day 2, of which 1 is left), and rice. *)
Definition milkMin : Article := mkArticle "milk" "Milk" "ml" 1000 "ml" (Some 10) None.

Definition cellar : Db :=
  mkDb Samples.unitTable [milkMin; Samples.rice]
       [ mkBatch "milk-1" "milk" 5 5 1 (Some 10%Z) (Some 10) None;
         mkBatch "milk-2" "milk" 1 3 2 (Some 4%Z) (Some 3) None;
         mkBatch "rice-1" "rice" 5 5 0 None None None ]
       [] [] [] [] [].

(** A market: the plan of scenario A with milk bought twice, for 2 and
    for 1. *)
Definition market : Db :=
  mkDb Samples.unitTable [Samples.milk]
       [ mkBatch "milk-1" "milk" 200 1000 0 None (Some 2) None;
         mkBatch "milk-0" "milk" 0 1000 0 None (Some 1) None ]
       [] [Samples.milkRecipe] [mkEntry 3 2 None Samples.milkRecipe] [] [].

(** The entry table of the plan of scenario A. *)
Definition week : list EntryRow :=
  [ mkEntryRow "e-1" (mkEntry 3 2 None Samples.milkRecipe) ].

(** The item table of the shop, and a request for 6 instead of 3. *)
Definition basket : list ItemRow :=
  [ mkItemRow "item-1"
      (mkItem "list-1" (Some "milk") None 3 1 "MANUAL" (Some (499 # 100))
              true (Some 0) (Some 0) None (Some 20%Z)) ].

Definition sixOfThem : UpdateItem :=
  mkUpdateItem None None (Some 6) (Some 5) None None None.

(** Dates as day numbers. *)
Definition minusDays (d : Z) (n : Q) : Z := (d - Qfloor n)%Z.
Definition plusDays (d : Z) (n : Q) : Z := (d + Qfloor n)%Z.
Definition daysBetween (later earlier : Z) : Q := inject_Z (later - earlier).

End Examples.

(** * Properties *)

(** ** Unit conversion *)

Section UnitConversion.

Lemma truthy_str_Some (s : string) : s <> EmptyString -> truthy_str (Some s) = true.
Proof. intros H. unfold truthy_str. by rewrite bool_decide_eq_false_2. Qed.

Lemma truthy_str_inv (o : option string) :
    truthy_str o = true -> exists s, o = Some s /\ s <> EmptyString.
Proof.
    destruct o as [s|]; simpl; [|discriminate].
    intros H. exists s. split; [done|]. intros ->. by rewrite bool_decide_eq_true_2 in H.
Qed.

Lemma truthy_num_Some (a : Q) : ~ a == 0 -> truthy_num (Some a) = true.
Proof.
    intros H. unfold truthy_num. destruct (Qeq_bool a 0) eqn:E; [|done].
    apply Qeq_bool_iff in E. contradiction.
Qed.

Lemma customAmount_edge (u v : UnitData) (a : Q) :
    wf_unit u -> (customAmount u v = Some a <-> edgeTo u v a).
Proof.
    intros [_ _ Ht Ha]. unfold customAmount, edgeTo. split.
    - destruct (truthy_str (convertsToUnitId u)) eqn:E1; simpl; [|discriminate].
      destruct (truthy_num (convertsToAmount u)) eqn:E2; simpl; [|discriminate].
      destruct (targetsb u v) eqn:E3; [|discriminate].
      intros Heq. apply truthy_str_inv in E1 as (i & Hi & _). eauto.
    - intros ((i & Hi) & Hamt & Htg).
      rewrite Hi, Hamt, Htg.
      rewrite truthy_str_Some by (intros ->; by apply Ht).
      rewrite truthy_num_Some; [done|].
      specialize (Ha a Hamt). intros E. rewrite E in Ha. by apply Qlt_irrefl in Ha.
Qed.

Lemma customAmount_None (u v : UnitData) :
    wf_unit u -> (forall a, ~ edgeTo u v a) -> customAmount u v = None.
Proof.
    intros Hwf Hno. destruct (customAmount u v) as [a|] eqn:E; [|done].
    apply customAmount_edge in E; [|done]. by destruct (Hno a).
Qed.

Lemma group_test (u v : UnitData) :
    wf_unit u ->
    (truthy_str (conversionGroup u) && bool_decide (conversionGroup u = conversionGroup v)
     = true <-> sharesGroup u v).
Proof.
    intros [Hg _ _ _]. unfold sharesGroup. rewrite andb_true_iff, bool_decide_eq_true. split.
    - intros [Ht Heq]. apply truthy_str_inv in Ht as (s & Hs & _).
      exists s. split; congruence.
    - intros (s & Hu & Hv). rewrite Hu, Hv. split; [|done].
      apply truthy_str_Some. intros ->. by apply Hg.
Qed.

(** C5.  [convertUnits] applies the five rules of the specification in
    order and returns the first match: the same symbol returns the input
    unchanged; else a shared non-null conversion group gives
    [quantity * fromFactor / toFactor]; else a custom edge of the source
    unit to the target unit gives [quantity * convertsToAmount]; else a
    custom edge of the target unit back to the source unit gives
    [quantity / convertsToAmount]; else the units are not convertible
    ([None]): there is no resolution over several edges or across groups.
    So 2 kg are 2000 g, 2 Roll are 100 Sheet and 100 Sheet are 2 Roll. *)
Theorem convertUnits_rules :
    (forall (q : Q) (f t : UnitData), wf_unit f -> wf_unit t ->
       (symbol f = symbol t -> convertUnits q f t = Some q) /\
       (symbol f <> symbol t -> sharesGroup f t ->
          convertUnits q f t = Some (q * conversionFactor f / conversionFactor t)) /\
       (symbol f <> symbol t -> ~ sharesGroup f t ->
          forall a, edgeTo f t a -> convertUnits q f t = Some (q * a)) /\
       (symbol f <> symbol t -> ~ sharesGroup f t -> (forall a, ~ edgeTo f t a) ->
          forall a, edgeTo t f a -> convertUnits q f t = Some (q / a)) /\
       (symbol f <> symbol t -> ~ sharesGroup f t -> (forall a, ~ edgeTo f t a) ->
          (forall a, ~ edgeTo t f a) -> convertUnits q f t = None))
    /\ opt_Qeq (convertUnits 2 Samples.kg Samples.g) (Some 2000)
    /\ opt_Qeq (convertUnits 2 Samples.Roll Samples.Sheet) (Some 100)
    /\ opt_Qeq (convertUnits 100 Samples.Sheet Samples.Roll) (Some 2)
    /\ convertUnits 1 Samples.Roll Samples.Page = None
    /\ convertUnits 1 Samples.kg Samples.ml = None.
Proof.
    split; [|repeat split; vm_compute; reflexivity].
    intros q f t Hf Ht. unfold convertUnits.
    pose proof (group_test f t Hf) as Hgrp.
    repeat split.
    - intros Hs. by rewrite bool_decide_eq_true_2.
    - intros Hs Hsh. rewrite bool_decide_eq_false_2 by done.
      apply Hgrp in Hsh. by rewrite Hsh.
    - intros Hs Hsh a He. rewrite bool_decide_eq_false_2 by done.
      destruct (truthy_str _ && _); [by destruct Hsh; apply Hgrp|].
      apply customAmount_edge in He; [|done]. by rewrite He.
    - intros Hs Hsh Hno a He. rewrite bool_decide_eq_false_2 by done.
      destruct (truthy_str _ && _); [by destruct Hsh; apply Hgrp|].
      rewrite customAmount_None by done.
      apply customAmount_edge in He; [|done]. by rewrite He.
    - intros Hs Hsh Hno Hno'. rewrite bool_decide_eq_false_2 by done.
      destruct (truthy_str _ && _); [by destruct Hsh; apply Hgrp|].
      by rewrite !customAmount_None.
Qed.

Lemma wf_kg : wf_unit Samples.kg.
Proof. split; [done | reflexivity | done | discriminate]. Qed.

Lemma wf_g : wf_unit Samples.g.
Proof. split; [done | reflexivity | done | discriminate]. Qed.

Lemma convertUnits_rules_witness :
    convertUnits 2 Samples.kg Samples.g
    = Some (2 * conversionFactor Samples.kg / conversionFactor Samples.g).
Proof.
    destruct convertUnits_rules as [H _].
    destruct (H 2 Samples.kg Samples.g wf_kg wf_g) as (_ & H2 & _).
    apply H2; [discriminate|].
    exists "mass"%string. split; reflexivity.
Defined.

End UnitConversion.

(** ** Numbers and tests *)

Section Tests.

Lemma leb_true (x y : Q) : leb x y = true <-> x <= y.
Proof. apply Qle_bool_iff. Qed.

Lemma leb_false (x y : Q) : leb x y = false <-> y < x.
Proof.
  unfold leb. split; intros H.
  - apply Qnot_le_lt. intros Hle. apply Qle_bool_iff in Hle. congruence.
  - destruct (Qle_bool x y) eqn:E; [|done].
    apply Qle_bool_iff in E. lra.
Qed.

Lemma ltb_true (x y : Q) : ltb x y = true <-> x < y.
Proof.
  unfold ltb. rewrite negb_true_iff. apply (leb_false y x).
Qed.

Lemma ltb_false (x y : Q) : ltb x y = false <-> y <= x.
Proof.
  unfold ltb. rewrite negb_false_iff. apply Qle_bool_iff.
Qed.


Lemma Qmin_cases (x y : Q) :
  (x < y /\ Qmin x y == x) \/ (y <= x /\ Qmin x y == y).
Proof. apply Q.min_spec. Qed.

End Tests.

(** ** Stock sums and the batch table *)

Section StockFacts.

Variable fifo_le : Batch -> Batch -> bool.

Lemma fold_stock_acc (bs : list Batch) (acc : Q) :
  fold_left (fun sum b => sum + b_quantity b) bs acc
  == acc + fold_left (fun sum b => sum + b_quantity b) bs 0.
Proof.
  revert acc. induction bs as [|b bs IH]; intros acc; simpl.
  - lra.
  - rewrite (IH (acc + b_quantity b)), (IH (0 + b_quantity b)). lra.
Qed.

Lemma totalStock_nil : totalStock [] == 0.
Proof. reflexivity. Qed.

Lemma totalStock_cons (b : Batch) (bs : list Batch) :
  totalStock (b :: bs) == b_quantity b + totalStock bs.
Proof. unfold totalStock. simpl. rewrite fold_stock_acc. lra. Qed.

Lemma totalStock_app (l1 l2 : list Batch) :
  totalStock (l1 ++ l2) == totalStock l1 + totalStock l2.
Proof.
  induction l1 as [|b l1 IH]; simpl.
  - rewrite totalStock_nil. lra.
  - rewrite !totalStock_cons, IH. lra.
Qed.

Lemma totalStock_perm (l1 l2 : list Batch) :
  Permutation l1 l2 -> totalStock l1 == totalStock l2.
Proof.
  induction 1 as [|x l l' _ IH|x y l|l l' l'' _ IH1 _ IH2].
  - reflexivity.
  - rewrite !totalStock_cons, IH. reflexivity.
  - rewrite !totalStock_cons. lra.
  - by rewrite IH1.
Qed.

Lemma totalStock_nonneg (l : list Batch) :
  Forall (fun b => 0 <= b_quantity b) l -> 0 <= totalStock l.
Proof.
  induction 1 as [|b l Hb _ IH].
  - rewrite totalStock_nil. lra.
  - rewrite totalStock_cons. lra.
Qed.

Lemma insertBy_perm (b : Batch) (l : list Batch) :
  Permutation (insertBy fifo_le b l) (b :: l).
Proof.
  induction l as [|x l IH]; simpl; [done|].
  destruct (fifo_le b x); [done|].
  rewrite IH. apply perm_swap.
Qed.

Lemma orderBy_perm (l : list Batch) : Permutation (orderBy fifo_le l) l.
Proof.
  induction l as [|x l IH]; simpl; [done|].
  rewrite insertBy_perm. by constructor.
Qed.

Lemma findStock_perm (db : Db) (a : string) :
  Permutation (findStock fifo_le db a) (List.filter (inStock a) (batches db)).
Proof. apply orderBy_perm. Qed.

Lemma findStock_In (db : Db) (a : string) (b : Batch) :
  In b (findStock fifo_le db a) <->
  In b (batches db) /\ b_articleId b = a /\ 0 < b_quantity b.
Proof.
  rewrite (Permutation_in' (eq_refl b) (findStock_perm db a)).
  rewrite filter_In. unfold inStock.
  rewrite andb_true_iff, bool_decide_eq_true, ltb_true. tauto.
Qed.

Lemma NoDup_map_filter {A B : Type} (f : A -> B) (p : A -> bool) (l : list A) :
  List.NoDup (List.map f l) -> List.NoDup (List.map f (List.filter p l)).
Proof.
  induction l as [|x l IH]; simpl; [done|].
  intros H. apply NoDup_cons_iff in H as [Hx Hl].
  destruct (p x); simpl; [|by apply IH].
  apply NoDup_cons_iff. split; [|by apply IH].
  intros Hin. apply Hx. apply in_map_iff in Hin as (y & Hy & Hin).
  apply filter_In in Hin as [Hin _]. apply in_map_iff. eauto.
Qed.

Lemma findStock_NoDup (db : Db) (a : string) :
  List.NoDup (List.map b_id (batches db)) ->
  List.NoDup (List.map b_id (findStock fifo_le db a)).
Proof.
  intros H.
  eapply Permutation_NoDup.
  - apply Permutation_map. symmetry. apply findStock_perm.
  - by apply NoDup_map_filter.
Qed.

End StockFacts.

(** ** The order of consumption *)

Lemma StronglySorted_impl {A : Type} (R S : A -> A -> Prop) (l : list A) :
  (forall a b, R a b -> S a b) -> StronglySorted R l -> StronglySorted S l.
Proof.
  intros H. induction 1 as [|x l Hl IH Hx]; constructor; [done|].
  eapply List.Forall_impl; [|exact Hx]. intros y. apply H.
Qed.

Section OrderFacts.

Variable le : Batch -> Batch -> bool.

Hypothesis le_total : forall a b, le a b = true \/ le b a = true.
Hypothesis le_trans : forall a b c, le a b = true -> le b c = true -> le a c = true.

Lemma insertBy_sorted (b : Batch) (l : list Batch) :
  StronglySorted (fun x y => le x y = true) l ->
  StronglySorted (fun x y => le x y = true) (insertBy le b l).
Proof.
  induction 1 as [|x l Hl IH Hx]; simpl; [repeat constructor|].
  destruct (le b x) eqn:E.
  - constructor; [by constructor|]. constructor; [done|].
    eapply List.Forall_impl; [|exact Hx]. intros y Hy. by apply (le_trans b x y).
  - constructor; [done|].
    apply List.Forall_forall. intros y Hy.
    eapply Permutation_in in Hy; [|apply insertBy_perm].
    destruct Hy as [<-|Hy].
    + destruct (le_total b x) as [H|H]; [congruence|done].
    + by apply (proj1 (List.Forall_forall _ _) Hx).
Qed.

Lemma orderBy_sorted (l : list Batch) :
  StronglySorted (fun x y => le x y = true) (orderBy le l).
Proof.
  induction l as [|x l IH]; simpl; [constructor|]. by apply insertBy_sorted.
Qed.

End OrderFacts.

Lemma expiryThenPurchase_total (a b : Batch) :
  expiryThenPurchase a b = true \/ expiryThenPurchase b a = true.
Proof.
  unfold expiryThenPurchase.
  destruct (b_expiryDate a) as [x|], (b_expiryDate b) as [y|]; try tauto; lia.
Qed.

Lemma expiryThenPurchase_trans (a b c : Batch) :
  expiryThenPurchase a b = true -> expiryThenPurchase b c = true ->
  expiryThenPurchase a c = true.
Proof.
  unfold expiryThenPurchase.
  destruct (b_expiryDate a) as [x|], (b_expiryDate b) as [y|],
    (b_expiryDate c) as [z|]; try done; lia.
Qed.

Lemma expiryThenPurchase_expiry (a b : Batch) (x y : Z) :
  expiryThenPurchase a b = true ->
  b_expiryDate a = Some x -> b_expiryDate b = Some y -> (x <= y)%Z.
Proof. unfold expiryThenPurchase. intros H Hx Hy. rewrite Hx, Hy in H. lia. Qed.

(** ** Updating a batch row *)

Section UpdateFacts.

Lemma batches_update (id : string) (q : Q) (db : Db) :
  batches (batchUpdateQuantity id q db)
  = List.map (fun b => if bool_decide (b_id b = id) then setQuantity q b else b)
             (batches db).
Proof. reflexivity. Qed.

Lemma update_ids (id : string) (q : Q) (l : list Batch) :
  List.map b_id
    (List.map (fun b => if bool_decide (b_id b = id) then setQuantity q b else b) l)
  = List.map b_id l.
Proof.
  rewrite List.map_map. apply List.map_ext. intros x. by destruct (bool_decide _).
Qed.

Lemma update_absent (id : string) (q : Q) (l : list Batch) :
  ~ In id (List.map b_id l) ->
  List.map (fun b => if bool_decide (b_id b = id) then setQuantity q b else b) l = l.
Proof.
  induction l as [|x l IH]; simpl; [done|].
  intros H. rewrite IH by tauto.
  rewrite bool_decide_eq_false_2; [done|]. intros E. apply H. by left.
Qed.

Lemma update_keeps (id : string) (q : Q) (l : list Batch) (x : Batch) :
  In x l -> b_id x <> id ->
  In x (List.map (fun b => if bool_decide (b_id b = id) then setQuantity q b else b) l).
Proof.
  intros Hx Hne. apply in_map_iff. exists x. split; [|done].
  by rewrite bool_decide_eq_false_2.
Qed.

Lemma key_inj (l : list Batch) (x y : Batch) :
  List.NoDup (List.map b_id l) -> In x l -> In y l -> b_id x = b_id y -> x = y.
Proof.
  induction l as [|z l IH]; simpl; [done|].
  intros Hnd Hx Hy Heq. apply NoDup_cons_iff in Hnd as [Hz Hl].
  destruct Hx as [->|Hx], Hy as [->|Hy]; [done| | |by apply IH].
  - destruct Hz. rewrite Heq. by apply in_map.
  - destruct Hz. rewrite <- Heq. by apply in_map.
Qed.

Lemma update_nonneg (id : string) (q : Q) (db : Db) :
  0 <= q -> nonNegative db -> nonNegative (batchUpdateQuantity id q db).
Proof.
  unfold nonNegative. rewrite batches_update. intros Hq H.
  apply Forall_forall. intros y Hy. apply list_elem_of_In, in_map_iff in Hy as (x & <- & Hx).
  destruct (bool_decide _); [done|].
  eapply Forall_forall in H; [exact H|]. by apply list_elem_of_In.
Qed.

Lemma update_rows_other (a id : string) (q : Q) (l : list Batch) :
  (forall x, In x l -> b_id x = id -> b_articleId x <> a) ->
  rowsOf a (List.map (fun b => if bool_decide (b_id b = id) then setQuantity q b else b) l)
  = rowsOf a l.
Proof.
  induction l as [|x l IH]; simpl; [done|].
  intros H. unfold rowsOf in *. simpl. rewrite IH by (intros; apply H; auto).
  destruct (bool_decide (b_id x = id)) eqn:E; [|done].
  apply bool_decide_eq_true in E. simpl.
  rewrite bool_decide_eq_false_2; [done|]. apply H; auto.
Qed.

End UpdateFacts.

(** ** The FIFO loop *)



Section FifoFacts.

Variable mkLogOf : Batch -> Q -> ConsumptionLog.

Lemma fifoLoop_nil (r : Q) (logs : list ConsumptionLog) (db : Db) :
  fifoLoop mkLogOf [] r logs db = (db, r, logs).
Proof. reflexivity. Qed.

Lemma fifoLoop_break (b : Batch) (bs : list Batch) (r : Q)
    (logs : list ConsumptionLog) (db : Db) :
  r <= 0 -> fifoLoop mkLogOf (b :: bs) r logs db = (db, r, logs).
Proof. intros H. simpl. apply leb_true in H. by rewrite H. Qed.

Lemma fifoLoop_step (b : Batch) (bs : list Batch) (r : Q)
    (logs : list ConsumptionLog) (db : Db) :
  0 < r ->
  fifoLoop mkLogOf (b :: bs) r logs db
  = fifoLoop mkLogOf bs (r - Qmin (b_quantity b) r)
      (logs ++ [mkLogOf b (Qmin (b_quantity b) r)])
      (logCreate (mkLogOf b (Qmin (b_quantity b) r))
         (batchUpdateQuantity (b_id b) (b_quantity b - Qmin (b_quantity b) r) db)).
Proof. intros H. simpl. apply leb_false in H. by rewrite H. Qed.




(** No step drives a quantity below zero. *)
Lemma fifoLoop_nonneg (bs : list Batch) (r : Q) (logs : list ConsumptionLog) (db : Db)
    (db' : Db) (r' : Q) (logs' : list ConsumptionLog) :
  fifoLoop mkLogOf bs r logs db = (db', r', logs') ->
  nonNegative db -> nonNegative db'.
Proof.
  revert r logs db. induction bs as [|b bs IH]; intros r logs db H Hnn.
  - rewrite fifoLoop_nil in H. by simplify_eq.
  - destruct (Qlt_le_dec 0 r) as [Hr|Hr].
    + rewrite fifoLoop_step in H by done.
      apply IH in H; [done|].
      apply (update_nonneg (b_id b) (b_quantity b - Qmin (b_quantity b) r) db); [|done].
      destruct (Qmin_cases (b_quantity b) r) as [[? ->]|[? ->]]; lra.
    + rewrite fifoLoop_break in H by done. by simplify_eq.
Qed.

(** The loop keeps the identifiers of the batches a key and leaves the rows
    of every other article as they are. *)
Lemma fifoLoop_stock (a : string) (bs : list Batch) (r : Q)
    (logs : list ConsumptionLog) (db : Db)
    (db' : Db) (r' : Q) (logs' : list ConsumptionLog) :
  fifoLoop mkLogOf bs r logs db = (db', r', logs') ->
  batchKey db -> List.NoDup (List.map b_id bs) ->
  (forall b, In b bs -> In b (batches db) /\ b_articleId b = a) ->
  batchKey db' /\
  (forall a', a' <> a -> rowsOf a' (batches db') = rowsOf a' (batches db)).
Proof.
  revert r logs db. induction bs as [|b bs IH]; intros r logs db H Hkey Hnd Hin.
  - rewrite fifoLoop_nil in H. by simplify_eq.
  - destruct (Qlt_le_dec 0 r) as [Hr|Hr].
    + rewrite fifoLoop_step in H by done.
      apply NoDup_cons_iff in Hnd as [Hb Hnd].
      destruct (Hin b) as [Hbin Hba]; [by left|].
      apply IH in H as (Hkey' & Hother); [| |done|].
      * split; [done|].
        intros a' Ha'. rewrite Hother by done. simpl.
        apply update_rows_other. intros x Hx Hid.
        assert (x = b) as -> by (by apply (key_inj (batches db))). congruence.
      * unfold batchKey. simpl. by rewrite update_ids.
      * intros x Hx. destruct (Hin x) as [Hxin Hxa]; [by right|]. split; [|done].
        simpl. apply update_keeps; [done|]. intros E. apply Hb.
        rewrite <- E. by apply in_map.
    + rewrite fifoLoop_break in H by done. by simplify_eq.
Qed.

End FifoFacts.

(** ** Consumption from an article and stock correction *)

Section ArticleConsumption.

Variable fifo_le : Batch -> Batch -> bool.

Lemma inStock_rows_sum (a : string) (l : list Batch) :
  Forall (fun b => 0 <= b_quantity b) l ->
  totalStock (List.filter (inStock a) l) == totalStock (rowsOf a l).
Proof.
  induction 1 as [|b l Hb _ IH]; [done|].
  unfold rowsOf, inStock in *. simpl.
  destruct (bool_decide (b_articleId b = a)); simpl; [|done].
  destruct (ltb 0 (b_quantity b)) eqn:E.
  - rewrite !totalStock_cons, IH. lra.
  - apply ltb_false in E. rewrite totalStock_cons, IH. lra.
Qed.

Lemma findStock_total (db : Db) (a : string) :
  nonNegative db ->
  totalStock (findStock fifo_le db a) == stockOfArticle db a.
Proof.
  intros H. rewrite (totalStock_perm _ _ (findStock_perm fifo_le db a)).
  by apply inStock_rows_sum.
Qed.

Lemma findStock_positive (db : Db) (a : string) (b : Batch) :
  In b (findStock fifo_le db a) -> 0 < b_quantity b.
Proof. intros H. by apply findStock_In in H as (_ & _ & H). Qed.

Lemma findStock_rows (db : Db) (a : string) (b : Batch) :
  In b (findStock fifo_le db a) -> In b (batches db) /\ b_articleId b = a.
Proof. intros H. by apply findStock_In in H as (? & ? & _). Qed.



Lemma or_str_Some (a : option string) (s : string) :
  exists s', or_str a (Some s) = Some s'.
Proof. unfold or_str. destruct (truthy_str a) eqn:E; [|eauto].
  apply truthy_str_inv in E as (x & -> & _). eauto. Qed.

End ArticleConsumption.

(** ** The outcome of a FIFO consumption *)

Section FifoConsumption.

Variable mkLogOf : Batch -> Q -> ConsumptionLog.






End FifoConsumption.

(** ** Consumption from an article and stock correction *)

Section ArticleStock.

Variable numToString : Q -> string.



End ArticleStock.


(** ** Consumption from one batch *)

Section BatchConsumption.

Variable numToString : Q -> string.
Variable trim : string -> string.

Lemma unitDiffers_true (u defaultUnit : string) :
  u <> EmptyString -> u <> defaultUnit -> unitDiffers (Some u) defaultUnit = true.
Proof.
  intros H1 H2. unfold unitDiffers.
  rewrite truthy_str_Some by done.
  rewrite bool_decide_eq_false_2; [done|]. congruence.
Qed.

Lemma unitDiffers_false (unit : option string) (defaultUnit : string) :
  unit = None \/ unit = Some EmptyString \/ unit = Some defaultUnit ->
  unitDiffers unit defaultUnit = false.
Proof.
  unfold unitDiffers. intros [-> | [-> | ->]]; [done|done|].
  rewrite bool_decide_eq_true_2 by done. apply andb_false_r.
Qed.

(** C7.  [consumeFromBatch] on a batch that exists, for a request that
    passes validation.  When a unit is supplied that differs from the unit
    of the article, the requested quantity is converted with
    [convertQuantityBetweenUnits]: if the units do not convert, the reply is
    the error 400 "Cannot convert <unit> to <article's unit>" and the store
    is unchanged; if the converted quantity exceeds the quantity of the
    batch, the reply is the error 400 "Insufficient stock. Available:
    <quantity of the batch> <article's unit>", naming the request and its
    conversion, and the store is unchanged (no decrement, no log);
    otherwise the batch loses the converted quantity and one log of that
    quantity is written.  Without a unit, or with the unit of the article,
    the same holds of the requested quantity as it is. *)
Theorem consumeFromBatch_rejections (db : Db) (id : string) (quantity : Q)
    (unit source notes : option string) (batch : Batch) (article : Article) :
  validConsumeBatch quantity unit source notes = true ->
  findBatch db id = Some batch ->
  findArticle db (b_articleId batch) = Some article ->
  let result := consumeFromBatch numToString trim db id quantity unit source notes in
  let defaultUnit := a_defaultUnit article in
  let available :=
    ("Insufficient stock. Available: "
       +:+ numToString (b_quantity batch) +:+ " " +:+ defaultUnit)%string in
  (forall u, unit = Some u -> u <> EmptyString -> u <> defaultUnit ->
     let converted := convertQuantityBetweenUnits (units db) quantity u defaultUnit in
     (converted = None ->
        result
        = (Err 400 (mkBatchConsumeError
                      ("Cannot convert " +:+ u +:+ " to " +:+ defaultUnit) None), db)) /\
     (forall qd, converted = Some qd -> b_quantity batch < qd ->
        result
        = (Err 400 (mkBatchConsumeError available
                      (Some (numToString quantity +:+ " " +:+ u +:+ " (= "
                               +:+ numToString qd +:+ " " +:+ defaultUnit +:+ ")"))),
           db)) /\
     (forall qd, converted = Some qd -> qd <= b_quantity batch ->
        exists res,
          result.1 = Ok res /\
          l_quantity (bc_log res) = qd /\
          l_batchId (bc_log res) = Some id /\
          bc_conversion res = Some ((quantity, u), (qd, defaultUnit)) /\
          result.2
          = logCreate (bc_log res)
              (batchUpdateQuantity id (b_quantity batch - qd) db))) /\
  (unit = None \/ unit = Some EmptyString \/ unit = Some defaultUnit ->
     (b_quantity batch < quantity ->
        exists requested,
          result = (Err 400 (mkBatchConsumeError available requested), db)) /\
     (quantity <= b_quantity batch ->
        exists res,
          result.1 = Ok res /\
          l_quantity (bc_log res) = quantity /\
          l_batchId (bc_log res) = Some id /\
          bc_conversion res = None /\
          result.2
          = logCreate (bc_log res)
              (batchUpdateQuantity id (b_quantity batch - quantity) db))).
Proof.
  intros Hvalid Hbatch Harticle result defaultUnit available.
  subst result defaultUnit available.
  unfold consumeFromBatch. rewrite Hvalid, Hbatch, Harticle. cbn [negb].
  split.
  - intros u -> Hu Hne.
    unfold toDefaultUnit. rewrite unitDiffers_true by done.
    change (default EmptyString (Some u)) with u. split; [|split].
    + by intros ->.
    + intros qd -> Hlt. rewrite (proj2 (ltb_true _ _)) by done.
      by rewrite truthy_str_Some.
    + intros qd -> Hle. rewrite (proj2 (ltb_false _ _)) by done.
      eexists. by split_and!.
  - intros Hunit. unfold toDefaultUnit.
    rewrite (unitDiffers_false _ _ Hunit). split.
    + intros Hlt. rewrite (proj2 (ltb_true _ _)) by done. eauto.
    + intros Hle. rewrite (proj2 (ltb_false _ _)) by done.
      eexists. by split_and!.
Qed.

End BatchConsumption.

(** ** Cooking a recipe *)

Section Cooking.

Variable fifo_le : Batch -> Batch -> bool.

Lemma checkIngredient_inr (db : Db) (m : Q) (ing : RecipeIngredient)
    (a : string) (art : Article) (needed : Q) (bs : list Batch) :
  checkIngredient fifo_le db m ing = inr (a, art, needed, bs) ->
  resolveArticle db ing = Some (a, art) /\
  neededInArticleUnit db (ri_quantity ing * m) (ri_unit ing) (a_defaultUnit art)
  = Some needed /\
  bs = findStock fifo_le db a /\ needed <= totalStock bs.
Proof.
  unfold checkIngredient.
  destruct (resolveArticle db ing) as [[a' art']|]; [|discriminate].
  destruct (neededInArticleUnit _ _ _ _) as [n|] eqn:En; [|discriminate].
  destruct (ltb _ _) eqn:E; [discriminate|].
  intros H. simplify_eq. apply ltb_false in E. auto.
Qed.

Lemma cookIngredient_missing (recipe : Recipe) (m : Q) (st : CookState)
    (ing : RecipeIngredient) (missing : Missing) :
  checkIngredient fifo_le (cs_db st) m ing = inl missing ->
  cookIngredient fifo_le recipe m st ing
  = mkCookState (cs_db st) (cs_consumed st) (cs_missing st ++ [missing]).
Proof. intros H. unfold cookIngredient. by rewrite H. Qed.

Lemma cookIngredient_consumed (recipe : Recipe) (m : Q) (st : CookState)
    (ing : RecipeIngredient) (a : string) (art : Article) (needed : Q) (bs : list Batch) :
  checkIngredient fifo_le (cs_db st) m ing = inr (a, art, needed, bs) ->
  let st' := cookIngredient fifo_le recipe m st ing in
  cs_missing st' = cs_missing st /\
  cs_consumed st'
  = cs_consumed st
      ++ [mkCooked a (a_name art) needed (a_defaultUnit art)
            (ri_quantity ing * m) (ri_unit ing)] /\
  (nonNegative (cs_db st) -> nonNegative (cs_db st')) /\
  (batchKey (cs_db st) ->
     batchKey (cs_db st') /\
     (forall a', a' <> a ->
        rowsOf a' (batches (cs_db st')) = rowsOf a' (batches (cs_db st)))).
Proof.
  intros H st'. subst st'. unfold cookIngredient. rewrite H.
  apply checkIngredient_inr in H as (_ & _ & -> & Hle).
  destruct (fifoLoop _ _ _ _ _) as [[db' r'] logs'] eqn:Hloop. simpl.
  split; [done|]. split; [done|]. split.
  - intros Hnn. by apply fifoLoop_nonneg in Hloop.
  - intros Hkey.
    pose proof (fifoLoop_stock _ a _ _ _ _ _ _ _ Hloop Hkey) as (Hkey' & Hoth);
      [by apply findStock_NoDup|intros b Hb; by apply findStock_rows in Hb|].
    by split.
Qed.

Lemma cookIngredient_nonneg (recipe : Recipe) (m : Q) (st : CookState)
    (ing : RecipeIngredient) :
  nonNegative (cs_db st) -> nonNegative (cs_db (cookIngredient fifo_le recipe m st ing)).
Proof.
  intros H. destruct (checkIngredient fifo_le (cs_db st) m ing) as [x|[[[a art] n] bs]] eqn:E.
  - by rewrite (cookIngredient_missing _ _ _ _ _ E).
  - by apply (cookIngredient_consumed recipe) in E as (_ & _ & E & _); apply E.
Qed.

Lemma cook_fold_nonneg (recipe : Recipe) (m : Q) (ings : list RecipeIngredient)
    (st : CookState) :
  nonNegative (cs_db st) ->
  nonNegative (cs_db (fold_left (cookIngredient fifo_le recipe m) ings st)).
Proof.
  revert st. induction ings as [|ing ings IH]; intros st H; [done|].
  simpl. apply IH. by apply cookIngredient_nonneg.
Qed.


End Cooking.

Section CookingRoute.




End CookingRoute.

(** ** Batch quantities never go below zero *)

Section NonNegativity.

Variable fifo_le : Batch -> Batch -> bool.
Variable numToString : Q -> string.
Variable trim : string -> string.

Lemma consumeFromArticle_nonneg (db : Db) (id : string) (q : Q)
    (source notes : option string) :
  nonNegative db -> nonNegative (consumeFromArticle fifo_le db id q source notes).2.
Proof.
  intros H. unfold consumeFromArticle.
  destruct (Qeq_bool q 0 || leb q 0); [done|].
  destruct (Nat.eqb _ _); [done|].
  destruct (fifoLoop _ _ _ _ _) as [[db' r'] logs'] eqn:Hloop. simpl.
  by apply fifoLoop_nonneg in Hloop.
Qed.

Lemma correctStock_nonneg (db : Db) (id : string) (actualStock : Q)
    (notes : option string) (now : Z) (newId : string) :
  nonNegative db ->
  nonNegative (correctStock fifo_le numToString db id actualStock notes now newId).2.
Proof.
  intros H. unfold correctStock, correctByDifference.
  destruct (ltb actualStock 0); [done|].
  destruct (Qeq_bool _ 0); [done|].
  destruct (ltb 0 _) eqn:E.
  - destruct (findArticle db id); [|done].
    apply ltb_true in E. unfold nonNegative. simpl.
    apply Forall_app. split; [done|]. constructor; [simpl; lra|constructor].
  - destruct (fifoLoop _ _ _ _ _) as [[db' r'] logs'] eqn:Hloop. simpl.
    by apply fifoLoop_nonneg in Hloop.
Qed.

Lemma cookRecipe_nonneg (db : Db) (id : string) (servings : option Q) :
  nonNegative db -> nonNegative (cookRecipe fifo_le db id servings).2.
Proof.
  intros H. unfold cookRecipe.
  destruct (List.find _ _) as [recipe|]; [|done].
  match goal with
  | |- context [fold_left (cookIngredient _ _ ?m) ?l ?s] =>
      pose proof (cook_fold_nonneg fifo_le recipe m l s H) as Hst
  end.
  by destruct (Nat.ltb _ _).
Qed.

Lemma consumeFromBatch_nonneg (db : Db) (id : string) (q : Q)
    (unit source notes : option string) :
  nonNegative db ->
  nonNegative (consumeFromBatch numToString trim db id q unit source notes).2.
Proof.
  intros H. unfold consumeFromBatch.
  destruct (negb _); [done|].
  destruct (findBatch db id) as [batch|]; [|done].
  destruct (findArticle db _) as [article|]; [|done].
  destruct (toDefaultUnit _ _ _ _) as [qd|]; [|done].
  destruct (ltb _ _) eqn:E; [done|].
  apply ltb_false in E. simpl.
  apply (update_nonneg id (b_quantity batch - qd) db); [lra|done].
Qed.

(** C10.  No consuming operation drives a batch quantity below zero: when
    every batch of the store holds a quantity [>= 0], so does every batch
    after [consumeFromArticle], [correctStock], [cookRecipe] and
    [consumeFromBatch].  Each step of the FIFO loop takes
    [min(batch.quantity, remaining)] off its batch, and the consumption of
    one batch leaves the store as it is when the converted quantity exceeds
    the quantity of the batch. *)
Theorem batch_quantities_stay_nonnegative (db : Db) :
  nonNegative db ->
  (forall id q source notes,
     nonNegative (consumeFromArticle fifo_le db id q source notes).2) /\
  (forall id actualStock notes now newId,
     nonNegative (correctStock fifo_le numToString db id actualStock notes now newId).2) /\
  (forall id servings, nonNegative (cookRecipe fifo_le db id servings).2) /\
  (forall id q unit source notes,
     nonNegative (consumeFromBatch numToString trim db id q unit source notes).2) /\
  (forall mkLogOf batch rest remaining logs,
     0 < remaining ->
     let toConsume := Qmin (b_quantity batch) remaining in
     fifoLoop mkLogOf (batch :: rest) remaining logs db
     = fifoLoop mkLogOf rest (remaining - toConsume) (logs ++ [mkLogOf batch toConsume])
         (logCreate (mkLogOf batch toConsume)
            (batchUpdateQuantity (b_id batch) (b_quantity batch - toConsume) db))
     /\ 0 <= b_quantity batch - toConsume) /\
  (forall id q unit source notes batch article qd,
     findBatch db id = Some batch ->
     findArticle db (b_articleId batch) = Some article ->
     toDefaultUnit db q unit (a_defaultUnit article) = Some qd ->
     b_quantity batch < qd ->
     (consumeFromBatch numToString trim db id q unit source notes).2 = db).
Proof.
  intros H. split; [|split; [|split; [|split; [|split]]]].
  - intros. by apply consumeFromArticle_nonneg.
  - intros. by apply correctStock_nonneg.
  - intros. by apply cookRecipe_nonneg.
  - intros. by apply consumeFromBatch_nonneg.
  - intros mk batch rest remaining logs Hr toConsume. split.
    + by apply fifoLoop_step.
    + subst toConsume.
      destruct (Qmin_cases (b_quantity batch) remaining) as [[? ->]|[? ->]]; lra.
  - intros id q unit source notes batch article qd Hb Ha Hq Hlt.
    unfold consumeFromBatch. destruct (negb _); [done|].
    rewrite Hb, Ha, Hq. by rewrite (proj2 (ltb_true _ _)).
Qed.

End NonNegativity.

(** ** Completing a shopping list *)

Section Completion.

Lemma fold_batchCreate (created : list Batch) (db : Db) :
  let db' := fold_left (fun d b => batchCreate b d) created db in
  batches db' = batches db ++ created /\
  shoppingLists db' = shoppingLists db /\
  shoppingListItems db' = shoppingListItems db /\
  consumptionLogs db' = consumptionLogs db.
Proof.
  revert db. induction created as [|b created IH]; intros db; simpl.
  - by rewrite app_nil_r.
  - destruct (IH (batchCreate b db)) as (-> & -> & -> & ->). simpl.
    by rewrite <- app_assoc.
Qed.

Lemma batchOfItem_fields (now : Z) (newId : string) (item : ShoppingListItem) :
  match batchOfItem now newId item with
  | Some b =>
    truthy_str (i_articleId item) = true /\
    Some (b_articleId b) = i_articleId item /\
    b_id b = newId /\
    b_quantity b = boughtQuantity item /\
    b_initialQuantity b = boughtQuantity item /\
    b_purchasePrice b = paidPrice item /\
    b_expiryDate b = i_expiryDate item /\
    b_purchaseDate b = default now (i_purchaseDate item)
  | None => truthy_str (i_articleId item) = false
  end.
Proof.
  unfold batchOfItem, boughtQuantity, paidPrice, or_num, truthy_num.
  destruct (truthy_str (i_articleId item)) eqn:E; [|done].
  apply truthy_str_inv in E as (a & -> & _). simpl.
  repeat split.
  - destruct (i_purchasedQuantity item) as [p|]; [|done].
    by destruct (Qeq_bool p 0).
  - destruct (i_purchasedQuantity item) as [p|]; [|done].
    by destruct (Qeq_bool p 0).
  - destruct (i_actualPrice item) as [p|]; [|done].
    by destruct (Qeq_bool p 0).
Qed.

(** The batches created for a list of items, one for each item that is
    linked to an article, in order. *)
Lemma created_batches (now : Z) (items : list ShoppingListItem) :
  forall newIds : nat -> string,
    Forall2 (fun item b =>
               Some (b_articleId b) = i_articleId item /\
               b_quantity b = boughtQuantity item /\
               b_initialQuantity b = boughtQuantity item /\
               b_purchasePrice b = paidPrice item /\
               b_expiryDate b = i_expiryDate item /\
               b_purchaseDate b = default now (i_purchaseDate item))
      (List.filter (fun i => truthy_str (i_articleId i)) items)
      (omap (fun x => x) (imap (fun n => batchOfItem now (newIds n)) items)).
Proof.
  induction items as [|item items IH]; intros newIds; [constructor|].
  rewrite imap_cons. cbn [omap List.filter].
  pose proof (batchOfItem_fields now (newIds 0%nat) item) as H.
  destruct (batchOfItem now (newIds 0%nat) item) as [b|].
  - destruct H as (-> & H). constructor; [tauto|]. apply (IH (newIds ∘ S)).
  - rewrite H. apply (IH (newIds ∘ S)).
Qed.

Lemma filter_filter_and {A : Type} (p q : A -> bool) (l : list A) :
  List.filter q (List.filter p l) = List.filter (fun x => p x && q x) l.
Proof.
  induction l as [|x l IH]; simpl; [done|].
  destruct (p x); simpl; [|done]. destruct (q x); by rewrite IH.
Qed.

(** C6, as the code has it.  Completing a list that is not yet completed
    creates, for every purchased item of the list that is linked to an
    article, in order, one batch whose quantity and initial quantity are the
    item's purchased quantity when that is neither null nor zero (else its
    needed quantity), whose purchase price is the item's actual price when
    that is neither null nor zero (else its estimated price), and whose
    expiry date is the item's; the list is then marked completed.
    Completing a list that is already completed fails with the error 400
    and creates nothing. *)
Theorem completeShoppingList_batches (db : Db) (id : string) (now : Z)
    (newIds : nat -> string) (list : ShoppingList) :
  List.find (fun l => bool_decide (sl_id l = id)) (shoppingLists db) = Some list ->
  let result := completeShoppingList db id now newIds in
  (sl_completedAt list <> None ->
     result = (Err 400 "Shopping list already completed"%string, db)) /\
  (sl_completedAt list = None ->
     exists created,
       batches result.2 = batches db ++ created /\
       Forall2 (fun item b =>
                  Some (b_articleId b) = i_articleId item /\
                  b_quantity b = boughtQuantity item /\
                  b_initialQuantity b = boughtQuantity item /\
                  b_purchasePrice b = paidPrice item /\
                  b_expiryDate b = i_expiryDate item /\
                  b_purchaseDate b = default now (i_purchaseDate item))
         (purchasedItems db id) created /\
       exists updated,
         result.1 = Ok updated /\ sl_id updated = sl_id list /\
         sl_completedAt updated = Some now).
Proof.
  intros Hfind result. subst result. unfold completeShoppingList. rewrite Hfind.
  split.
  - intros Hc. rewrite bool_decide_eq_true_2; [done|].
    destruct (sl_completedAt list); [eauto|done].
  - intros Hc. rewrite bool_decide_eq_false_2 by (rewrite Hc; by intros [x ?]).
    match goal with
    | |- context [fold_left _ ?c db] => exists c; destruct (fold_batchCreate c db) as (Hb & _)
    end.
    cbn [fst snd]. split; [exact Hb|]. split; [|eauto].
    unfold purchasedItems.
    match goal with
    | |- Forall2 _ _ (omap _ (imap _ ?l)) =>
        pose proof (created_batches now l newIds) as HF
    end.
    rewrite filter_filter_and in HF.
    erewrite List.filter_ext; [exact HF|].
    intros i. simpl.
    destruct (bool_decide (i_listId i = id)), (i_isPurchased i); simpl; try done.
    by destruct (i_articleId i) as [a|].
Qed.

End Completion.

(** ** Rounding *)

Section Rounding.

Lemma js_round_nonneg (y : Q) : 0 <= y -> 0 <= js_round y.
Proof.
  intros H. unfold js_round.
  assert (Qfloor 0 <= Qfloor (y + (1 # 2)))%Z as Hz by (apply Qfloor_resp_le; lra).
  change (Qfloor 0) with 0%Z in Hz. by rewrite Zle_Qle in Hz.
Qed.

Lemma roundQuantity_nonneg (x : Q) : 0 <= x -> 0 <= roundQuantity x.
Proof.
  intros H. unfold roundQuantity, Qdiv. change (/ 10000) with (1 # 10000).
  pose proof (js_round_nonneg (x * 10000)). lra.
Qed.

Lemma round2_nonneg (x : Q) : 0 <= x -> 0 <= round2 x.
Proof.
  intros H. unfold round2, Qdiv. change (/ 100) with (1 # 100).
  pose proof (js_round_nonneg (x * 100)). lra.
Qed.

End Rounding.

(** ** Conversion keeps quantities positive *)

Section ConversionSign.

Lemma customAmount_amount (u v : UnitData) (a : Q) :
  customAmount u v = Some a -> convertsToAmount u = Some a.
Proof. unfold customAmount. by destruct (_ && _). Qed.

Lemma convertUnits_pos (q : Q) (f t : UnitData) (r : Q) :
  0 < q -> 0 < conversionFactor f -> 0 < conversionFactor t ->
  (forall a, convertsToAmount f = Some a -> 0 < a) ->
  (forall a, convertsToAmount t = Some a -> 0 < a) ->
  convertUnits q f t = Some r -> 0 < r.
Proof.
  intros Hq Hf Ht Haf Hat. unfold convertUnits.
  destruct (bool_decide _); [by intros [= <-]|].
  destruct (_ && _).
  - intros [= <-]. unfold Qdiv.
    apply Qmult_lt_0_compat; [by apply Qmult_lt_0_compat|by apply Qinv_lt_0_compat].
  - destruct (customAmount f t) as [a|] eqn:E1.
    + intros [= <-]. apply customAmount_amount, Haf in E1.
      by apply Qmult_lt_0_compat.
    + destruct (customAmount t f) as [a|] eqn:E2; [|done].
      intros [= <-]. apply customAmount_amount, Hat in E2.
      unfold Qdiv. apply Qmult_lt_0_compat; [done|by apply Qinv_lt_0_compat].
Qed.

Lemma findUnitBySymbol_wf (rows : list UnitRow) (s : string) (u : UnitData) :
  Forall wf_row rows -> findUnitBySymbol rows s = Some u ->
  (0 < conversionFactor u) /\ (forall a, convertsToAmount u = Some a -> 0 < a).
Proof.
  intros Hwf. unfold findUnitBySymbol, findRow.
  destruct (List.find _ rows) as [r|] eqn:E; [|done].
  apply find_some in E as [Hin _].
  intros [= <-]. simpl.
  eapply Forall_forall in Hwf; [exact Hwf|]. by apply list_elem_of_In.
Qed.

Lemma convertQuantity_pos (rows : list UnitRow) (q : Q) (f t : string) (r : Q) :
  Forall wf_row rows -> 0 < q ->
  convertQuantityBetweenUnits rows q f t = Some r -> 0 < r.
Proof.
  intros Hwf Hq. unfold convertQuantityBetweenUnits.
  destruct (bool_decide _); [by intros [= <-]|].
  destruct (findUnitBySymbol rows f) as [fu|] eqn:Ef; [|done].
  destruct (findUnitBySymbol rows t) as [tu|] eqn:Et; [|done].
  destruct (findUnitBySymbol_wf _ _ _ Hwf Ef), (findUnitBySymbol_wf _ _ _ Hwf Et).
  by apply convertUnits_pos.
Qed.

End ConversionSign.

(** ** The lookup tables of the generator *)

Section TableFacts.

Variable db : Db.

Lemma find_key {A : Type} (key : A -> string) (l : list A) (x : A) :
  List.NoDup (List.map key l) -> In x l ->
  List.find (fun y => bool_decide (key y = key x)) l = Some x.
Proof.
  induction l as [|y l IH]; simpl; [done|].
  intros Hnd Hx. apply NoDup_cons_iff in Hnd as [Hy Hl].
  destruct Hx as [->|Hx]; [by rewrite bool_decide_eq_true_2|].
  rewrite bool_decide_eq_false_2; [by apply IH|].
  intros E. apply Hy. rewrite E. by apply in_map.
Qed.

Lemma find_id_In {A : Type} (key : A -> string) (l : list A) (a : string) (x : A) :
  List.find (fun y => bool_decide (key y = a)) l = Some x -> In x l /\ key x = a.
Proof.
  intros H. apply find_some in H as [H1 H2]. by apply bool_decide_eq_true in H2.
Qed.

Lemma find_id_None {A : Type} (key : A -> string) (l : list A) (a : string) :
  List.find (fun y => bool_decide (key y = a)) l = None <-> ~ In a (List.map key l).
Proof.
  split.
  - intros H Hin. apply in_map_iff in Hin as (x & Hx & Hin).
    eapply find_none in H; [|exact Hin]. by rewrite bool_decide_eq_true_2 in H.
  - intros H. destruct (List.find _ l) as [x|] eqn:E; [|done].
    apply find_id_In in E as [Hin <-]. destruct H. by apply in_map.
Qed.

Lemma NoDup_map_filter_key {A : Type} (key : A -> string) (p : A -> bool) (l : list A) :
  List.NoDup (List.map key l) -> List.NoDup (List.map key (List.filter p l)).
Proof. apply NoDup_map_filter. Qed.

End TableFacts.

(** ** The three loops of the generator *)

Section LoopFacts.

Variable db : Db.
Variable t : Tables.

Lemma processRequired_fold (m : RequiredMap) (s : GenState) :
  let s' := fold_left (processRequired db t) m s in
  itemsToCreate s'
  = itemsToCreate s ++ omap (fun kv => requiredItem db t (snd kv)) m /\
  (forall x, x ∈ processedArticles s' <->
             x ∈ processedArticles s \/
             exists kv, In kv m /\ requiredArticle (snd kv) = Some x).
Proof.
  revert s. induction m as [|kv m IH]; intros s; simpl.
  - rewrite app_nil_r. split; [done|]. intros x. split; [tauto|].
    intros [H|(kv & [] & _)]. done.
  - destruct (IH (processRequired db t s kv)) as (-> & Hp). split.
    + unfold processRequired. simpl.
      destruct (requiredItem db t (snd kv)); [by rewrite <- app_assoc|done].
    + intros x. rewrite Hp. unfold processRequired. simpl.
      destruct (requiredArticle (snd kv)) as [a|] eqn:E.
      * rewrite elem_of_union, elem_of_singleton. split.
        -- intros [[->|H]|(kv' & H1 & H2)]; eauto.
        -- intros [H|(kv' & [<-|H1] & H2)]; eauto.
           left. left. congruence.
      * split.
        -- intros [H|(kv' & H1 & H2)]; eauto.
        -- intros [H|(kv' & [<-|H1] & H2)]; eauto. congruence.
Qed.

Lemma processForecast_fold (fc : list ForecastItem) (s : GenState) :
  List.NoDup (List.map f_articleId fc) ->
  let s' := fold_left (processForecast db t) fc s in
  itemsToCreate s'
  = itemsToCreate s
      ++ omap (forecastItem db t)
           (List.filter (fun f => negb (bool_decide (f_articleId f ∈ processedArticles s)))
                        fc) /\
  (forall x, x ∈ processedArticles s' <->
             x ∈ processedArticles s \/ In x (List.map f_articleId fc)).
Proof.
  revert s. induction fc as [|f fc IH]; intros s Hnd; simpl.
  - rewrite app_nil_r. split; [done|]. tauto.
  - apply NoDup_cons_iff in Hnd as [Hf Hnd].
    destruct (bool_decide (f_articleId f ∈ processedArticles s)) eqn:E; simpl.
    + assert (processForecast db t s f = s) as ->
        by (unfold processForecast; by rewrite E).
      destruct (IH s Hnd) as (-> & Hp). split; [done|].
      intros x. rewrite Hp. apply bool_decide_eq_true in E. split; [tauto|].
      intros [H|[<-|H]]; tauto.
    + set (s1 := mkGenState
                    (match forecastItem db t f with
                     | Some new => itemsToCreate s ++ [new]
                     | None => itemsToCreate s
                     end)
                    ({[f_articleId f]} ∪ processedArticles s)).
      assert (processForecast db t s f = s1) as ->
        by (unfold processForecast; by rewrite E).
      destruct (IH s1 Hnd) as (-> & Hp). subst s1. simpl. split.
      * assert (List.filter
                  (fun f0 => negb (bool_decide
                     (f_articleId f0 ∈ {[f_articleId f]} ∪ processedArticles s))) fc
                = List.filter
                    (fun f0 => negb (bool_decide (f_articleId f0 ∈ processedArticles s)))
                    fc) as ->.
        { apply filter_ext_in. intros g Hg. f_equal.
          apply bool_decide_ext. rewrite elem_of_union, elem_of_singleton.
          split; [|tauto]. intros [Heq|H]; [|done].
          destruct Hf. rewrite <- Heq. by apply in_map. }
        destruct (forecastItem db t f); [by rewrite <- app_assoc|done].
      * intros x. rewrite Hp. simpl.
        rewrite elem_of_union, elem_of_singleton. split.
        -- intros [[->|H]|H]; tauto.
        -- intros [H|[<-|H]]; tauto.
Qed.

Lemma processLowStock_fold (arts : list Article) (s : GenState) :
  let s' := fold_left (processLowStock db t) arts s in
  itemsToCreate s'
  = itemsToCreate s
      ++ omap (lowStockItem db t)
           (List.filter (fun a => negb (bool_decide (a_id a ∈ processedArticles s))) arts) /\
  processedArticles s' = processedArticles s.
Proof.
  revert s. induction arts as [|x arts IH]; intros s; simpl.
  - by rewrite app_nil_r.
  - destruct (bool_decide (a_id x ∈ processedArticles s)) eqn:E; simpl.
    + assert (processLowStock db t s x = s) as ->
        by (unfold processLowStock; by rewrite E).
      apply IH.
    + assert (processLowStock db t s x
              = mkGenState
                  (match lowStockItem db t x with
                   | Some new => itemsToCreate s ++ [new]
                   | None => itemsToCreate s
                   end)
                  (processedArticles s)) as ->
        by (unfold processLowStock; by rewrite E).
      destruct (IH (mkGenState
                      (match lowStockItem db t x with
                       | Some new => itemsToCreate s ++ [new]
                       | None => itemsToCreate s
                       end)
                      (processedArticles s))) as (-> & ->). simpl.
      split; [|done].
      destruct (lowStockItem db t x); [by rewrite <- app_assoc|done].
Qed.

End LoopFacts.

(** ** The required ingredients *)

Section RequiredFacts.

Variable db : Db.

Lemma requiredArticle_Some (req : Required) (a : string) :
  requiredArticle req = Some a <-> rq_articleId req = Some a /\ a <> EmptyString.
Proof.
  unfold requiredArticle. split.
  - destruct (truthy_str (rq_articleId req)) eqn:E; [|done].
    apply truthy_str_inv in E as (x & Hx & Hne). rewrite Hx. by intros [= <-].
  - intros [-> Hne]. by rewrite truthy_str_Some.
Qed.

Lemma requiredGet_None (key : string) (m : RequiredMap) :
  requiredGet key m = None <-> ~ In key (List.map fst m).
Proof.
  unfold requiredGet. rewrite <- (find_id_None fst).
  destruct (List.find _ m); simpl; split; done.
Qed.

Lemma requiredAdd_inv (key : string) (q : Q) (m : RequiredMap) :
  requiredInv m -> requiredInv (requiredAdd key q m).
Proof.
  intros [Hnd Hall]. unfold requiredAdd. split.
  - rewrite List.map_map.
    erewrite List.map_ext; [exact Hnd|]. intros kv. by destruct (bool_decide _).
  - intros kv Hkv. apply in_map_iff in Hkv as (kv' & <- & Hin).
    specialize (Hall kv' Hin). by destruct (bool_decide _).
Qed.

Lemma requireIngredient_inv (pm : Q) (m : RequiredMap) (ing : RecipeIngredient) :
  requiredInv m -> requiredInv (requireIngredient db pm m ing).
Proof.
  intros Hinv. unfold requireIngredient.
  set (key := default EmptyString (or_str (ri_articleId ing) _)).
  destruct (if truthy_str _ then _ else _) as [needed unit].
  destruct (requiredGet key m) as [existing|] eqn:E; [by apply requiredAdd_inv|].
  destruct Hinv as [Hnd Hall]. apply requiredGet_None in E. split.
  - rewrite map_app. simpl. apply List.NoDup_app; [done| |].
    + apply NoDup_cons_iff. split; [by intros []|constructor].
    + intros x Hx [<-|[]]. by destruct E.
  - intros kv Hkv. apply in_app_iff in Hkv as [Hkv|[<-|[]]]; [by apply Hall|].
    simpl. split; [done|]. intros a Ha.
    apply requiredArticle_Some in Ha as [Ha Hne]. simpl in Ha.
    subst key. rewrite Ha. unfold or_str at 1. by rewrite truthy_str_Some.
Qed.

Lemma requiredIngredients_inv (shopDate planUntil : Z) :
  requiredInv (requiredIngredients db shopDate planUntil).
Proof.
  unfold requiredIngredients.
  assert (requiredInv []) as H0.
  { split; [constructor|]. intros kv []. }
  revert H0. generalize (@nil (string * Required)).
  induction (findMealEntries db shopDate planUntil) as [|e es IH]; intros m Hm; [done|].
  simpl. apply IH. unfold requireEntry.
  generalize (e_servings e / r_servings (e_recipe e)). intros pm.
  revert m Hm. induction (r_ingredients (e_recipe e)) as [|ing ings IH']; intros m Hm; [done|].
  simpl. apply IH'. by apply requireIngredient_inv.
Qed.

End RequiredFacts.

(** ** The items of the generator *)

Section GeneratorFacts.

Lemma In_omap {A : Type} (f : A -> option NewItem) (l : list A) (it : NewItem) :
  In it (omap f l) <-> exists x, In x l /\ f x = Some it.
Proof.
  rewrite <- list_elem_of_In, list_elem_of_omap.
  split; intros (x & Hx & Hf); exists x; split; try done; by apply list_elem_of_In.
Qed.

Lemma requiredItem_Some (db : Db) (t : Tables) (req : Required) (it : NewItem) :
  requiredItem db t req = Some it ->
  let a := requiredArticle req in
  let total :=
    rq_totalQuantity req + default 0 (a ≫= (forecastMap t !!.))
    + default 0 (a ≫= (minStockMap t !!.)) - default 0 (a ≫= (stockMap t !!.)) in
  n_articleId it = rq_articleId req /\ n_reason it = rq_reason req /\
  n_neededQuantity it = round2 (roundQuantity total) /\
  0 < roundQuantity total /\
  n_recommendedPacks it
  = calculateRecommendedPacks db t (rq_articleId req) (roundQuantity total) (rq_unit req).
Proof.
  unfold requiredItem. destruct (ltb 0 _) eqn:E; [|done].
  apply ltb_true in E. intros [= <-]. done.
Qed.

Lemma forecastItem_Some (db : Db) (t : Tables) (f : ForecastItem) (it : NewItem) :
  forecastItem db t f = Some it ->
  let total :=
    f_quantity f + default 0 (minStockMap t !! f_articleId f)
    - default 0 (stockMap t !! f_articleId f) in
  n_articleId it = Some (f_articleId f) /\ n_reason it = "FORECAST"%string /\
  n_neededQuantity it = round2 (roundQuantity total) /\
  0 < roundQuantity total /\
  n_recommendedPacks it
  = calculateRecommendedPacks db t (Some (f_articleId f)) (roundQuantity total)
      (default "pcs"%string
         (or_str (defaultUnit <$> packageInfoMap t !! f_articleId f)
                 (Some "pcs"%string))).
Proof.
  unfold forecastItem. destruct (ltb 0 _) eqn:E; [|done].
  apply ltb_true in E. intros [= <-]. done.
Qed.

Lemma lowStockItem_Some (db : Db) (t : Tables) (art : Article) (it : NewItem) :
  lowStockItem db t art = Some it ->
  let total := default 0 (a_minStock art) - currentStockOf db (a_id art) in
  n_articleId it = Some (a_id art) /\ n_reason it = "LOW_STOCK"%string /\
  n_neededQuantity it = round2 (roundQuantity total) /\
  0 < total /\ truthy_num (a_minStock art) = true /\
  n_recommendedPacks it
  = calculateRecommendedPacks db t (Some (a_id art)) (roundQuantity total)
      (a_defaultUnit art).
Proof.
  unfold lowStockItem, articleStock, currentStockOf.
  destruct (truthy_num (a_minStock art)); [|done]. simpl.
  destruct (ltb _ _) eqn:E; [|done].
  apply ltb_true in E. intros [= <-]. simpl. repeat split. lra.
Qed.

(** The items of a generation: the items of the recipe loop, then those of
    the forecast loop for the articles that the recipe loop left, then those
    of the low-stock loop for the articles that both left. *)
Lemma generateItems_parts (db : Db) (shopDate planUntil : Z) (fc : list ForecastItem) :
  List.NoDup (List.map f_articleId fc) ->
  let m := requiredIngredients db shopDate planUntil in
  let t := buildTables db m fc in
  exists P1 P2 : gset string,
    (forall x, x ∈ P1 <-> exists kv, In kv m /\ requiredArticle (snd kv) = Some x) /\
    (forall x, x ∈ P2 <-> x ∈ P1 \/ In x (List.map f_articleId fc)) /\
    generateItems db shopDate planUntil fc
    = omap (fun kv => requiredItem db t (snd kv)) m
      ++ omap (forecastItem db t)
           (List.filter (fun f => negb (bool_decide (f_articleId f ∈ P1))) fc)
      ++ omap (lowStockItem db t)
           (List.filter (fun a => negb (bool_decide (a_id a ∈ P2)))
                        (findArticlesWithMinStock db)).
Proof.
  intros Hnd m t. unfold generateItems, generateState. fold m. fold t.
  set (s1 := fold_left (processRequired db t) m (mkGenState [] ∅)).
  set (s2 := fold_left (processForecast db t) fc s1).
  destruct (processRequired_fold db t m (mkGenState [] ∅)) as (H1 & HP1).
  destruct (processForecast_fold db t fc s1 Hnd) as (H2 & HP2).
  destruct (processLowStock_fold db t (findArticlesWithMinStock db) s2) as (H3 & _).
  fold s1 in H1, HP1. fold s2 in H2, HP2. fold s2 in H3.
  exists (processedArticles s1), (processedArticles s2). split; [|split].
  - intros x. rewrite HP1. simpl. split; [|eauto]. intros [H|H]; [|done].
    by apply not_elem_of_empty in H.
  - exact HP2.
  - rewrite H3, H2, H1. simpl. by rewrite <- app_assoc.
Qed.

End GeneratorFacts.

(** ** The stored need *)

Section Packs.

Variable db : Db.

Lemma generated_packs (shopDate planUntil : Z) (fc : list ForecastItem) (it : NewItem) :
  List.NoDup (List.map f_articleId fc) ->
  In it (generateItems db shopDate planUntil fc) ->
  let t := buildTables db (requiredIngredients db shopDate planUntil) fc in
  exists need unit,
    n_neededQuantity it = round2 need /\ 0 <= need /\
    n_recommendedPacks it = calculateRecommendedPacks db t (n_articleId it) need unit.
Proof.
  intros Hfc Hit t.
  destruct (generateItems_parts db shopDate planUntil fc Hfc) as (P1 & P2 & _ & _ & Hitems).
  fold t in Hitems. rewrite Hitems in Hit.
  apply in_app_iff in Hit as [Hit|Hit]; [|apply in_app_iff in Hit as [Hit|Hit]];
    apply In_omap in Hit as (x & _ & Hit).
  - apply requiredItem_Some in Hit as (-> & _ & Hq & Hpos & Hp).
    eexists _, _. split; [exact Hq|]. split; [lra|exact Hp].
  - apply forecastItem_Some in Hit as (-> & _ & Hq & Hpos & Hp).
    eexists _, _. split; [exact Hq|]. split; [lra|exact Hp].
  - apply lowStockItem_Some in Hit as (-> & _ & Hq & Hpos & _ & Hp).
    eexists _, _. split; [exact Hq|]. split; [apply roundQuantity_nonneg; lra|exact Hp].
Qed.

(** What the generator does guarantee of a stored need: it is never
    negative. *)
Lemma generated_need_nonneg (shopDate planUntil : Z) (fc : list ForecastItem)
    (it : NewItem) :
  List.NoDup (List.map f_articleId fc) ->
  In it (generateItems db shopDate planUntil fc) -> 0 <= n_neededQuantity it.
Proof.
  intros Hfc Hit.
  destruct (generated_packs shopDate planUntil fc it Hfc Hit) as (need & _ & -> & Hn & _).
  by apply round2_nonneg.
Qed.

(** The manual route stores the quantity of the request, which validation
    makes strictly positive. *)
Lemma addItem_positive (isUuid : string -> bool) (id : string)
    (articleId customName : option string) (quantity : Q) (unit reason : string)
    (estimatedPrice : option Q) (item : ShoppingListItem) :
  (addItem isUuid db id articleId customName quantity unit reason estimatedPrice).1
  = Ok item ->
  i_neededQuantity item = quantity /\ 0 < quantity.
Proof.
  unfold addItem. destruct (validAddItem _ _ _ _ _ _) eqn:E; [|done]. simpl.
  destruct (List.find _ _); [|done]. simpl. intros [= <-]. split; [done|].
  unfold validAddItem in E. rewrite !andb_true_iff in E.
  destruct E as ((((_ & _) & E) & _) & _). by apply ltb_true.
Qed.

End Packs.

(** ** Instances on the sample data *)

Section Instances.

Local Open Scope string_scope.


Lemma pantry_nonNegative : nonNegative Samples.pantry.
Proof. unfold nonNegative. simpl. repeat constructor; discriminate. Qed.






Lemma bakery_batch :
  findBatch Samples.bakery "flour-1"
  = Some (mkBatch "flour-1" "flour" 1500 1500 0 None None None).
Proof. reflexivity. Qed.

(** 2 kg of flour from a batch of 1500 g are refused, and nothing is
    written; 1 kg is taken, as 1000 g. *)
Lemma consumeFromBatch_rejections_witness :
  consumeFromBatch (fun _ => "#") (fun s => s) Samples.bakery "flour-1" 2
    (Some "kg") None None
  = (Err 400 (mkBatchConsumeError "Insufficient stock. Available: # g"
                (Some "# kg (= # g)")), Samples.bakery) /\
  exists res,
    (consumeFromBatch (fun _ => "#") (fun s => s) Samples.bakery "flour-1" 1
       (Some "kg") None None).1 = Ok res /\
    l_quantity (bc_log res) = 1000 /\
    (consumeFromBatch (fun _ => "#") (fun s => s) Samples.bakery "flour-1" 1
       (Some "kg") None None).2
    = logCreate (bc_log res) (batchUpdateQuantity "flour-1" (1500 - 1000) Samples.bakery).
Proof.
  split.
  - destruct (consumeFromBatch_rejections (fun _ => "#") (fun s => s) Samples.bakery
                "flour-1" 2 (Some "kg") None None _ Samples.flour
                eq_refl bakery_batch eq_refl) as [H _].
    destruct (H "kg" eq_refl ltac:(discriminate) ltac:(discriminate)) as (_ & H2 & _).
    exact (H2 2000 eq_refl eq_refl).
  - destruct (consumeFromBatch_rejections (fun _ => "#") (fun s => s) Samples.bakery
                "flour-1" 1 (Some "kg") None None _ Samples.flour
                eq_refl bakery_batch eq_refl) as [H _].
    destruct (H "kg" eq_refl ltac:(discriminate) ltac:(discriminate)) as (_ & _ & H3).
    destruct (H3 1000 eq_refl ltac:(discriminate)) as (res & H4 & H5 & _ & _ & H6).
    exists res. by split_and!.
Defined.

Lemma batch_quantities_stay_nonnegative_witness :
  nonNegative
    (consumeFromArticle expiryThenPurchase Samples.pantry "milk" 4 None None).2.
Proof.
  destruct (batch_quantities_stay_nonnegative expiryThenPurchase
              (fun _ => EmptyString) (fun s => s) Samples.pantry pantry_nonNegative)
    as [H _].
  apply H.
Defined.




Lemma completeShoppingList_batches_witness :
  completeShoppingList Samples.shop "list-0" 9 (fun _ => "new")
  = (Err 400 "Shopping list already completed", Samples.shop).
Proof.
  destruct (completeShoppingList_batches Samples.shop "list-0" 9 (fun _ => "new")
              (mkList "list-0" "Last week" 0 6 (Some 6%Z))) as [H _]; [reflexivity|].
  apply H. discriminate.
Defined.

(** The purchased item records a purchased quantity of 0 and an actual price
    of 0, both non-null; the batch created holds the needed quantity 3 and
    the estimated price 4.99. *)
Lemma completeShoppingList_zero_counterexample :
  let r := completeShoppingList Samples.shop "list-1" 9 (fun _ => "new") in
  List.map (fun i => (i_purchasedQuantity i, i_neededQuantity i,
                      i_actualPrice i, i_estimatedPrice i))
           (purchasedItems Samples.shop "list-1")
  = [(Some 0, 3, Some 0, Some (499 # 100))] /\
  List.map (fun b => (b_quantity b, b_initialQuantity b, b_purchasePrice b))
           (batches r.2)
  = [(3, 3, Some (499 # 100))].
Proof. split; reflexivity. Qed.


(** C4 fails on the code: no item should be created with a needed quantity
    [<= 0], yet a recipe need of 0.004 g, strictly positive after the
    rounding to 4 decimals, is stored as 0 by the rounding to 2 decimals that
    follows the test [totalNeed > 0]; so is a low-stock need of 0.00001 kg. *)
Lemma generate_stores_zero_need :
  List.map (fun it => (n_articleId it, Qred (n_neededQuantity it), n_reason it))
           (generateItems Samples.planTiny 0 7 [])
  = [(Some "saffron", 0, "RECIPE")] /\
  List.map (fun it => (n_articleId it, Qred (n_neededQuantity it), n_reason it))
           (generateItems Samples.planLow 0 7 [])
  = [(Some "rice", 0, "LOW_STOCK")].
Proof. split; vm_compute; reflexivity. Qed.

(** C9 fails on the code.  Eggs come in packages of 10 pcs and are measured
    in pcs; 90 were consumed in the last 30 days and none is in stock, so
    21 are forecast for the 7 days of the window.  No planned recipe names
    the eggs and they have no minimum stock, so the generator has not read
    their package: the item of 21 eggs gets 1 pack, not
    [ceil(21 / 10) = 3]. *)
Lemma generate_forecast_one_pack :
  let fc :=
    List.map toForecastItem
      (getForecastedShoppingItems Examples.minusDays Examples.daysBetween
         Examples.plusDays 100 Examples.larder Examples.ledger
         (batches Samples.pantry) 100 107) in
  List.map (fun f => (f_articleId f, Qred (f_quantity f))) fc
  = [("eggs", 21); ("rice", 2)] /\
  List.map (fun it => (n_articleId it, Qred (n_neededQuantity it),
                       n_recommendedPacks it, n_reason it))
           (itemsOf "eggs" (generateItems Samples.pantry 100 107 fc))
  = [(Some "eggs", 21, 1%Z, "FORECAST")] /\
  findArticle Samples.pantry "eggs" = Some Samples.eggs /\
  packageSizeIn Samples.pantry (packageInfoOf Samples.eggs) "pcs" = Some 10 /\
  Qceiling (21 / 10) = 3%Z.
Proof. split_and!; vm_compute; reflexivity. Qed.

End Instances.

(** * Further properties of the routes *)

(** ** Unit conversion: round trips, sums and chains *)

Section UnitAlgebra.

Lemma group_test_sym (u v : UnitData) :
  truthy_str (conversionGroup u) && bool_decide (conversionGroup u = conversionGroup v)
  = truthy_str (conversionGroup v) && bool_decide (conversionGroup v = conversionGroup u).
Proof.
  destruct (decide (conversionGroup u = conversionGroup v)) as [E|E].
  - rewrite E. by rewrite !bool_decide_eq_true_2.
  - rewrite !(bool_decide_eq_false_2 _) by congruence. by rewrite !andb_false_r.
Qed.

Lemma symbol_test_sym (u v : UnitData) :
  bool_decide (symbol u = symbol v) = bool_decide (symbol v = symbol u).
Proof. apply bool_decide_ext. split; congruence. Qed.

(** X1.  Whether [convertUnits] converts between two units depends on the
    two units alone: not on the direction of the conversion and not on the
    quantity.  The answer for [q] from [u] to [v] is [null] exactly when
    the answer for any [q'] from [v] to [u] is, and exactly when the answer
    for any [q'] from [u] to [v] is. *)
Theorem convertUnits_symmetric (q q' : Q) (u v : UnitData) :
  (convertUnits q u v = None <-> convertUnits q' v u = None) /\
  (convertUnits q u v = None <-> convertUnits q' u v = None).
Proof.
  unfold convertUnits.
  rewrite (symbol_test_sym v u), (group_test_sym v u).
  destruct (bool_decide (symbol u = symbol v)); [by split|].
  destruct (truthy_str (conversionGroup u) && _); [by split|].
  destruct (customAmount u v) as [a|], (customAmount v u) as [b|]; by split.
Qed.

End UnitAlgebra.

(** ** The unit table under the unit routes *)

Section UnitTable.

Variable isUuid : string -> bool.
Variable countToString : nat -> string.

Lemma ltb_pos (x : Q) : ltb 0 x = true -> 0 < x.
Proof. apply ltb_true. Qed.

Lemma or_num_None_pos (a : option Q) (x : Q) :
  from_option (ltb 0) true a = true -> or_num a None = Some x -> 0 < x.
Proof.
  unfold or_num. destruct (truthy_num a); [|done].
  intros Hv ->. by apply ltb_pos.
Qed.

Lemma or_str_None_nonempty (a : option string) (s : string) :
  or_str a None = Some s -> a = Some s /\ s <> EmptyString.
Proof.
  unfold or_str. destruct (truthy_str a) eqn:E; [|done].
  intros ->. by apply truthy_str_inv in E as (? & [= <-] & ?).
Qed.

Lemma findUnitById_In (us : list Unit) (id : string) (u : Unit) :
  findUnitById us id = Some u -> In u us /\ u_id u = id.
Proof. apply (find_id_In u_id). Qed.

Lemma unit_id_inj (us : list Unit) (u v : Unit) :
  List.NoDup (List.map u_id us) -> In u us -> In v us -> u_id u = u_id v -> u = v.
Proof.
  intros Hnd Hu Hv E.
  pose proof (find_key u_id us u Hnd Hu) as H1.
  pose proof (find_key u_id us v Hnd Hv) as H2.
  rewrite E in H1. congruence.
Qed.

Lemma unit_symbol_inj (us : list Unit) (u v : Unit) :
  List.NoDup (List.map u_symbol us) -> In u us -> In v us ->
  u_symbol u = u_symbol v -> u = v.
Proof.
  intros Hnd Hu Hv E.
  pose proof (find_key u_symbol us u Hnd Hu) as H1.
  pose proof (find_key u_symbol us v Hnd Hv) as H2.
  rewrite E in H1. congruence.
Qed.

Lemma createUnit_inv (authenticated : bool) (body : CreateUnit) (newId : string)
    (us : list Unit) :
  unitsInv us -> ~ In newId (List.map u_id us) ->
  unitsInv (createUnit isUuid authenticated body newId us).2.
Proof.
  intros Hinv Hfresh. unfold createUnit.
  destruct (negb authenticated); [done|].
  destruct (negb (validCreateUnit isUuid body)) eqn:Hvalid; [done|].
  apply negb_false_iff in Hvalid. unfold validCreateUnit in Hvalid.
  repeat (apply andb_true_iff in Hvalid as [Hvalid ?]).
  destruct (findUnitWithSymbol us (cu_symbol body)) eqn:Hsym; [done|].
  destruct (truthy_str (cu_convertsToUnitId body) && _) eqn:Htarget; [done|].
  simpl. destruct Hinv as (Hid & Hsy & Hwf & Htg).
  apply (find_id_None u_symbol) in Hsym.
  split; [|split; [|split]].
  - rewrite map_app. apply List.NoDup_app; [done|repeat constructor; by intros []|].
    intros x Hx [<-|[]]. done.
  - rewrite map_app. apply List.NoDup_app; [done|repeat constructor; by intros []|].
    intros x Hx [<-|[]]. done.
  - intros u [Hu|[<-|[]]]%in_app_or; [by apply Hwf|]. simpl. split; [split|].
    + simpl. unfold or_num.
      destruct (cu_conversionFactor body) as [f|]; simpl in *; [|done].
      destruct (Qeq_bool f 0); simpl; [done|]. by apply ltb_pos.
    + simpl. intros a Ha. by apply or_num_None_pos in Ha.
    + intros E. by apply or_str_None_nonempty in E as [_ E].
  - intros u t [Hu|[<-|[]]]%in_app_or Ht.
    + destruct (Htg u t Hu Ht) as (? & ? & ?). rewrite map_app.
      repeat split; [done|done|]. apply in_or_app. by left.
    + simpl in Ht. apply or_str_None_nonempty in Ht as [Ht Hne].
      rewrite Ht in Htarget. rewrite truthy_str_Some in Htarget by done.
      simpl in Htarget. apply negb_false_iff, bool_decide_eq_true in Htarget.
      destruct Htarget as [x Hx]. apply findUnitById_In in Hx as [Hx <-].
      assert (In (u_id x) (List.map u_id us)) as Hmem by (by apply in_map).
      rewrite map_app. repeat split; [done| |apply in_or_app; by left].
      intros E. change (u_id x = newId) in E. apply Hfresh. by rewrite <- E.
Qed.

Lemma replace_ids (us : list Unit) (id : string) (x : Unit) :
  u_id x = id ->
  List.map u_id (List.map (fun u => if bool_decide (u_id u = id) then x else u) us)
  = List.map u_id us.
Proof.
  intros Hx. rewrite List.map_map. apply map_ext. intros u.
  destruct (bool_decide (u_id u = id)) eqn:E; [|done].
  apply bool_decide_eq_true in E. congruence.
Qed.

Lemma replace_In (us : list Unit) (id : string) (x v : Unit) :
  In v (List.map (fun u => if bool_decide (u_id u = id) then x else u) us) ->
  (v = x /\ In id (List.map u_id us)) \/ (In v us /\ u_id v <> id).
Proof.
  intros (u & Hu & Hin)%in_map_iff.
  destruct (bool_decide (u_id u = id)) eqn:E.
  - apply bool_decide_eq_true in E. left. split; [done|]. rewrite <- E. by apply in_map.
  - apply bool_decide_eq_false in E. right. by subst.
Qed.

Lemma replace_symbols (us : list Unit) (id : string) (existing x : Unit) :
  List.NoDup (List.map u_id us) -> List.NoDup (List.map u_symbol us) ->
  In existing us -> u_id existing = id ->
  (u_symbol x = u_symbol existing \/ ~ In (u_symbol x) (List.map u_symbol us)) ->
  List.NoDup
    (List.map u_symbol (List.map (fun u => if bool_decide (u_id u = id) then x else u) us)).
Proof.
  intros Hid Hsy Hex Hexid [Hsame|Hnew].
  - assert (List.map u_symbol
              (List.map (fun u => if bool_decide (u_id u = id) then x else u) us)
            = List.map u_symbol us) as ->; [|done].
    rewrite List.map_map. apply map_ext_in. intros u Hu.
    destruct (bool_decide (u_id u = id)) eqn:E; [|done].
    apply bool_decide_eq_true in E.
    assert (u = existing) as -> by (apply (unit_id_inj us); congruence). done.
  - clear Hex Hexid. induction us as [|y us IH]; simpl; [constructor|].
    simpl in Hid, Hsy. apply NoDup_cons_iff in Hid as [Hy Hid].
    apply NoDup_cons_iff in Hsy as [Hys Hsy].
    assert (~ In (u_symbol x) (List.map u_symbol us)) as Hnew'
      by (intros H; apply Hnew; by right).
    apply NoDup_cons_iff. split; [|by apply IH].
    intros Hin. apply in_map_iff in Hin as (v & Hv & Hin).
    apply replace_In in Hin as [[-> Hin]|[Hin Hne]].
    + destruct (bool_decide (u_id y = id)) eqn:E.
      * apply bool_decide_eq_true in E. apply Hy. by rewrite E.
      * apply Hnew. left. done.
    + destruct (bool_decide (u_id y = id)) eqn:E.
      * apply Hnew'. rewrite <- Hv. by apply in_map.
      * apply Hys. rewrite <- Hv. by apply in_map.
Qed.

Lemma lengthIn_nonempty (hi : nat) (s : string) :
  lengthIn 1 hi s = true -> s <> EmptyString.
Proof. intros H ->. done. Qed.

Lemma updateUnit_inv (authenticated : bool) (id : string) (body : UpdateUnit)
    (us : list Unit) :
  unitsInv us -> unitsInv (updateUnit isUuid authenticated id body us).2.
Proof.
  intros Hinv. unfold updateUnit.
  destruct (negb authenticated); [done|].
  destruct (negb (validUpdateUnit isUuid body)) eqn:Hvalid; [done|].
  apply negb_false_iff in Hvalid. unfold validUpdateUnit in Hvalid.
  apply andb_true_iff in Hvalid as [Hvalid Vamount].
  apply andb_true_iff in Hvalid as [Hvalid Vtarget].
  apply andb_true_iff in Hvalid as [Hvalid Vfactor].
  apply andb_true_iff in Hvalid as [Hvalid Vgroup].
  apply andb_true_iff in Hvalid as [Vsymbol Vname].
  destruct (findUnitById us id) as [existing|] eqn:Hex; [|done].
  destruct (truthy_str (uu_symbol body) && _ && _) eqn:Hdup; [done|].
  destruct (truthy_str (mjoin (uu_convertsToUnitId body)) && negb _) eqn:Htarget; [done|].
  destruct (truthy_str (mjoin (uu_convertsToUnitId body)) && bool_decide _) eqn:Hself;
    [done|].
  simpl. apply findUnitById_In in Hex as [Hex Hexid].
  destruct Hinv as (Hid & Hsy & Hwf & Htg).
  set (x := updatedUnit existing body).
  assert (u_id x = id) as Hx by done.
  split; [|split; [|split]].
  - by rewrite replace_ids.
  - apply (replace_symbols us id existing x); try done.
    unfold x, updatedUnit, u_symbol. simpl.
    destruct (uu_symbol body) as [s|] eqn:Es; simpl; [|by left].
    destruct (decide (s = row_symbol (u_row existing))) as [->|Hne]; [by left|]. right.
    simpl in Vsymbol. apply lengthIn_nonempty in Vsymbol.
    rewrite truthy_str_Some in Hdup by done.
    rewrite (bool_decide_eq_false_2 (Some s = _)) in Hdup
      by (unfold u_symbol; congruence).
    simpl in Hdup. apply bool_decide_eq_false in Hdup.
    apply (find_id_None u_symbol).
    destruct (List.find _ us) as [y|] eqn:E; [|done].
    destruct Hdup. by exists y.
  - intros v Hv. apply replace_In in Hv as [[-> _]|[Hv _]]; [|by apply Hwf].
    destruct (Hwf existing Hex) as [[Hf Ha] Hg].
    unfold x, updatedUnit. simpl. split; [split|]; simpl.
    + destruct (uu_conversionFactor body); simpl in *; [by apply ltb_pos|done].
    + intros a. destruct (uu_convertsToAmount body) as [a'|]; [|apply Ha].
      intros E. by apply or_num_None_pos in E.
    + destruct (uu_conversionGroup body) as [g|]; [|done].
      intros E. by apply or_str_None_nonempty in E as [_ E].
  - intros v t Hv Ht. rewrite replace_ids by done.
    apply replace_In in Hv as [[-> _]|[Hv Hne]]; [|by apply Htg].
    change (u_id x) with (u_id existing).
    unfold x, updatedUnit in Ht. simpl in Ht.
    destruct (uu_convertsToUnitId body) as [t'|] eqn:Et; [|by apply Htg].
    apply or_str_None_nonempty in Ht as [-> Hne].
    assert (truthy_str (mjoin (Some (Some t))) = true) as Hm
      by (change (truthy_str (Some t) = true); by apply truthy_str_Some).
    rewrite Hm in Htarget, Hself. simpl in Htarget, Hself.
    apply negb_false_iff, bool_decide_eq_true in Htarget.
    apply bool_decide_eq_false in Hself.
    destruct Htarget as [y Hy]. apply findUnitById_In in Hy as [Hy <-].
    repeat split; [done| |by apply in_map].
    intros E. apply Hself. congruence.
Qed.

Lemma unitDelete_ids (id : string) (us : list Unit) :
  List.map u_id (unitDelete id us)
  = List.map u_id (List.filter (fun u => negb (bool_decide (u_id u = id))) us).
Proof.
  unfold unitDelete. rewrite List.map_map. apply map_ext. intros u.
  by destruct (bool_decide _).
Qed.

Lemma unitDelete_symbols (id : string) (us : list Unit) :
  List.map u_symbol (unitDelete id us)
  = List.map u_symbol (List.filter (fun u => negb (bool_decide (u_id u = id))) us).
Proof.
  unfold unitDelete. rewrite List.map_map. apply map_ext. intros u.
  by destruct (bool_decide _).
Qed.

Lemma unitDelete_inv (id : string) (us : list Unit) :
  unitsInv us -> unitsInv (unitDelete id us).
Proof.
  intros (Hid & Hsy & Hwf & Htg).
  split; [|split; [|split]].
  - rewrite unitDelete_ids. by apply NoDup_map_filter.
  - rewrite unitDelete_symbols. by apply NoDup_map_filter.
  - intros v (u & <- & Hu)%in_map_iff. apply filter_In in Hu as [Hu _].
    destruct (Hwf u Hu) as [[Hf Ha] Hg].
    by destruct (bool_decide _).
  - intros v t (u & <- & Hu)%in_map_iff Ht. apply filter_In in Hu as [Hu Hne].
    apply negb_true_iff, bool_decide_eq_false in Hne.
    rewrite unitDelete_ids.
    destruct (bool_decide (row_convertsToUnitId (u_row u) = Some id)) eqn:E; [done|].
    apply bool_decide_eq_false in E.
    destruct (Htg u t Hu Ht) as (H1 & H2 & H3).
    repeat split; [done|done|].
    apply in_map_iff in H3 as (w & Hw & Hin). apply in_map_iff. exists w.
    split; [done|]. apply filter_In. split; [done|].
    apply negb_true_iff, bool_decide_eq_false. congruence.
Qed.

Lemma deleteUnit_inv (db : Db) (authenticated : bool) (id : string) (us : list Unit) :
  unitsInv us -> unitsInv (deleteUnit countToString db authenticated id us).2.
Proof.
  intros Hinv. unfold deleteUnit.
  destruct (negb authenticated); [done|].
  destruct (findUnitById us id); [|done].
  repeat (destruct (Nat.ltb 0 _); [done|]).
  by apply unitDelete_inv.
Qed.

Lemma seedUnits_inv (newIds : nat -> string) (us : list Unit) :
  unitsInv us ->
  (forall i j, (i < 5)%nat -> (j < 5)%nat -> newIds i = newIds j -> i = j) ->
  unitsInv (seedUnits newIds us).
Proof.
  intros Hinv Hinj. unfold seedUnits. destruct us as [|u us]; [|done]. simpl.
  split; [|split; [|split]]; simpl.
  - repeat (apply NoDup_cons_iff; split);
      [..|constructor]; simpl; intros H;
      repeat (destruct H as [H|H]; [apply Hinj in H; lia|]); done.
  - apply NoDup_ListNoDup. by apply (bool_decide_unpack _).
  - intros v Hv.
    repeat (destruct Hv as [<-|Hv]; [by repeat split|]). done.
  - intros v t Hv.
    repeat (destruct Hv as [<-|Hv]; [done|]). done.
Qed.

(** X4.  The unit routes keep the unit table in shape: after seeding the
    default units and after every [POST /units], [PUT /units/:id] and
    [DELETE /units/:id], whatever the reply, identifiers and symbols are
    still keys, factors and custom amounts are positive, no conversion group
    is the empty string, and every custom conversion points to an existing
    unit other than the unit itself. *)
Theorem unit_routes_keep_table (us : list Unit) :
  unitsInv us ->
  (forall newIds,
     (forall i j, (i < 5)%nat -> (j < 5)%nat -> newIds i = newIds j -> i = j) ->
     unitsInv (seedUnits newIds us)) /\
  (forall authenticated body newId,
     ~ In newId (List.map u_id us) ->
     unitsInv (createUnit isUuid authenticated body newId us).2) /\
  (forall authenticated id body,
     unitsInv (updateUnit isUuid authenticated id body us).2) /\
  (forall db authenticated id,
     unitsInv (deleteUnit countToString db authenticated id us).2).
Proof.
  intros Hinv. split; [|split; [|split]].
  - intros. by apply seedUnits_inv.
  - intros. by apply createUnit_inv.
  - intros. by apply updateUnit_inv.
  - intros. by apply deleteUnit_inv.
Qed.

End UnitTable.

(** ** Conversions on the table that the unit routes maintain *)

Section UnitTableConversions.

Variable isUuid : string -> bool.
Variable parseFloat : string -> option Q.
Variable countToString : nat -> string.

Lemma find_app_l {A : Type} (p : A -> bool) (l l' : list A) (x : A) :
  List.find p l = Some x -> List.find p (l ++ l') = Some x.
Proof.
  induction l as [|y l IH]; simpl; [done|]. by destruct (p y).
Qed.

Lemma find_app_r {A : Type} (p : A -> bool) (l l' : list A) :
  List.find p l = None -> List.find p (l ++ l') = List.find p l'.
Proof.
  induction l as [|y l IH]; simpl; [done|]. by destruct (p y).
Qed.

Lemma find_map {A B : Type} (f : A -> B) (p : B -> bool) (l : list A) :
  List.find p (List.map f l) = f <$> List.find (fun x => p (f x)) l.
Proof.
  induction l as [|y l IH]; simpl; [done|]. by destruct (p (f y)).
Qed.

Lemma find_filter_keep {A : Type} (p q : A -> bool) (l : list A) :
  (forall x, In x l -> p x = true -> q x = true) ->
  List.find p (List.filter q l) = List.find p l.
Proof.
  induction l as [|y l IH]; simpl; [done|]. intros H.
  destruct (p y) eqn:Ep.
  - rewrite (H y) by (done || by left). simpl. by rewrite Ep.
  - destruct (q y); simpl; [rewrite Ep|]; apply IH; intros; apply H; (done || by right).
Qed.

Lemma findUnitBySymbol_rows (us : list Unit) (s : string) :
  findUnitBySymbol (rowsOfUnits us) s = joinedUnit us <$> findUnitWithSymbol us s.
Proof.
  unfold findUnitBySymbol, findRow, rowsOfUnits, findUnitWithSymbol.
  rewrite find_map. fold u_symbol.
  destruct (List.find _ us) as [u|]; simpl; [|done].
  unfold joinedUnit. f_equal. f_equal.
  destruct (row_convertsToUnitId (u_row u)) as [i|]; [|done].
  rewrite find_map. unfold findUnitById.
  by destruct (List.find _ us).
Qed.

Lemma findUnitWithSymbol_In (us : list Unit) (s : string) (u : Unit) :
  findUnitWithSymbol us s = Some u -> In u us /\ u_symbol u = s.
Proof. apply (find_id_In u_symbol). Qed.

Lemma targetsb_joined (us : list Unit) (f t : Unit) :
  List.NoDup (List.map u_symbol us) -> In t us ->
  targetsb (joinedUnit us f) (joinedUnit us t) = targetsb (unitDataOf f) (unitDataOf t).
Proof.
  intros Hsy Ht. unfold targetsb. simpl.
  destruct (row_convertsToUnitId (u_row f)) as [i|]; [|done].
  destruct (findUnitById us i) as [w|] eqn:Ew; [|done].
  apply findUnitById_In in Ew as [Hw <-].
  destruct (bool_decide (u_symbol w = u_symbol t)) eqn:E; [|done].
  apply bool_decide_eq_true in E.
  assert (w = t) as -> by (by apply (unit_symbol_inj us)).
  by rewrite bool_decide_eq_true_2.
Qed.

Lemma convertUnits_joined (us : list Unit) (q : Q) (f t : Unit) :
  List.NoDup (List.map u_symbol us) -> In f us -> In t us ->
  convertUnits q (joinedUnit us f) (joinedUnit us t)
  = convertUnits q (unitDataOf f) (unitDataOf t).
Proof.
  intros Hsy Hf Ht. unfold convertUnits, customAmount.
  rewrite !targetsb_joined by done. done.
Qed.

(** X5.  [GET /units/convert] answers as the helper that the consumption,
    cooking and shopping routes use: on a table whose symbols are a key and
    for two symbols of the table, the route replies the conversion of
    [convertQuantityBetweenUnits], and 400 when that is [null].  For a symbol
    that is not in the table the route replies 404, where the helper returns
    the quantity unchanged when both symbols are the same and [null]
    otherwise. *)
Theorem convertRoute_agrees (us : list Unit) (from to quantityStr : string) (q : Q) :
  List.NoDup (List.map u_symbol us) ->
  parseFloat quantityStr = Some q ->
  (is_Some (findUnitWithSymbol us from) -> is_Some (findUnitWithSymbol us to) ->
     match convertQuantityBetweenUnits (rowsOfUnits us) q from to with
     | Some r =>
       convertRoute parseFloat us from to quantityStr
       = Ok (mkConversion (from, q) (to, r))
     | None =>
       exists e, convertRoute parseFloat us from to quantityStr = Err 400 e
     end) /\
  (findUnitWithSymbol us from = None \/ findUnitWithSymbol us to = None ->
     (exists e, convertRoute parseFloat us from to quantityStr = Err 404 e) /\
     convertQuantityBetweenUnits (rowsOfUnits us) q from to
     = if bool_decide (from = to) then Some q else None).
Proof.
  intros Hsy Hq. unfold convertRoute, convertQuantityBetweenUnits.
  rewrite Hq, !findUnitBySymbol_rows. split.
  - intros [f Hf] [t Ht]. rewrite Hf, Ht. simpl.
    pose proof (findUnitWithSymbol_In _ _ _ Hf) as [Hfin Hfs].
    pose proof (findUnitWithSymbol_In _ _ _ Ht) as [Htin Hts].
    rewrite convertUnits_joined by done.
    destruct (bool_decide (from = to)) eqn:E.
    + apply bool_decide_eq_true in E. subst to.
      assert (t = f) as -> by congruence.
      unfold convertUnits. by rewrite bool_decide_eq_true_2.
    + destruct (convertUnits q (unitDataOf f) (unitDataOf t)); [done|]. by eexists.
  - intros Hno. split.
    + destruct Hno as [-> | Hno]; [by eexists|].
      rewrite Hno. destruct (findUnitWithSymbol us from); by eexists.
    + destruct (bool_decide (from = to)); [done|].
      destruct Hno as [-> | ->]; simpl; [done|].
      by destruct (findUnitWithSymbol us from).
Qed.

Lemma createUnit_Ok (authenticated : bool) (body : CreateUnit) (newId : string)
    (us us' : list Unit) (u : Unit) :
  createUnit isUuid authenticated body newId us = (Ok u, us') ->
  validCreateUnit isUuid body = true /\
  findUnitWithSymbol us (cu_symbol body) = None /\
  us' = us ++ [u] /\
  u_row u = mkUnitRow newId (cu_symbol body)
              (or_str (cu_conversionGroup body) None)
              (default 1 (or_num (Some (default 1 (cu_conversionFactor body))) (Some 1)))
              (or_str (cu_convertsToUnitId body) None)
              (or_num (cu_convertsToAmount body) None).
Proof.
  unfold createUnit.
  destruct (negb authenticated); [done|].
  destruct (negb (validCreateUnit isUuid body)) eqn:Hvalid; [done|].
  apply negb_false_iff in Hvalid.
  destruct (findUnitWithSymbol us (cu_symbol body)) eqn:Hsym; [done|].
  destruct (truthy_str (cu_convertsToUnitId body) && _); [done|].
  by intros [= <- <-].
Qed.

(** X6.  A unit created with a custom conversion converts as declared: when
    [POST /units] accepts a unit that converts to the unit [target] with the
    amount [a], and the new unit is not put in the conversion group of
    [target], then [q] of the new unit are [q * a] of [target] and [q] of
    [target] are [q / a] of the new unit. *)
Theorem createUnit_then_convert (authenticated : bool) (body : CreateUnit)
    (newId tid : string) (us us' : list Unit) (u target : Unit) (a q : Q) :
  unitsInv us -> ~ In newId (List.map u_id us) ->
  createUnit isUuid authenticated body newId us = (Ok u, us') ->
  cu_convertsToUnitId body = Some tid -> tid <> EmptyString ->
  findUnitById us tid = Some target ->
  cu_convertsToAmount body = Some a ->
  (cu_conversionGroup body = None \/
   cu_conversionGroup body <> row_conversionGroup (u_row target)) ->
  convertQuantityBetweenUnits (rowsOfUnits us') q (cu_symbol body) (u_symbol target)
  = Some (q * a) /\
  convertQuantityBetweenUnits (rowsOfUnits us') q (u_symbol target) (cu_symbol body)
  = Some (q / a).
Proof.
  intros (Hid & Hsy & Hwf & Htg) Hfresh Hcreate Htid Hne Htarget Ha Hgroup.
  apply createUnit_Ok in Hcreate as (Hvalid & Hsym & -> & Hrow).
  unfold validCreateUnit in Hvalid.
  apply andb_true_iff in Hvalid as [_ Vamount]. rewrite Ha in Vamount. simpl in Vamount.
  apply ltb_pos in Vamount.
  assert (~ a == 0) as Ha0 by (intros E; rewrite E in Vamount; by apply Qlt_irrefl in Vamount).
  apply findUnitById_In in Htarget as [Htin Htid'].
  pose proof Hsym as Hnew. apply (find_id_None u_symbol) in Hnew.
  assert (u_symbol u = cu_symbol body) as Hus by (unfold u_symbol; by rewrite Hrow).
  assert (u_id u = newId) as Hui by (unfold u_id; by rewrite Hrow).
  assert (cu_symbol body <> u_symbol target) as Hdiff
    by (intros E; apply Hnew; rewrite E; by apply in_map).
  (* the two rows as the helper finds them *)
  assert (findUnitWithSymbol (us ++ [u]) (cu_symbol body) = Some u) as Hfu.
  { unfold findUnitWithSymbol. rewrite find_app_r by done. simpl.
    by rewrite bool_decide_eq_true_2. }
  assert (findUnitWithSymbol (us ++ [u]) (u_symbol target) = Some target) as Hft.
  { unfold findUnitWithSymbol. apply find_app_l. by apply (find_key u_symbol). }
  assert (forall i w, findUnitById us i = Some w -> findUnitById (us ++ [u]) i = Some w)
    as Hkeep by (intros i w; apply find_app_l).
  unfold convertQuantityBetweenUnits.
  rewrite !findUnitBySymbol_rows, Hfu, Hft. simpl.
  rewrite !(bool_decide_eq_false_2 (_ = _)) by congruence.
  (* the conversion group does not apply *)
  assert (truthy_str (conversionGroup (joinedUnit (us ++ [u]) u))
          && bool_decide (conversionGroup (joinedUnit (us ++ [u]) u)
                          = conversionGroup (joinedUnit (us ++ [u]) target)) = false)
    as Hg.
  { simpl. rewrite Hrow. simpl. unfold or_str.
    destruct (truthy_str (cu_conversionGroup body)) eqn:E; [|done].
    destruct Hgroup as [Hgroup|Hgroup]; [by rewrite Hgroup in E|].
    rewrite E. simpl. by rewrite bool_decide_eq_false_2. }
  (* the custom conversions of the two rows *)
  assert (customAmount (joinedUnit (us ++ [u]) u) (joinedUnit (us ++ [u]) target) = Some a)
    as Hut.
  { unfold customAmount, targetsb. simpl. rewrite Hrow. simpl.
    rewrite Htid, Ha. unfold or_str, or_num.
    rewrite truthy_str_Some, truthy_num_Some by done. simpl.
    rewrite <- Htid'.
    rewrite (Hkeep (u_id target) target) by (by apply (find_key u_id)).
    rewrite (bool_decide_eq_true_2 (u_symbol target = u_symbol target)) by done.
    rewrite (bool_decide_eq_false_2 (u_id target = EmptyString)) by congruence.
    destruct (Qeq_bool a 0) eqn:Eq; [by apply Qeq_bool_iff in Eq|done]. }
  assert (customAmount (joinedUnit (us ++ [u]) target) (joinedUnit (us ++ [u]) u) = None)
    as Htu.
  { unfold customAmount, targetsb. simpl.
    destruct (row_convertsToUnitId (u_row target)) as [i|] eqn:Ei;
      [|by rewrite andb_false_r].
    destruct (Htg target i Htin Ei) as (_ & _ & Hi).
    apply in_map_iff in Hi as (w & Hw & Hwin). subst i.
    rewrite (Hkeep (u_id w) w) by (by apply (find_key u_id)).
    rewrite Hus, Hui.
    rewrite !(bool_decide_eq_false_2 (_ = _)); [by rewrite andb_false_r| |].
    - intros E. apply Hfresh. rewrite <- E. by apply in_map.
    - intros E. apply Hnew. rewrite <- E. by apply in_map. }
  split.
  - unfold convertUnits. simpl symbol. rewrite Hus.
    rewrite bool_decide_eq_false_2 by done. by rewrite Hg, Hut.
  - unfold convertUnits. simpl symbol. rewrite Hus.
    rewrite bool_decide_eq_false_2 by congruence.
    rewrite group_test_sym, Hg. by rewrite Htu, Hut.
Qed.

Lemma deleteUnit_Ok (db : Db) (authenticated : bool) (id : string)
    (us us' : list Unit) :
  deleteUnit countToString db authenticated id us = (Ok tt, us') ->
  exists u, findUnitById us id = Some u /\
    articlesUsingUnit db (u_symbol u) = 0%nat /\
    recipesUsingUnit db (u_symbol u) = 0%nat /\
    dependentUnits us id = 0%nat /\
    us' = unitDelete id us.
Proof.
  unfold deleteUnit.
  destruct (negb authenticated); [done|].
  destruct (findUnitById us id) as [u|]; [|done].
  destruct (Nat.ltb 0 (articlesUsingUnit _ _)) eqn:E1; [done|].
  destruct (Nat.ltb 0 (recipesUsingUnit _ _)) eqn:E2; [done|].
  destruct (Nat.ltb 0 (dependentUnits _ _)) eqn:E3; [done|].
  apply Nat.ltb_ge in E1, E2, E3.
  intros [= <-]. exists u. repeat split; lia.
Qed.

Lemma filter_length_0 {A : Type} (p : A -> bool) (l : list A) (x : A) :
  length (List.filter p l) = 0%nat -> In x l -> p x = false.
Proof.
  intros H Hx. destruct (p x) eqn:E; [|done].
  assert (In x (List.filter p l)) as Hin by (by apply filter_In).
  destruct (List.filter p l); [done|discriminate].
Qed.

(** X7.  [DELETE /units/:id] removes only a unit that nothing uses: when it
    succeeds, the table is the old one without the unit of that identifier,
    no article has its symbol as default or package unit, no recipe
    ingredient is measured in it and no unit converts to it; and the
    conversions between the other symbols are what they were before. *)
Theorem deleteUnit_only_unused (db : Db) (authenticated : bool) (id : string)
    (us us' : list Unit) :
  unitsInv us ->
  deleteUnit countToString db authenticated id us = (Ok tt, us') ->
  exists u, findUnitById us id = Some u /\
    us' = List.filter (fun v => negb (bool_decide (u_id v = id))) us /\
    (forall a, In a (articles db) ->
       a_defaultUnit a <> u_symbol u /\ a_packageUnit a <> u_symbol u) /\
    (forall r i, In r (recipes db) -> In i (r_ingredients r) -> ri_unit i <> u_symbol u) /\
    (forall v, In v us -> row_convertsToUnitId (u_row v) <> Some id) /\
    (forall q s t, s <> u_symbol u -> t <> u_symbol u ->
       convertQuantityBetweenUnits (rowsOfUnits us') q s t
       = convertQuantityBetweenUnits (rowsOfUnits us) q s t).
Proof.
  intros (Hid & Hsy & Hwf & Htg) Hdel.
  apply deleteUnit_Ok in Hdel as (u & Hu & Ha & Hr & Hd & ->).
  exists u. split; [done|].
  pose proof (findUnitById_In _ _ _ Hu) as [Huin Huid].
  assert (forall v, In v us -> row_convertsToUnitId (u_row v) <> Some id) as Hdep.
  { intros v Hv E. eapply filter_length_0 in Hd; [|exact Hv].
    by rewrite bool_decide_eq_true_2 in Hd. }
  assert (unitDelete id us = List.filter (fun v => negb (bool_decide (u_id v = id))) us)
    as Hplain.
  { unfold unitDelete. rewrite <- (map_id (List.filter _ us)) at 2.
    apply map_ext_in. intros v Hv. apply filter_In in Hv as [Hv _].
    rewrite bool_decide_eq_false_2; [done|by apply Hdep]. }
  rewrite Hplain. split; [done|]. split; [|split; [|split; [done|]]].
  - intros a Hin. eapply filter_length_0 in Ha; [|exact Hin].
    apply orb_false_iff in Ha as [H1 H2].
    by apply bool_decide_eq_false in H1, H2.
  - intros r i Hr' Hi. eapply filter_length_0 in Hr.
    + apply bool_decide_eq_false in Hr. exact Hr.
    + apply in_concat. exists (r_ingredients r). split; [|done]. by apply in_map.
  - intros q s t Hs Ht.
    set (keep := fun v : Unit => negb (bool_decide (u_id v = id))).
    assert (forall w, In w us -> u_id w = id -> w = u) as Honly
      by (intros w Hw E; apply (unit_id_inj us); congruence).
    assert (forall x, x <> u_symbol u ->
              findUnitWithSymbol (List.filter keep us) x = findUnitWithSymbol us x)
      as Hfind.
    { intros x Hx. unfold findUnitWithSymbol. apply find_filter_keep.
      intros w Hw E. apply bool_decide_eq_true in E. unfold keep.
      apply negb_true_iff, bool_decide_eq_false. intros E'.
      apply Hx. rewrite <- E. by rewrite (Honly w). }
    assert (forall w, In w us -> joinedUnit (List.filter keep us) w = joinedUnit us w)
      as Hjoin.
    { intros w Hw. unfold joinedUnit. f_equal.
      destruct (row_convertsToUnitId (u_row w)) as [i|] eqn:Ei; [|done].
      assert (findUnitById (List.filter keep us) i = findUnitById us i) as ->; [|done].
      unfold findUnitById. apply find_filter_keep.
      intros z Hz E. apply bool_decide_eq_true in E. unfold keep.
      apply negb_true_iff, bool_decide_eq_false. intros E'.
      apply (Hdep w Hw). congruence. }
    unfold convertQuantityBetweenUnits.
    rewrite !findUnitBySymbol_rows, !Hfind by done.
    destruct (bool_decide (s = t)); [done|].
    destruct (findUnitWithSymbol us s) as [f|] eqn:Ef; simpl; [|done].
    destruct (findUnitWithSymbol us t) as [g|] eqn:Eg; simpl; [|done].
    apply findUnitWithSymbol_In in Ef as [Hf _], Eg as [Hg _].
    by rewrite !Hjoin.
Qed.

End UnitTableConversions.

Section UnitInstances.

Local Open Scope string_scope.

Lemma shelf_inv : unitsInv Examples.shelf.
Proof.
  split; [|split; [|split]].
  - apply NoDup_ListNoDup. apply (bool_decide_unpack _). by vm_compute.
  - apply NoDup_ListNoDup. apply (bool_decide_unpack _). by vm_compute.
  - intros u Hu. simpl in Hu.
    repeat (destruct Hu as [<-|Hu];
            [repeat split; simpl; try done; by intros ? [= <-]|]).
    done.
  - intros u t Hu. simpl in Hu.
    repeat (destruct Hu as [<-|Hu];
            [simpl; intros [= <-]; repeat split; try done; simpl; tauto|]).
    done.
Qed.

Lemma unit_routes_keep_table_witness :
  unitsInv (createUnit (fun _ => true) true Examples.boxOfRolls "u-box" Examples.shelf).2.
Proof.
  destruct (unit_routes_keep_table (fun _ => true) (fun _ => EmptyString)
              Examples.shelf shelf_inv) as (_ & H & _).
  apply H. simpl. intros H'. repeat (destruct H' as [H'|H']; [discriminate|]). done.
Defined.

Lemma convertRoute_agrees_witness :
  convertRoute (fun _ => Some 2) Examples.shelf "kg" "g" "2"
  = Ok (mkConversion ("kg", 2) ("g", 2 * 1000 / 1)).
Proof.
  assert (List.NoDup (List.map u_symbol Examples.shelf)) as Hsy by apply shelf_inv.
  destruct (convertRoute_agrees (fun _ => Some 2) Examples.shelf "kg" "g" "2" 2
              Hsy eq_refl) as [H _].
  apply H; by eexists.
Defined.

Lemma createUnit_then_convert_witness :
  let table := (Examples.shelf ++ [Examples.box])%list in
  convertQuantityBetweenUnits (rowsOfUnits table) 3 "Box" "Roll" = Some (3 * 12) /\
  convertQuantityBetweenUnits (rowsOfUnits table) 3 "Roll" "Box" = Some (3 / 12).
Proof.
  apply (createUnit_then_convert (fun _ => true) true Examples.boxOfRolls
           "u-box" "u-roll" Examples.shelf (Examples.shelf ++ [Examples.box])%list
           Examples.box Examples.roll 12 3).
  - exact shelf_inv.
  - simpl. intros H'. repeat (destruct H' as [H'|H']; [discriminate|]). done.
  - reflexivity.
  - reflexivity.
  - discriminate.
  - reflexivity.
  - reflexivity.
  - by left.
Defined.

Lemma deleteUnit_only_unused_witness :
  (deleteUnit (fun _ => EmptyString) Samples.pantry true "u-roll" Examples.shelf).2
  = List.filter (fun v => negb (bool_decide (u_id v = "u-roll"))) Examples.shelf.
Proof.
  destruct (deleteUnit_only_unused (fun _ => EmptyString) Samples.pantry true "u-roll"
              Examples.shelf _ shelf_inv eq_refl) as (u & _ & H & _).
  exact H.
Defined.

End UnitInstances.

(** ** Sorting *)

Section SortFacts.

Context {A : Type} (compare : A -> A -> Q).

Lemma insertSorted_perm (x : A) (l : list A) :
  Permutation (insertSorted compare x l) (x :: l).
Proof.
  induction l as [|y l IH]; simpl; [done|].
  destruct (leb _ _); [done|].
  rewrite IH. apply perm_swap.
Qed.

Lemma sort_perm (l : list A) : Permutation (sort compare l) l.
Proof.
  induction l as [|x l IH]; simpl; [done|].
  rewrite insertSorted_perm. by constructor.
Qed.

Hypothesis compare_total : forall a b, compare a b <= 0 \/ compare b a <= 0.
Hypothesis compare_trans :
  forall a b c, compare a b <= 0 -> compare b c <= 0 -> compare a c <= 0.

Lemma insertSorted_sorted (x : A) (l : list A) :
  StronglySorted (fun a b => compare a b <= 0) l ->
  StronglySorted (fun a b => compare a b <= 0) (insertSorted compare x l).
Proof.
  induction l as [|y l IH]; simpl; intros Hs.
  - by repeat constructor.
  - inversion Hs as [|? ? Hl Hy]; subst.
    destruct (leb (compare x y) 0) eqn:E.
    + apply leb_true in E. constructor; [done|]. constructor; [done|].
      eapply List.Forall_impl; [|exact Hy]. intros z Hz. by eapply compare_trans.
    + apply leb_false in E. constructor; [by apply IH|].
      apply List.Forall_forall. intros z Hz.
      eapply Permutation_in in Hz; [|apply insertSorted_perm].
      destruct Hz as [<-|Hz].
      * destruct (compare_total y x) as [H|H]; [done|].
        exfalso. by apply (Qlt_not_le _ _ E).
      * eapply List.Forall_forall in Hy; [exact Hy|done].
Qed.

Lemma sort_sorted (l : list A) :
  StronglySorted (fun a b => compare a b <= 0) (sort compare l).
Proof.
  induction l as [|x l IH]; simpl; [constructor|]. by apply insertSorted_sorted.
Qed.

End SortFacts.


(** ** The consumption forecast *)

Section ForecastFacts.

Variable subDays : Z -> Q -> Z.
Variable differenceInDays : Z -> Z -> Q.
Variable setDatePlus : Z -> Q -> Z.

Lemma getConsumptionForecasts_eq (now : Z) (arts : list ArticleRow)
    (logs : list LogRow) (bs : list Batch) (options : ForecastOptions) :
  getConsumptionForecasts subDays setDatePlus now arts logs bs options
  = sort compareUrgency
      (List.map (forecastFor subDays setDatePlus now logs bs options)
                (List.filter ar_isConsumable arts)).
Proof.
  reflexivity.
Qed.

Lemma getArticleForecast_eq (now : Z) (arts : list ArticleRow)
    (logs : list LogRow) (bs : list Batch) (id : string) (options : ForecastOptions) :
  getArticleForecast subDays setDatePlus now arts logs bs id options
  = forecastFor subDays setDatePlus now logs bs options
      <$> List.find (fun a => bool_decide (ar_id a = id)) arts.
Proof.
  unfold getArticleForecast. destruct (List.find _ arts) as [a|]; [|reflexivity].
  simpl. unfold forecastFor, totalStock.
  destruct (ltb 0 _ && ltb 0 _); [reflexivity|]. destruct (leb _ 0); reflexivity.
Qed.

Lemma forecasts_In (now : Z) (arts : list ArticleRow) (logs : list LogRow)
    (bs : list Batch) (options : ForecastOptions) (f : ConsumptionForecast) :
  In f (getConsumptionForecasts subDays setDatePlus now arts logs bs options) <->
  exists a, In a arts /\ ar_isConsumable a = true /\
            f = forecastFor subDays setDatePlus now logs bs options a.
Proof.
  rewrite getConsumptionForecasts_eq. split.
  - intros H. eapply Permutation_in in H; [|apply sort_perm].
    apply in_map_iff in H as (a & <- & Ha). apply filter_In in Ha as [Ha Hc]. eauto.
  - intros (a & Ha & Hc & ->). eapply Permutation_in; [symmetry; apply sort_perm|].
    apply in_map. by apply filter_In.
Qed.

Lemma forecastFor_fields (now : Z) (logs : list LogRow) (bs : list Batch)
    (options : ForecastOptions) (a : ArticleRow) :
  let f := forecastFor subDays setDatePlus now logs bs options a in
  let stock := totalStock (batchesInStock bs (ar_id a)) in
  let avg := cf_totalConsumed f / default 30 (fo_lookbackDays options) in
  cf_articleId f = ar_id a /\
  cf_unit f = a_defaultUnit (ar_article a) /\
  cf_consumptionDays f = default 30 (fo_lookbackDays options) /\
  cf_currentStock f = stock /\
  cf_averagePerDay f = avg /\
  cf_recommendedPurchase f
  = inject_Z (Qceiling (Qmax 0 (avg * default 7 (fo_forecastDays options) - stock))) /\
  cf_daysUntilEmpty f
  = (if ltb 0 avg && ltb 0 stock then Some (inject_Z (Qfloor (stock / avg)))
     else if leb stock 0 then Some 0 else None) /\
  (is_Some (cf_predictedNeedByDate f) <-> is_Some (cf_daysUntilEmpty f)).
Proof.
  cbv zeta. unfold forecastFor.
  set (total := fold_left _ _ 0).
  set (stock := totalStock _).
  destruct (ltb 0 (total / _) && ltb 0 stock) eqn:E1.
  - cbn [cf_articleId cf_unit cf_consumptionDays cf_currentStock cf_averagePerDay
         cf_recommendedPurchase cf_daysUntilEmpty cf_predictedNeedByDate
         cf_totalConsumed].
    rewrite E1. by repeat split.
  - destruct (leb stock 0) eqn:E2;
      cbn [cf_articleId cf_unit cf_consumptionDays cf_currentStock cf_averagePerDay
           cf_recommendedPurchase cf_daysUntilEmpty cf_predictedNeedByDate
           cf_totalConsumed];
      rewrite E1; repeat split; try done; by intros [? ?].
Qed.



Lemma compareUrgency_le (a b : ConsumptionForecast) :
  compareUrgency a b <= 0 <-> urgencyLe a b.
Proof.
  unfold compareUrgency, urgencyLe.
  destruct (cf_daysUntilEmpty a), (cf_daysUntilEmpty b); split; try done; lra.
Qed.

Lemma forecasts_sorted (now : Z) (arts : list ArticleRow) (logs : list LogRow)
    (bs : list Batch) (options : ForecastOptions) :
  StronglySorted urgencyLe
    (getConsumptionForecasts subDays setDatePlus now arts logs bs options).
Proof.
  clear differenceInDays.
  rewrite getConsumptionForecasts_eq.
  eapply StronglySorted_impl; [intros a b; apply compareUrgency_le|].
  apply sort_sorted.
  - intros a b. rewrite !compareUrgency_le. unfold urgencyLe.
    destruct (cf_daysUntilEmpty a), (cf_daysUntilEmpty b); try tauto.
    destruct (Qlt_le_dec q q0); [left|right]; lra.
  - intros a b c. rewrite !compareUrgency_le. unfold urgencyLe.
    destruct (cf_daysUntilEmpty a), (cf_daysUntilEmpty b), (cf_daysUntilEmpty c);
      try tauto. lra.
Qed.

Lemma forecasts_ids (now : Z) (arts : list ArticleRow) (logs : list LogRow)
    (bs : list Batch) (options : ForecastOptions) :
  Permutation
    (List.map cf_articleId
       (getConsumptionForecasts subDays setDatePlus now arts logs bs options))
    (List.map ar_id (List.filter ar_isConsumable arts)).
Proof.
  rewrite getConsumptionForecasts_eq, sort_perm, List.map_map.
  assert (forall l,
            List.map (fun x => cf_articleId
                                 (forecastFor subDays setDatePlus now logs bs options x)) l
            = List.map ar_id l) as ->; [|done].
  intros l. apply map_ext. intros a.
  by destruct (forecastFor_fields now logs bs options a) as (-> & _).
Qed.

(** X10.  [getConsumptionForecasts] lists one forecast for each consumable
    article and none for the others, the most urgent first: a forecast
    comes before every forecast with a larger [daysUntilEmpty], and the
    forecasts without one come last. *)
Theorem forecasts_by_urgency (now : Z) (arts : list ArticleRow)
    (logs : list LogRow) (bs : list Batch) (options : ForecastOptions) :
  ~ default 30 (fo_lookbackDays options) == 0 ->
  let forecasts :=
    getConsumptionForecasts subDays setDatePlus now arts logs bs options in
  StronglySorted urgencyLe forecasts /\
  Permutation (List.map cf_articleId forecasts)
              (List.map ar_id (List.filter ar_isConsumable arts)).
Proof.
  intros _. split; [apply forecasts_sorted|apply forecasts_ids].
Qed.

Lemma StronglySorted_filter {A : Type} (R : A -> A -> Prop) (p : A -> bool)
    (l : list A) :
  StronglySorted R l -> StronglySorted R (List.filter p l).
Proof.
  induction 1 as [|x l Hl IH Hx]; simpl; [constructor|].
  destruct (p x); [|done]. constructor; [done|].
  apply List.Forall_forall. intros y Hy. apply filter_In in Hy as [Hy _].
  eapply List.Forall_forall in Hx; [exact Hx|done].
Qed.

(** X11.  [getArticlesRunningLow(days)] lists, most urgent first, exactly
    the forecasts (over [days] days, 7 when left out) whose
    [daysUntilEmpty] is at most [days]; when [days] is not negative, every
    consumable article without a batch in stock is among them, with
    [daysUntilEmpty = 0]. *)
Theorem running_low_lists_the_urgent (now : Z) (arts : list ArticleRow)
    (logs : list LogRow) (bs : list Batch) (days : option Q) :
  let low := getArticlesRunningLow subDays setDatePlus now arts logs bs days in
  let limit := default 7 days in
  let forecasts :=
    getConsumptionForecasts subDays setDatePlus now arts logs bs
      (mkOptions None (Some limit)) in
  (forall f, In f low <->
     In f forecasts /\ exists d, cf_daysUntilEmpty f = Some d /\ d <= limit) /\
  StronglySorted urgencyLe low /\
  (0 <= limit ->
   forall a, In a arts -> ar_isConsumable a = true ->
     batchesInStock bs (ar_id a) = [] ->
     exists f, In f low /\ cf_articleId f = ar_id a /\ cf_daysUntilEmpty f = Some 0).
Proof.
  intros low limit forecasts.
  assert (forall f, In f low <->
            In f forecasts /\ exists d, cf_daysUntilEmpty f = Some d /\ d <= limit)
    as Hlow.
  { intros f. unfold low, getArticlesRunningLow. fold limit. fold forecasts.
    rewrite filter_In. split; intros [Hin H]; (split; [done|]).
    - destruct (cf_daysUntilEmpty f) as [d|]; [|done]. exists d. split; [done|].
      by apply leb_true.
    - destruct H as (d & -> & Hd). by apply leb_true. }
  split; [done|]. split.
  - apply StronglySorted_filter, forecasts_sorted.
  - intros Hlimit a Ha Hc Hnone.
    exists (forecastFor subDays setDatePlus now logs bs (mkOptions None (Some limit)) a).
    destruct (forecastFor_fields now logs bs (mkOptions None (Some limit)) a)
      as (Hid & _ & _ & _ & _ & _ & Hd & _).
    rewrite Hnone in Hd. rewrite andb_false_r in Hd. simpl in Hd.
    split; [|by split]. apply Hlow. split; [|by exists 0].
    apply forecasts_In. by exists a.
Qed.

(** X12.  [getArticleForecast] and [getConsumptionForecasts] agree: on an
    article table with unique identifiers, the forecast of an article is
    an element of the list of all forecasts exactly when the article is
    consumable, and every element of the list is the single forecast of its
    article.  [getArticleForecast] also answers for an article that is not
    consumable, and returns [null] for an unknown identifier. *)
Theorem article_forecast_agrees (now : Z) (arts : list ArticleRow)
    (logs : list LogRow) (bs : list Batch) (options : ForecastOptions) :
  List.NoDup (List.map ar_id arts) ->
  let forecasts :=
    getConsumptionForecasts subDays setDatePlus now arts logs bs options in
  let single id :=
    getArticleForecast subDays setDatePlus now arts logs bs id options in
  (forall a, In a arts ->
     exists f, single (ar_id a) = Some f /\ cf_articleId f = ar_id a /\
               (In f forecasts <-> ar_isConsumable a = true)) /\
  (forall f, In f forecasts -> single (cf_articleId f) = Some f) /\
  (forall id, ~ In id (List.map ar_id arts) -> single id = None).
Proof.
  intros Hkey forecasts single.
  assert (forall a, In a arts ->
            single (ar_id a)
            = Some (forecastFor subDays setDatePlus now logs bs options a)) as Hone.
  { intros a Ha. unfold single. rewrite getArticleForecast_eq.
    by rewrite (find_key ar_id arts a Hkey Ha). }
  split; [|split].
  - intros a Ha. eexists. split; [by apply Hone|].
    destruct (forecastFor_fields now logs bs options a) as (Hid & _).
    split; [done|]. unfold forecasts. rewrite forecasts_In. split.
    + intros (a' & Ha' & Hc & E).
      assert (ar_id a' = ar_id a) as Hsame.
      { destruct (forecastFor_fields now logs bs options a') as (Hid' & _).
        rewrite <- Hid', <- E. done. }
      assert (a' = a) as <-; [|done].
      pose proof (find_key ar_id arts a Hkey Ha) as H1.
      pose proof (find_key ar_id arts a' Hkey Ha') as H2.
      rewrite Hsame in H2. congruence.
    + intros Hc. by exists a.
  - intros f (a & Ha & _ & ->)%forecasts_In.
    destruct (forecastFor_fields now logs bs options a) as (-> & _).
    by apply Hone.
  - intros id Hid. unfold single. rewrite getArticleForecast_eq.
    apply (find_id_None ar_id) in Hid. by rewrite Hid.
Qed.

Lemma forecasted_items_for_generator_aux (now : Z) (arts : list ArticleRow)
    (logs : list LogRow) (bs : list Batch) (shopDate planUntilDate : Z) :
  List.NoDup (List.map ar_id arts) ->
  let items :=
    getForecastedShoppingItems subDays differenceInDays setDatePlus
      now arts logs bs shopDate planUntilDate in
  List.NoDup (List.map f_articleId (List.map toForecastItem items)) /\
  List.map fi_articleId items
  = List.map cf_articleId
      (List.filter (fun f => ltb 0 (cf_recommendedPurchase f))
         (getConsumptionForecasts subDays setDatePlus now arts logs bs
            (mkOptions None (Some (differenceInDays planUntilDate shopDate))))).
Proof.
  intros Hkey items.
  assert (List.map fi_articleId items
          = List.map cf_articleId
              (List.filter (fun f => ltb 0 (cf_recommendedPurchase f))
                 (getConsumptionForecasts subDays setDatePlus now arts logs bs
                    (mkOptions None (Some (differenceInDays planUntilDate shopDate))))))
    as Hids by (unfold items, getForecastedShoppingItems; by rewrite List.map_map).
  split; [|done]. rewrite List.map_map.
  change (List.NoDup (List.map fi_articleId items)). rewrite Hids.
  apply NoDup_map_filter.
  eapply Permutation_NoDup; [symmetry; apply forecasts_ids|].
  by apply NoDup_map_filter.
Qed.

(** X13.  The forecasted items that the generator of shopping lists takes
    in: on an article table with unique identifiers,
    [getForecastedShoppingItems] returns at most one item per article, each
    for a consumable article, in the default unit of the article, with the
    reason FORECAST and a whole quantity of at least 1 (the recommended
    purchase over the last 30 days' average); so the items carry distinct
    article identifiers, as the generator assumes. *)
Theorem forecasted_items_for_generator (now : Z) (arts : list ArticleRow)
    (logs : list LogRow) (bs : list Batch) (shopDate planUntilDate : Z) :
  List.NoDup (List.map ar_id arts) ->
  let items :=
    getForecastedShoppingItems subDays differenceInDays setDatePlus
      now arts logs bs shopDate planUntilDate in
  List.NoDup (List.map fi_articleId items) /\
  List.NoDup (List.map f_articleId (List.map toForecastItem items)) /\
  (forall i, In i items ->
     (exists n : Z, fi_quantity i = inject_Z n /\ (1 <= n)%Z) /\
     fi_reason i = "FORECAST"%string /\
     exists a, In a arts /\ ar_isConsumable a = true /\
               ar_id a = fi_articleId i /\
               fi_unit i = a_defaultUnit (ar_article a)).
Proof.
  intros Hkey items.
  set (options := mkOptions None (Some (differenceInDays planUntilDate shopDate))).
  set (forecasts := getConsumptionForecasts subDays setDatePlus now arts logs bs options).
  assert (List.map fi_articleId items
          = List.map cf_articleId
              (List.filter (fun f => ltb 0 (cf_recommendedPurchase f)) forecasts)) as Hids.
  { unfold items, getForecastedShoppingItems. by rewrite List.map_map. }
  assert (List.NoDup (List.map fi_articleId items)) as Hnd.
  { rewrite Hids. apply NoDup_map_filter.
    eapply Permutation_NoDup; [symmetry; apply forecasts_ids|].
    by apply NoDup_map_filter. }
  split; [done|]. split.
  - by rewrite List.map_map.
  - intros i Hi. unfold items, getForecastedShoppingItems in Hi.
    apply in_map_iff in Hi as (f & <- & Hf). apply filter_In in Hf as [Hf Hpos].
    apply ltb_true in Hpos. cbn [fi_quantity fi_reason fi_articleId fi_unit].
    apply forecasts_In in Hf as (a & Ha & Hc & ->). fold options in Hpos |- *.
    destruct (forecastFor_fields now logs bs options a)
      as (Hid & Hunit & _ & _ & _ & Hrec & _).
    split; [|split; [done|]].
    + rewrite Hrec in Hpos |- *. set (c := Qceiling _) in *.
      exists c. split; [done|].
      change 0 with (inject_Z 0) in Hpos. rewrite <- Zlt_Qlt in Hpos. lia.
    + exists a. by repeat split.
Qed.

(** X14.  What the generator of shopping lists takes as the forecast need of
    an article is already net of the stock: with the items of
    [getForecastedShoppingItems] as its forecast, the forecast need of a
    consumable article in the net-need formula is the purchase that
    [getArticleForecast] recommends for the article over the days of the
    planning window, a whole number, at least 0, computed from the current
    stock of the article; for an article that is not consumable it is 0. *)
Theorem forecast_need_is_net_of_stock (db : Db) (now : Z) (arts : list ArticleRow)
    (logs : list LogRow) (shopDate planUntilDate : Z) (a : ArticleRow) :
  List.NoDup (List.map ar_id arts) -> In a arts ->
  let fc :=
    List.map toForecastItem
      (getForecastedShoppingItems subDays differenceInDays setDatePlus
         now arts logs (batches db) shopDate planUntilDate) in
  let days := differenceInDays planUntilDate shopDate in
  exists f,
    getArticleForecast subDays setDatePlus now arts logs (batches db) (ar_id a)
      (mkOptions None (Some days)) = Some f /\
    cf_currentStock f = currentStockOf db (ar_id a) /\
    (exists n : Z, cf_recommendedPurchase f = inject_Z n /\ (0 <= n)%Z) /\
    forecastNeed fc (ar_id a)
    = if ar_isConsumable a then cf_recommendedPurchase f else 0.
Proof.
  intros Hkey Ha fc days.
  set (options := mkOptions None (Some days)).
  set (forecasts :=
         getConsumptionForecasts subDays setDatePlus now arts logs (batches db) options).
  set (f := forecastFor subDays setDatePlus now logs (batches db) options a).
  destruct (forecasted_items_for_generator_aux now arts logs (batches db)
              shopDate planUntilDate Hkey) as [Hnd Hfrom].
  fold fc in Hnd.
  destruct (forecastFor_fields now logs (batches db) options a)
    as (Hid & _ & _ & Hstock & _ & Hrec & _).
  fold f in Hid, Hrec, Hstock.
  exists f. split.
  { rewrite getArticleForecast_eq. by rewrite (find_key ar_id arts a Hkey Ha). }
  split; [exact Hstock|].
  assert (exists n : Z, cf_recommendedPurchase f = inject_Z n /\ (0 <= n)%Z)
    as (c & Hc & Hc0).
  { eexists. split; [exact Hrec|].
    change 0%Z with (Qceiling 0). apply Qceiling_resp_le, Q.le_max_l. }
  split; [by exists c|].
  unfold forecastNeed.
  destruct (List.find _ fc) as [x|] eqn:Ex.
  - apply find_id_In in Ex as [Hx Hxa]. simpl.
    unfold fc, getForecastedShoppingItems in Hx. fold days in Hx.
    fold options in Hx. fold forecasts in Hx.
    rewrite List.map_map in Hx. apply in_map_iff in Hx as (g & <- & Hg).
    apply filter_In in Hg as [Hg _]. simpl in Hxa |- *.
    apply forecasts_In in Hg as (a' & Ha' & Hc' & ->).
    destruct (forecastFor_fields now logs (batches db) options a') as (Hid' & _).
    assert (a' = a) as ->.
    { pose proof (find_key ar_id arts a Hkey Ha) as H1.
      pose proof (find_key ar_id arts a' Hkey Ha') as H2.
      rewrite Hid' in Hxa. rewrite Hxa in H2. congruence. }
    fold f. by rewrite Hc'.
  - simpl. destruct (ar_isConsumable a) eqn:Hcons; [|done].
    apply (find_id_None f_articleId) in Ex.
    assert (~ 0 < cf_recommendedPurchase f) as Hnot.
    { intros Hpos. apply Ex. unfold fc, getForecastedShoppingItems.
      fold days. fold options. fold forecasts.
      rewrite !List.map_map. apply in_map_iff. exists f. split; [done|].
      apply filter_In. split; [|by apply ltb_true].
      apply forecasts_In. by exists a. }
    rewrite Hc in Hnot |- *.
    assert (c = 0%Z) as ->; [|done].
    destruct (Z.eq_dec c 0%Z) as [E|E]; [done|]. destruct Hnot.
    change 0 with (inject_Z 0). rewrite <- Zlt_Qlt. lia.
Qed.

End ForecastFacts.

Section ForecastInstances.

Local Open Scope string_scope.

Lemma larder_key : List.NoDup (List.map ar_id Examples.larder).
Proof. apply NoDup_ListNoDup. apply (bool_decide_unpack _). by vm_compute. Qed.

Lemma thirty_days : ~ default 30 (fo_lookbackDays (mkOptions None None)) == 0.
Proof. by vm_compute. Qed.



Lemma forecasts_by_urgency_witness :
  StronglySorted urgencyLe
    (getConsumptionForecasts Examples.minusDays Examples.plusDays 100
       Examples.larder Examples.diary (batches Samples.pantry) (mkOptions None None)).
Proof.
  apply (forecasts_by_urgency Examples.minusDays Examples.plusDays 100
           Examples.larder Examples.diary (batches Samples.pantry)
           (mkOptions None None) thirty_days).
Defined.

Lemma running_low_lists_the_urgent_witness :
  exists f,
    In f (getArticlesRunningLow Examples.minusDays Examples.plusDays 100
            Examples.larder Examples.diary (batches Samples.pantry) None) /\
    cf_articleId f = "eggs" /\ cf_daysUntilEmpty f = Some 0.
Proof.
  destruct (running_low_lists_the_urgent Examples.minusDays Examples.plusDays 100
              Examples.larder Examples.diary (batches Samples.pantry) None)
    as (_ & _ & H).
  apply (H ltac:(by vm_compute) Examples.eggsRow); [simpl; tauto|done|done].
Defined.

Lemma article_forecast_agrees_witness :
  getArticleForecast Examples.minusDays Examples.plusDays 100 Examples.larder
    Examples.diary (batches Samples.pantry) "nothing" (mkOptions None None) = None.
Proof.
  destruct (article_forecast_agrees Examples.minusDays Examples.plusDays 100
              Examples.larder Examples.diary (batches Samples.pantry)
              (mkOptions None None) larder_key) as (_ & _ & H).
  apply H. simpl. intros H'. repeat (destruct H' as [H'|H']; [discriminate|]). done.
Defined.

Lemma forecasted_items_for_generator_witness :
  List.NoDup
    (List.map f_articleId
       (List.map toForecastItem
          (getForecastedShoppingItems Examples.minusDays Examples.daysBetween
             Examples.plusDays 100 Examples.larder Examples.diary
             (batches Samples.pantry) 100 107))).
Proof.
  apply (forecasted_items_for_generator Examples.minusDays Examples.daysBetween
           Examples.plusDays 100 Examples.larder Examples.diary
           (batches Samples.pantry) 100 107 larder_key).
Defined.

(** Milk in the pantry, of which 8 ml are in stock, over the window from
    day 100 to day 107. *)
Lemma forecast_need_is_net_of_stock_witness :
  exists f,
    getArticleForecast Examples.minusDays Examples.plusDays 100 Examples.larder
      Examples.diary (batches Samples.pantry) "milk"
      (mkOptions None (Some (Examples.daysBetween 107 100))) = Some f /\
    forecastNeed
      (List.map toForecastItem
         (getForecastedShoppingItems Examples.minusDays Examples.daysBetween
            Examples.plusDays 100 Examples.larder Examples.diary
            (batches Samples.pantry) 100 107))
      "milk"
    = cf_recommendedPurchase f.
Proof.
  destruct (forecast_need_is_net_of_stock Examples.minusDays Examples.daysBetween
              Examples.plusDays Samples.pantry 100 Examples.larder Examples.diary
              100 107 Examples.milkRow larder_key (or_introl eq_refl))
    as (f & H1 & _ & _ & H2).
  exists f. split; [exact H1|exact H2].
Defined.

End ForecastInstances.

(** ** Batches hold between 0 and what was purchased *)

Section BatchBounds.

Variable isUuid : string -> bool.
Variable addDays : Z -> Z -> Z.
Variable numToString : Q -> string.
Variable trim : string -> string.
Variable fifo_le : Batch -> Batch -> bool.

Lemma within_In (db : Db) (b : Batch) :
  withinPurchase db -> In b (batches db) ->
  0 <= b_quantity b /\ b_quantity b <= b_initialQuantity b.
Proof.
  intros H Hb. eapply Forall_forall in H; [exact H|]. by apply list_elem_of_In.
Qed.

Lemma within_intro (db : Db) :
  (forall b, In b (batches db) -> 0 <= b_quantity b /\ b_quantity b <= b_initialQuantity b) ->
  withinPurchase db.
Proof. intros H. apply Forall_forall. intros b Hb. by apply H, list_elem_of_In. Qed.

Lemma findBatch_In (db : Db) (id : string) (b : Batch) :
  findBatch db id = Some b -> In b (batches db) /\ b_id b = id.
Proof. apply (find_id_In b_id). Qed.

Lemma replace_within (id : string) (new : Batch) (db : Db) :
  withinPurchase db ->
  0 <= b_quantity new /\ b_quantity new <= b_initialQuantity new ->
  withinPurchase (batchReplace id new db).
Proof.
  intros H Hn. apply within_intro. simpl. intros y (x & <- & Hx)%in_map_iff.
  destruct (bool_decide _); [done|]. by apply (within_In db).
Qed.

Lemma createBatch_within (arts : list ArticleRow) (body : CreateBatch) (now : Z)
    (newId : string) (db : Db) :
  withinPurchase db ->
  withinPurchase (createBatch isUuid addDays arts body now newId db).2.
Proof.
  intros H. unfold createBatch.
  destruct (negb (validCreateBatch isUuid body)) eqn:Hvalid; [done|].
  apply negb_false_iff in Hvalid. unfold validCreateBatch in Hvalid.
  apply andb_true_iff in Hvalid as [Hvalid _].
  apply andb_true_iff in Hvalid as [Hvalid _].
  apply andb_true_iff in Hvalid as [_ Hq]. apply ltb_true in Hq.
  destruct (List.find _ arts); [|done]. simpl.
  apply within_intro. simpl. intros b [Hb|[<-|[]]]%in_app_or.
  - by apply (within_In db).
  - simpl. lra.
Qed.

Lemma updateBatch_within (id : string) (body : UpdateBatch) (db : Db) :
  withinPurchase db -> withinPurchase (updateBatch id body db).2.
Proof.
  intros H. unfold updateBatch.
  destruct (negb (validUpdateBatch body)) eqn:Hvalid; [done|].
  apply negb_false_iff in Hvalid. unfold validUpdateBatch in Hvalid.
  apply andb_true_iff in Hvalid as [Hvalid _].
  apply andb_true_iff in Hvalid as [Hq _].
  destruct (findBatch db id) as [existing|] eqn:Hex; [|done]. simpl.
  apply findBatch_In in Hex as [Hex _].
  apply replace_within; [done|]. simpl.
  destruct (ub_quantity body) as [q|]; simpl in *; [|by apply (within_In db)].
  apply leb_true in Hq. split; [done|].
  destruct (Qeq_bool _ _ || ltb _ _) eqn:E; [lra|].
  apply orb_false_iff in E as [_ E]. apply ltb_false in E. done.
Qed.

Lemma updatePurchase_within (id : string) (body : UpdatePurchase) (db : Db) :
  withinPurchase db -> withinPurchase (updatePurchase numToString id body db).2.
Proof.
  intros H. unfold updatePurchase.
  destruct (negb (validUpdatePurchase body)) eqn:Hvalid; [done|].
  apply negb_false_iff in Hvalid. unfold validUpdatePurchase in Hvalid.
  apply andb_true_iff in Hvalid as [Hvalid _].
  apply andb_true_iff in Hvalid as [Hq _].
  destruct (findBatch db id) as [existing|] eqn:Hex; [|done].
  apply findBatch_In in Hex as [Hex _].
  destruct (up_initialQuantity body) as [init|]; simpl in *.
  - apply ltb_true in Hq.
    destruct (ltb 0 (b_initialQuantity existing - b_quantity existing)) eqn:Ec; simpl.
    + apply ltb_true in Ec.
      destruct (ltb (init - _) 0) eqn:En; simpl; [done|].
      apply ltb_false in En. apply replace_within; [done|]. simpl. lra.
    + apply replace_within; [done|]. simpl. lra.
  - apply replace_within; [done|]. simpl. by apply (within_In db).
Qed.

Lemma deleteBatch_within (id : string) (db : Db) :
  withinPurchase db -> withinPurchase (deleteBatch id db).2.
Proof.
  intros H. unfold deleteBatch. destruct (findBatch db id) as [existing|]; [|done].
  simpl. apply within_intro. simpl. intros x [Hx _]%filter_In.
  by apply (within_In db).
Qed.

(** X15.  The batch routes keep every batch between 0 and what was
    purchased: when [0 <= quantity <= initialQuantity] holds of every batch,
    it still does after [POST /batches], [PUT /batches/:id],
    [PUT /batches/:id/purchase] and [DELETE /batches/:id], whatever the
    request and the reply. *)
Theorem batch_routes_keep_within_purchase (db : Db) :
  withinPurchase db ->
  (forall arts body now newId,
     withinPurchase (createBatch isUuid addDays arts body now newId db).2) /\
  (forall id body, withinPurchase (updateBatch id body db).2) /\
  (forall id body, withinPurchase (updatePurchase numToString id body db).2) /\
  (forall id, withinPurchase (deleteBatch id db).2).
Proof.
  intros H. split; [|split; [|split]]; intros.
  - by apply createBatch_within.
  - by apply updateBatch_within.
  - by apply updatePurchase_within.
  - by apply deleteBatch_within.
Qed.

Lemma update_within (id : string) (q : Q) (db : Db) :
  0 <= q ->
  (forall x, In x (batches db) -> b_id x = id -> q <= b_initialQuantity x) ->
  withinPurchase db -> withinPurchase (batchUpdateQuantity id q db).
Proof.
  intros Hq Hle H. apply within_intro. rewrite batches_update.
  intros y (x & <- & Hx)%in_map_iff.
  destruct (bool_decide (b_id x = id)) eqn:E; [|by apply (within_In db)].
  apply bool_decide_eq_true in E. simpl. split; [done|]. by apply Hle.
Qed.

Lemma fifoLoop_within (mkLogOf : Batch -> Q -> ConsumptionLog) (bs : list Batch)
    (r : Q) (logs : list ConsumptionLog) (db : Db)
    (db' : Db) (r' : Q) (logs' : list ConsumptionLog) :
  fifoLoop mkLogOf bs r logs db = (db', r', logs') ->
  (forall b, In b bs -> 0 <= b_quantity b) ->
  (forall b x, In b bs -> In x (batches db) -> b_id x = b_id b ->
     b_quantity b <= b_initialQuantity x) ->
  withinPurchase db -> withinPurchase db'.
Proof.
  revert r logs db. induction bs as [|b bs IH]; intros r logs db H Hpos Hle Hw.
  - rewrite fifoLoop_nil in H. by simplify_eq.
  - destruct (Qlt_le_dec 0 r) as [Hr|Hr].
    + rewrite fifoLoop_step in H by done.
      assert (0 <= b_quantity b) as Hb by (apply Hpos; by left).
      apply IH in H; [done|intros x Hx; apply Hpos; by right| |].
      * intros b' x Hb' Hx Hid. simpl in Hx. apply in_map_iff in Hx as (y & <- & Hy).
        assert (b_quantity b' <= b_initialQuantity y) as Hy'.
        { apply Hle; [by right|done|]. rewrite <- Hid. by destruct (bool_decide _). }
        by destruct (bool_decide _).
      * apply (update_within (b_id b) (b_quantity b - Qmin (b_quantity b) r) db);
          [| |done].
        -- destruct (Qmin_cases (b_quantity b) r) as [[? ->]|[? ->]]; lra.
        -- intros x Hx Hid.
           assert (b_quantity b <= b_initialQuantity x) by (apply Hle; by (left || done)).
           destruct (Qmin_cases (b_quantity b) r) as [[? ->]|[? ->]]; lra.
    + rewrite fifoLoop_break in H by done. by simplify_eq.
Qed.

Lemma findStock_within (db : Db) (a : string) :
  batchKey db -> withinPurchase db ->
  (forall b, In b (findStock fifo_le db a) -> 0 <= b_quantity b) /\
  (forall b x, In b (findStock fifo_le db a) -> In x (batches db) ->
     b_id x = b_id b -> b_quantity b <= b_initialQuantity x).
Proof.
  intros Hkey Hw. split.
  - intros b Hb. apply findStock_positive in Hb. lra.
  - intros b x Hb Hx Hid. apply findStock_rows in Hb as [Hb _].
    assert (x = b) as -> by (by apply (key_inj (batches db))).
    by apply (within_In db).
Qed.

Lemma consumeFromArticle_within (db : Db) (id : string) (q : Q)
    (source notes : option string) :
  batchKey db -> withinPurchase db ->
  withinPurchase (consumeFromArticle fifo_le db id q source notes).2.
Proof.
  intros Hkey H. unfold consumeFromArticle.
  destruct (Qeq_bool q 0 || leb q 0); [done|].
  destruct (Nat.eqb _ _); [done|].
  destruct (fifoLoop _ _ _ _ _) as [[db' r'] logs'] eqn:Hloop. simpl.
  destruct (findStock_within db id Hkey H).
  by apply fifoLoop_within in Hloop.
Qed.

Lemma correctStock_within (db : Db) (id : string) (actualStock : Q)
    (notes : option string) (now : Z) (newId : string) :
  batchKey db -> withinPurchase db ->
  withinPurchase (correctStock fifo_le numToString db id actualStock notes now newId).2.
Proof.
  intros Hkey H. unfold correctStock, correctByDifference.
  destruct (ltb actualStock 0); [done|].
  destruct (Qeq_bool _ 0); [done|].
  destruct (ltb 0 _) eqn:E.
  - destruct (findArticle db id); [|done].
    apply ltb_true in E. apply within_intro. simpl.
    intros b [Hb|[<-|[]]]%in_app_or; [by apply (within_In db)|]. simpl. lra.
  - destruct (fifoLoop _ _ _ _ _) as [[db' r'] logs'] eqn:Hloop. simpl.
    destruct (findStock_within db id Hkey H).
    by apply fifoLoop_within in Hloop.
Qed.

Lemma cookIngredient_within (recipe : Recipe) (m : Q) (st : CookState)
    (ing : RecipeIngredient) :
  batchKey (cs_db st) /\ withinPurchase (cs_db st) ->
  batchKey (cs_db (cookIngredient fifo_le recipe m st ing)) /\
  withinPurchase (cs_db (cookIngredient fifo_le recipe m st ing)).
Proof.
  intros [Hkey H].
  destruct (checkIngredient fifo_le (cs_db st) m ing) as [x|[[[a art] n] bs]] eqn:E.
  - by rewrite (cookIngredient_missing _ _ _ _ _ _ E).
  - split.
    + apply (cookIngredient_consumed fifo_le recipe) in E as (_ & _ & _ & E).
      by apply E.
    + unfold cookIngredient. rewrite E.
      apply checkIngredient_inr in E as (_ & _ & -> & _).
      destruct (fifoLoop _ _ _ _ _) as [[db' r'] logs'] eqn:Hloop. simpl.
      destruct (findStock_within (cs_db st) a Hkey H).
      by apply fifoLoop_within in Hloop.
Qed.

Lemma cook_fold_within (recipe : Recipe) (m : Q) (ings : list RecipeIngredient)
    (st : CookState) :
  batchKey (cs_db st) /\ withinPurchase (cs_db st) ->
  withinPurchase (cs_db (fold_left (cookIngredient fifo_le recipe m) ings st)).
Proof.
  revert st. induction ings as [|ing ings IH]; intros st H; [by destruct H|].
  simpl. apply IH. by apply cookIngredient_within.
Qed.

Lemma cookRecipe_within (db : Db) (id : string) (servings : option Q) :
  batchKey db -> withinPurchase db ->
  withinPurchase (cookRecipe fifo_le db id servings).2.
Proof.
  intros Hkey H. unfold cookRecipe.
  destruct (List.find _ _) as [recipe|]; [|done].
  match goal with
  | |- context [fold_left (cookIngredient _ _ ?m) ?l ?s] =>
      pose proof (cook_fold_within recipe m l s (conj Hkey H)) as Hst
  end.
  by destruct (Nat.ltb _ _).
Qed.

Lemma toDefaultUnit_pos (db : Db) (q : Q) (unit : option string) (d : string) (r : Q) :
  wf_units db -> 0 < q -> toDefaultUnit db q unit d = Some r -> 0 < r.
Proof.
  intros Hwf Hq. unfold toDefaultUnit. destruct (unitDiffers unit d).
  - by apply convertQuantity_pos.
  - by intros [= <-].
Qed.

Lemma consumeFromBatch_within (db : Db) (id : string) (q : Q)
    (unit source notes : option string) :
  batchKey db -> wf_units db -> withinPurchase db ->
  withinPurchase (consumeFromBatch numToString trim db id q unit source notes).2.
Proof.
  intros Hkey Hwf H. unfold consumeFromBatch.
  destruct (negb (validConsumeBatch q unit source notes)) eqn:Hvalid; [done|].
  apply negb_false_iff in Hvalid. unfold validConsumeBatch in Hvalid.
  apply andb_true_iff in Hvalid as [Hvalid _].
  apply andb_true_iff in Hvalid as [Hvalid _].
  apply andb_true_iff in Hvalid as [Hq _]. apply ltb_true in Hq.
  destruct (findBatch db id) as [batch|] eqn:Hb; [|done].
  destruct (findArticle db _) as [article|]; [|done].
  destruct (toDefaultUnit _ _ _ _) as [qd|] eqn:Hqd; [|done].
  apply toDefaultUnit_pos in Hqd; [|done|done].
  destruct (ltb _ _) eqn:E; [done|].
  apply ltb_false in E. simpl.
  apply findBatch_In in Hb as [Hb Hid].
  apply (update_within id (b_quantity batch - qd) db); [lra| |done].
  intros x Hx Hxid.
  assert (x = batch) as ->
    by (apply (key_inj (batches db)); [exact Hkey|done|done|congruence]).
  destruct (within_In db batch H Hb). lra.
Qed.

(** X16.  Consumption never leaves a batch above what was purchased: on a
    store with unique batch identifiers where [0 <= quantity <=
    initialQuantity] holds of every batch, it still does after
    [consumeFromArticle], [correctStock] and [cookRecipe], and, on a unit
    table with positive factors, after [consumeFromBatch]. *)
Theorem consumption_keeps_within_purchase (db : Db) :
  batchKey db -> withinPurchase db ->
  (forall id q source notes,
     withinPurchase (consumeFromArticle fifo_le db id q source notes).2) /\
  (forall id actualStock notes now newId,
     withinPurchase
       (correctStock fifo_le numToString db id actualStock notes now newId).2) /\
  (forall id servings, withinPurchase (cookRecipe fifo_le db id servings).2) /\
  (wf_units db ->
   forall id q unit source notes,
     withinPurchase (consumeFromBatch numToString trim db id q unit source notes).2).
Proof.
  intros Hkey H. split; [|split; [|split]]; intros.
  - by apply consumeFromArticle_within.
  - by apply correctStock_within.
  - by apply cookRecipe_within.
  - by apply consumeFromBatch_within.
Qed.

End BatchBounds.

(** ** Purchases: editing, adding and removing a batch *)

Section BatchPurchases.

Variable isUuid : string -> bool.
Variable addDays : Z -> Z -> Z.
Variable numToString : Q -> string.

Lemma findBatch_replace (id id' : string) (new : Batch) (db : Db) :
  b_id new = id ->
  findBatch (batchReplace id new db) id'
  = if bool_decide (id' = id) then (fun _ => new) <$> findBatch db id
    else findBatch db id'.
Proof.
  intros Hnew. unfold findBatch, batchReplace. simpl.
  destruct (bool_decide (id' = id)) eqn:E.
  - apply bool_decide_eq_true in E. subst id'.
    induction (batches db) as [|x l IH]; simpl; [done|].
    destruct (bool_decide (b_id x = id)) eqn:Ex; [|by rewrite Ex].
    by rewrite Hnew, bool_decide_eq_true_2.
  - apply bool_decide_eq_false in E.
    induction (batches db) as [|x l IH]; simpl; [done|].
    destruct (bool_decide (b_id x = id)) eqn:Ex.
    + apply bool_decide_eq_true in Ex.
      rewrite !(bool_decide_eq_false_2 (_ = id')) by congruence. done.
    + destruct (bool_decide (b_id x = id')) eqn:Ex'; [done|]. exact IH.
Qed.

(** X17.  Editing a purchase keeps what was consumed: for a batch of which
    [consumed = initialQuantity - quantity > 0] has been consumed,
    [PUT /batches/:id/purchase] with a new initial quantity [init] is
    rejected, leaving the store as it is, when [init < consumed], and
    otherwise stores [initialQuantity = init] and [quantity = init -
    consumed]; for a batch of which nothing has been consumed it stores
    [quantity = initialQuantity = init].  The stored batch holds between 0
    and [init], it is the batch that the identifier now finds, and the
    batches of other identifiers are found as before. *)
Theorem updatePurchase_keeps_consumed (id : string) (body : UpdatePurchase)
    (db : Db) (existing : Batch) (init : Q) :
  findBatch db id = Some existing ->
  validUpdatePurchase body = true ->
  up_initialQuantity body = Some init ->
  let consumed := b_initialQuantity existing - b_quantity existing in
  (0 < consumed /\ init < consumed ->
     exists e, updatePurchase numToString id body db = (Err 400 e, db) /\
               be_consumed e = Some consumed) /\
  (~ (0 < consumed /\ init < consumed) ->
     exists r db',
       updatePurchase numToString id body db = (Ok r, db') /\
       pr_consumed r = consumed /\
       b_initialQuantity (pr_batch r) = init /\
       (0 < consumed -> b_quantity (pr_batch r) = init - consumed) /\
       (consumed <= 0 -> b_quantity (pr_batch r) = init) /\
       0 <= b_quantity (pr_batch r) /\
       b_quantity (pr_batch r) <= b_initialQuantity (pr_batch r) /\
       findBatch db' id = Some (pr_batch r) /\
       (forall id', id' <> id -> findBatch db' id' = findBatch db id')).
Proof.
  intros Hex Hvalid Hinit consumed.
  pose proof (findBatch_In _ _ _ Hex) as [_ Hid].
  pose proof Hvalid as Hv.
  unfold validUpdatePurchase in Hvalid.
  apply andb_true_iff in Hvalid as [Hvalid _].
  apply andb_true_iff in Hvalid as [Hq _].
  rewrite Hinit in Hq. simpl in Hq. apply ltb_true in Hq.
  unfold updatePurchase. rewrite Hv, Hex, Hinit. simpl. fold consumed.
  split.
  - intros [Hc Hlt].
    rewrite (proj2 (ltb_true _ _) Hc). simpl.
    rewrite (proj2 (ltb_true (init - consumed) 0)) by lra.
    eexists. by split.
  - intros Hok. destruct (ltb 0 consumed) eqn:Ec; simpl.
    + apply ltb_true in Ec.
      rewrite (proj2 (ltb_false (init - consumed) 0)) by lra.
      eexists _, _. split; [done|]. simpl.
      repeat split; try done; try lra.
      * rewrite findBatch_replace, bool_decide_eq_true_2, Hex by done. done.
      * intros id' Hne. by rewrite findBatch_replace, bool_decide_eq_false_2.
    + apply ltb_false in Ec.
      eexists _, _. split; [done|]. simpl.
      repeat split; try done; try lra.
      * rewrite findBatch_replace, bool_decide_eq_true_2, Hex by done. done.
      * intros id' Hne. by rewrite findBatch_replace, bool_decide_eq_false_2.
Qed.

Lemma rowsOf_app (a : string) (l1 l2 : list Batch) :
  rowsOf a (l1 ++ l2) = rowsOf a l1 ++ rowsOf a l2.
Proof. apply List.filter_app. Qed.

Lemma filter_fresh (id : string) (l : list Batch) :
  ~ In id (List.map b_id l) ->
  List.filter (fun b => negb (bool_decide (b_id b = id))) l = l.
Proof.
  induction l as [|x l IH]; simpl; [done|]. intros H.
  rewrite bool_decide_eq_false_2 by (intros E; apply H; by left).
  simpl. rewrite IH; [done|]. intros Hin. apply H. by right.
Qed.

(** X18.  A purchase adds its quantity to the stock of its article and can
    be taken back: when [POST /batches] succeeds with an identifier that
    is new to the store, the batch holds the positive quantity of the
    request, untouched by consumption; the stock of the article grows by
    that quantity and the batches of the other articles are as before; and
    [DELETE /batches/:id] of the new batch, when no consumption log names
    it, gives back the store as it was. *)
Theorem createBatch_adds_stock (arts : list ArticleRow) (body : CreateBatch)
    (now : Z) (newId : string) (db db' : Db) (batch : Batch) :
  createBatch isUuid addDays arts body now newId db = (Ok batch, db') ->
  ~ In newId (List.map b_id (batches db)) ->
  b_id batch = newId /\ b_articleId batch = cb_articleId body /\
  b_quantity batch = cb_quantity body /\
  b_initialQuantity batch = cb_quantity body /\ 0 < cb_quantity body /\
  stockOfArticle db' (cb_articleId body)
  == stockOfArticle db (cb_articleId body) + cb_quantity body /\
  (forall a, a <> cb_articleId body ->
     rowsOf a (batches db') = rowsOf a (batches db)) /\
  ((forall l, In l (consumptionLogs db) -> l_batchId l <> Some newId) ->
   deleteBatch newId db' = (Ok tt, db)).
Proof.
  unfold createBatch.
  destruct (negb (validCreateBatch isUuid body)) eqn:Hvalid; [done|].
  apply negb_false_iff in Hvalid. unfold validCreateBatch in Hvalid.
  apply andb_true_iff in Hvalid as [Hvalid _].
  apply andb_true_iff in Hvalid as [Hvalid _].
  apply andb_true_iff in Hvalid as [_ Hq]. apply ltb_true in Hq.
  destruct (List.find _ arts) as [article|]; [|done].
  intros [= <- <-] Hfresh. simpl.
  repeat split; try done.
  - unfold stockOfArticle, rowsOf. simpl. rewrite List.filter_app, totalStock_app.
    simpl. rewrite bool_decide_eq_true_2 by done.
    rewrite totalStock_cons, totalStock_nil. cbn [b_quantity]. lra.
  - intros a Ha. unfold rowsOf. rewrite List.filter_app. simpl.
    rewrite bool_decide_eq_false_2 by done. by rewrite app_nil_r.
  - intros Hlogs. unfold deleteBatch, findBatch. simpl.
    rewrite find_app_r by (by apply (find_id_None b_id)). simpl.
    rewrite bool_decide_eq_true_2 by done.
    f_equal. unfold batchDelete. simpl.
    rewrite List.filter_app, filter_fresh by done. simpl.
    rewrite bool_decide_eq_true_2 by done. simpl. rewrite app_nil_r.
    assert (List.map (fun l => if bool_decide (l_batchId l = Some newId)
                               then mkLog (l_articleId l) None (l_quantity l)
                                          (l_source l) (l_recipeId l) (l_notes l)
                               else l) (consumptionLogs db)
            = consumptionLogs db) as ->.
    { rewrite <- (map_id (consumptionLogs db)) at 2. apply map_ext_in.
      intros l Hl. rewrite bool_decide_eq_false_2; [done|by apply Hlogs]. }
    by destruct db.
Qed.

End BatchPurchases.

Section BatchInstances.

Local Open Scope string_scope.

Lemma opened_within : withinPurchase Examples.opened.
Proof. unfold withinPurchase. simpl. repeat constructor; simpl; lra. Qed.

Lemma opened_batchKey : batchKey Examples.opened.
Proof.
  unfold batchKey. apply NoDup_ListNoDup. apply (bool_decide_unpack _). by vm_compute.
Qed.

Lemma batch_routes_keep_within_purchase_witness :
  withinPurchase
    (updatePurchase (fun _ => EmptyString) "milk-A" Examples.halfMore Examples.opened).2.
Proof.
  destruct (batch_routes_keep_within_purchase (fun _ => true) Z.add
              (fun _ => EmptyString) Examples.opened opened_within) as (_ & _ & H & _).
  apply H.
Defined.

Lemma consumption_keeps_within_purchase_witness :
  withinPurchase
    (consumeFromArticle expiryThenPurchase Examples.opened "milk" 4 None None).2.
Proof.
  destruct (consumption_keeps_within_purchase (fun _ => EmptyString) (fun s => s)
              expiryThenPurchase Examples.opened opened_batchKey opened_within)
    as (H & _).
  apply H.
Defined.

(** Of "milk-A", 2 of 3 were consumed: a purchase of 2.5 leaves 0.5. *)
Lemma updatePurchase_keeps_consumed_witness :
  exists r db',
    (updatePurchase (fun _ => EmptyString) "milk-A" Examples.halfMore Examples.opened
     = (Ok r, db')) /\
    b_quantity (pr_batch r) == (1 # 2) /\
    findBatch db' "milk-A" = Some (pr_batch r).
Proof.
  destruct (updatePurchase_keeps_consumed (fun _ => EmptyString) "milk-A"
              Examples.halfMore Examples.opened
              (mkBatch "milk-A" "milk" 1 3 0 (Some 2%Z) None None) (5 # 2)
              eq_refl eq_refl eq_refl) as [_ H].
  destruct H as (r & db' & H1 & _ & _ & H2 & _ & _ & _ & H3 & _).
  - simpl. intros [_ H]. revert H. by vm_compute.
  - exists r, db'. split; [exact H1|]. split; [|exact H3].
    rewrite H2; by vm_compute.
Defined.

Lemma createBatch_adds_stock_witness :
  exists batch db',
    (createBatch (fun _ => true) Z.add Examples.larder Examples.moreMilk 100 "milk-C"
       Examples.opened = (Ok batch, db')) /\
    stockOfArticle db' "milk" == stockOfArticle Examples.opened "milk" + 2 /\
    deleteBatch "milk-C" db' = (Ok tt, Examples.opened).
Proof.
  eexists _, _. split; [reflexivity|].
  destruct (createBatch_adds_stock (fun _ => true) Z.add Examples.larder
              Examples.moreMilk 100 "milk-C" Examples.opened _ _ eq_refl)
    as (_ & _ & _ & _ & _ & H1 & _ & H2).
  - simpl. intros H. repeat (destruct H as [H|H]; [discriminate|]). done.
  - split; [exact H1|]. apply H2.
    simpl. intros l [<-|[]]. discriminate.
Defined.

End BatchInstances.

(** ** The article routes *)


Lemma In_take {A : Type} (n : nat) (l : list A) (x : A) : In x (take n l) -> In x l.
Proof.
  revert n. induction l as [|y l IH]; intros [|n]; simpl; try done.
  intros [H|H]; [by left|right; by apply (IH n)].
Qed.

Lemma StronglySorted_take {A : Type} (R : A -> A -> Prop) (n : nat) (l : list A) :
  StronglySorted R l -> StronglySorted R (take n l).
Proof.
  intros H. revert n. induction H as [|x l Hl IH Hx]; intros [|n]; simpl;
    try constructor; [by apply IH|].
  apply List.Forall_forall. intros y Hy.
  apply (proj1 (List.Forall_forall _ _) Hx). by apply (In_take n).
Qed.

Lemma latestPurchaseFirst_sorted (l : list Batch) :
  StronglySorted (fun x y => (b_purchaseDate y <= b_purchaseDate x)%Z)
                 (orderBy latestPurchaseFirst l).
Proof.
  eapply StronglySorted_impl; [|apply orderBy_sorted].
  - intros a b H. unfold latestPurchaseFirst in H. lia.
  - intros a b. unfold latestPurchaseFirst. lia.
  - intros a b c. unfold latestPurchaseFirst. lia.
Qed.

Lemma fold_sum_acc {A : Type} (f : A -> Q) (l : list A) (acc : Q) :
  fold_left (fun sum x => sum + f x) l acc
  == acc + fold_left (fun sum x => sum + f x) l 0.
Proof.
  revert acc. induction l as [|x l IH]; intros acc; simpl.
  - lra.
  - rewrite (IH (acc + f x)), (IH (0 + f x)). lra.
Qed.

Lemma purchased_positive (l : list Batch) :
  l <> [] -> Forall pricedPurchase l ->
  0 < fold_left (fun sum b => sum + b_initialQuantity b) l 0.
Proof.
  intros Hne Hall.
  assert (forall acc, 0 <= acc ->
            acc <= fold_left (fun sum b => sum + b_initialQuantity b) l acc /\
            (l <> [] -> acc < fold_left (fun sum b => sum + b_initialQuantity b) l acc))
    as H.
  { clear Hne. induction Hall as [|b l [_ Hb] _ IH]; intros acc Hacc; simpl.
    - split; [lra|done].
    - destruct (IH (acc + b_initialQuantity b)) as [H1 _]; [lra|].
      split; [lra|]. intros _. lra. }
  destruct (H 0) as [_ H']; [lra|]. by apply H'.
Qed.

Section ArticleFacts.

Variable fifo_le : Batch -> Batch -> bool.

(** X19.  The prices of [GET /articles/:id] are taken from the priced
    purchases among the listed batches of the article, those with a price
    and a positive purchased quantity: both prices are null exactly when
    there is none; and [lastPurchasePrice] is the price per unit of one
    that no other of them is later than. *)
Theorem article_detail_prices (db : Db) (id : string) (d : ArticleDetail) :
  articleDetail fifo_le db id = Ok d ->
  let priced b := In b (ad_allBatches d) /\ pricedPurchase b in
  (forall b, In b (ad_allBatches d) -> In b (batches db) /\ b_articleId b = id) /\
  ((exists b, priced b) <-> is_Some (ad_avgPrice d)) /\
  (is_Some (ad_lastPurchasePrice d) <-> is_Some (ad_avgPrice d)) /\
  (forall p, ad_lastPurchasePrice d = Some p ->
     exists b, priced b /\ pricePerUnit b = Some p /\
       forall b', priced b' -> (b_purchaseDate b' <= b_purchaseDate b)%Z).
Proof.
  unfold articleDetail. destruct (findArticle db id) as [article|]; [|done].
  intros [= <-]. cbn [ad_allBatches ad_avgPrice ad_lastPurchasePrice].
  set (allBatches := take 50 _).
  set (withPrice := List.filter _ allBatches).
  assert (forall b, In b withPrice <-> In b allBatches /\ pricedPurchase b) as Hwith.
  { intros b. unfold withPrice. rewrite filter_In. unfold pricedPurchase.
    rewrite andb_true_iff, bool_decide_eq_true, ltb_true. tauto. }
  assert (Forall pricedPurchase withPrice) as Hall
    by (apply List.Forall_forall; intros b Hb; by apply Hwith).
  assert (StronglySorted (fun x y => (b_purchaseDate y <= b_purchaseDate x)%Z) withPrice)
    as Hsorted
    by (apply StronglySorted_filter, StronglySorted_take, latestPurchaseFirst_sorted).
  split.
  { intros b Hb. apply In_take in Hb.
    eapply Permutation_in in Hb; [|apply orderBy_perm].
    apply filter_In in Hb as [Hb E]. by apply bool_decide_eq_true in E. }
  destruct withPrice as [|b0 rest] eqn:Ew.
  - simpl. split; [|split].
    + split; [|by intros [? ?]]. intros (b & Hb). by apply Hwith in Hb.
    + split; by intros [? ?].
    + done.
  - rewrite <- Ew in *.
    pose proof (purchased_positive withPrice) as Hpos.
    cbv zeta in Hpos. specialize (Hpos ltac:(by rewrite Ew) Hall).
    assert (Nat.ltb 0 (length withPrice) = true) as -> by (by rewrite Ew).
    rewrite (proj2 (ltb_true _ _) Hpos).
    split; [|split].
    + split; [by eexists|]. intros _. exists b0. apply Hwith. rewrite Ew. by left.
    + split; [by eexists|]. intros _. rewrite Ew. simpl.
      assert (In b0 withPrice) as Hb0 by (rewrite Ew; by left).
      apply (proj1 (List.Forall_forall _ _) Hall) in Hb0 as [[p Hp] _].
      unfold pricePerUnit. rewrite Hp. by eexists.
    + intros p Hp. rewrite Ew in Hp. simpl in Hp.
      exists b0. split; [apply Hwith; rewrite Ew; by left|]. split; [done|].
      intros b' Hb'. apply Hwith in Hb'. rewrite Ew in Hb', Hsorted.
      apply StronglySorted_inv in Hsorted as [_ Hfirst].
      destruct Hb' as [<-|Hb']; [lia|].
      by apply (proj1 (List.Forall_forall _ _) Hfirst).
Qed.

End ArticleFacts.

Section ArticleLists.

Variable fifo_le : Batch -> Batch -> bool.
Variable selected : Article -> bool.
Variable byOrder : Article -> Article -> Q.

Lemma isLowStock_spec (article : Article) (total : Q) :
  0 <= total ->
  (isLowStock article total = true <->
   exists m, a_minStock article = Some m /\ total < m).
Proof.
  intros Hnn. unfold isLowStock. destruct (a_minStock article) as [m|].
  - destruct (truthy_num (Some m)) eqn:E.
    + rewrite ltb_true. split; [by eexists|]. by intros (? & [= <-] & ?).
    + split; [done|]. intros (? & [= <-] & H).
      unfold truthy_num in E. apply negb_false_iff, Qeq_bool_eq in E. lra.
  - split; [done|]. by intros (? & ? & _).
Qed.

Lemma isLowStock_eq (article : Article) (x y : Q) :
  x == y -> isLowStock article x = isLowStock article y.
Proof.
  intros H. unfold isLowStock. destruct (a_minStock article) as [m|]; [|done].
  destruct (truthy_num (Some m)); [|done].
  destruct (ltb x m) eqn:E1, (ltb y m) eqn:E2; try done.
  - apply ltb_true in E1. apply ltb_false in E2. lra.
  - apply ltb_false in E1. apply ltb_true in E2. lra.
Qed.

Lemma earliest_of_sorted (l : list Batch) :
  (forall a b x y, fifo_le a b = true ->
     b_expiryDate a = Some x -> b_expiryDate b = Some y -> (x <= y)%Z) ->
  StronglySorted (fun x y => fifo_le x y = true) l ->
  match List.find (fun b => bool_decide (is_Some (b_expiryDate b))) l ≫= b_expiryDate with
  | Some d =>
    (exists b, In b l /\ b_expiryDate b = Some d) /\
    forall b d', In b l -> b_expiryDate b = Some d' -> (d <= d')%Z
  | None => forall b, In b l -> b_expiryDate b = None
  end.
Proof.
  intros Hexp. induction 1 as [|x l Hl IH Hx]; simpl; [done|].
  destruct (b_expiryDate x) as [d|] eqn:Ex.
  - rewrite bool_decide_eq_true_2 by (by eexists). simpl. rewrite Ex.
    split; [exists x; split; [by left|done]|].
    intros b d' [<-|Hb] Hd'.
    + assert (d' = d) by congruence. lia.
    + apply (Hexp x b); [|done|done].
      by apply (proj1 (List.Forall_forall _ _) Hx).
  - rewrite bool_decide_eq_false_2 by (by intros [? ?]).
    destruct (List.find _ l ≫= b_expiryDate) as [d|].
    + destruct IH as [(b & Hb & Hd) IH]. split; [exists b; split; [by right|done]|].
      intros b' d' [<-|Hb'] Hd'; [congruence|]. by apply (IH b').
    + intros b [<-|Hb]; [done|]. by apply IH.
Qed.

(** X20.  The stock that [GET /articles] shows.  On a store without
    negative batches and for a collation of the batches that is a total
    preorder and puts an earlier expiry date before a later one, every
    listed article is a selected article of the table; its [totalStock] is
    the summed quantity of all its batches; [isLowStock] holds exactly when
    the article has a minimum stock that the total is below;
    [earliestExpiry] is the earliest expiry date of its batches in stock
    that carry one, and null when none does.  With [lowStock=true] the
    list is the part that is low on stock of the list without it, and
    otherwise it lists every selected article once. *)
Theorem article_list_stock (db : Db) (lowStock : option string) :
  nonNegative db ->
  (forall a b, fifo_le a b = true \/ fifo_le b a = true) ->
  (forall a b c, fifo_le a b = true -> fifo_le b c = true -> fifo_le a c = true) ->
  (forall a b x y, fifo_le a b = true ->
     b_expiryDate a = Some x -> b_expiryDate b = Some y -> (x <= y)%Z) ->
  let views := listArticles fifo_le selected byOrder db lowStock in
  (forall v, In v views ->
     let id := a_id (av_article v) in
     In (av_article v) (articles db) /\ selected (av_article v) = true /\
     av_totalStock v == stockOfArticle db id /\
     (av_isLowStock v = true <->
      exists m, a_minStock (av_article v) = Some m /\ av_totalStock v < m) /\
     match av_earliestExpiry v with
     | Some d =>
       (exists b, In b (batches db) /\ b_articleId b = id /\ 0 < b_quantity b /\
                  b_expiryDate b = Some d) /\
       forall b d', In b (batches db) -> b_articleId b = id -> 0 < b_quantity b ->
                    b_expiryDate b = Some d' -> (d <= d')%Z
     | None =>
       forall b, In b (batches db) -> b_articleId b = id -> 0 < b_quantity b ->
                 b_expiryDate b = None
     end) /\
  (lowStock = Some "true"%string ->
   forall v, In v views <->
     In v (listArticles fifo_le selected byOrder db None) /\ av_isLowStock v = true) /\
  (lowStock <> Some "true"%string ->
   Permutation (List.map av_article views) (List.filter selected (articles db))).
Proof.
  intros Hnn Htotal Htrans Hexp views.
  assert (forall v, In v (List.map (articleView fifo_le db)
                            (Arrays.sort byOrder (List.filter selected (articles db)))) ->
            exists a, v = articleView fifo_le db a /\ In a (articles db) /\
                      selected a = true) as Hview.
  { intros v (a & <- & Ha)%in_map_iff. exists a. split; [done|].
    eapply Permutation_in in Ha; [|apply sort_perm]. by apply filter_In in Ha. }
  split; [|split].
  - intros v Hv.
    assert (In v (List.map (articleView fifo_le db)
                    (Arrays.sort byOrder (List.filter selected (articles db))))) as Hv'.
    { unfold views, listArticles in Hv.
      destruct (bool_decide (lowStock = Some "true"%string)); [|done].
      by apply filter_In in Hv as [Hv _]. }
    apply Hview in Hv' as (a & -> & Ha & Hsel). cbn zeta.
    cbn [articleView av_article av_totalStock av_isLowStock av_earliestExpiry].
    split; [done|]. split; [done|]. split; [by apply findStock_total|]. split.
    + apply isLowStock_spec. apply totalStock_nonneg, List.Forall_forall.
      intros b Hb. apply findStock_positive in Hb. lra.
    + pose proof (earliest_of_sorted (findStock fifo_le db (a_id a)) Hexp
                    (orderBy_sorted fifo_le Htotal Htrans _)) as H.
      destruct (List.find _ _ ≫= b_expiryDate) as [d|].
      * destruct H as [(b & Hb & Hd) H]. split.
        -- exists b. apply findStock_In in Hb. tauto.
        -- intros b' d' H1 H2 H3. apply H. by apply findStock_In.
      * intros b H1 H2 H3. apply H. by apply findStock_In.
  - intros ->. intros v. unfold views, listArticles.
    rewrite bool_decide_eq_true_2 by done.
    rewrite bool_decide_eq_false_2 by done. by rewrite filter_In.
  - intros Hne. unfold views, listArticles.
    rewrite bool_decide_eq_false_2 by done.
    rewrite List.map_map. simpl. rewrite List.map_id. apply sort_perm.
Qed.

End ArticleLists.

(** ** The dashboard *)

Section DashboardFacts.

Variable fifo_le : Batch -> Batch -> bool.
Variable parseInt : string -> option Z.
Variable startOfDay : Z -> Z.
Variable endOfDay : Z -> Z.
Variable addDays : Z -> Z -> Z.

Lemma currentStock_nonneg (db : Db) (id : string) : 0 <= currentStockOf db id.
Proof.
  apply totalStock_nonneg, List.Forall_forall. intros b Hb.
  apply filter_In in Hb as [_ Hb]. unfold inStock in Hb.
  apply andb_true_iff in Hb as [_ Hb]. apply ltb_true in Hb. lra.
Qed.

Lemma lowStock_In (db : Db) (x : LowStockArticle) :
  In x (lowStockArticles db) <->
  In (ls_article x) (articles db) /\
  ls_totalStock x = currentStockOf db (a_id (ls_article x)) /\
  exists m, a_minStock (ls_article x) = Some m /\
            ls_shortfall x = m - ls_totalStock x /\ ls_totalStock x < m.
Proof.
  unfold lowStockArticles.
  rewrite (Permutation_in' (eq_refl x) (sort_perm _ _)).
  rewrite filter_In, in_map_iff. split.
  - intros [(a & <- & Ha) Hlow]. apply filter_In in Ha as [Ha Hmin].
    apply bool_decide_eq_true in Hmin as [m Hm]. simpl in *.
    split; [done|]. split; [done|]. exists m. split; [done|].
    rewrite Hm in *. apply ltb_true in Hlow.
    pose proof (currentStock_nonneg db (a_id a)) as Hnn.
    unfold currentStockOf in Hnn. unfold or_num, truthy_num in *.
    destruct (Qeq_bool m 0) eqn:E; simpl in *; [lra|]. by split.
  - intros (Ha & Ht & m & Hm & Hs & Hlow).
    pose proof (currentStock_nonneg db (a_id (ls_article x))) as Hnn.
    assert (default 0 (or_num (Some m) (Some 0)) = m) as Hor.
    { unfold or_num, truthy_num. destruct (Qeq_bool m 0) eqn:E; [|done].
      apply Qeq_bool_eq in E. rewrite Ht in Hlow. lra. }
    split.
    + exists (ls_article x). split.
      * destruct x as [a t s]. simpl in *. subst t s. rewrite Hm, Hor. done.
      * apply filter_In. split; [done|]. apply bool_decide_eq_true. by eexists.
    + rewrite Hm, Hor. by apply ltb_true.
Qed.

(** X21.  The low stock of the dashboard.  [lowStock] of [GET /dashboard]
    lists the articles with a minimum stock that the summed quantity of
    their batches in stock is below, each with that total and the positive
    shortfall [minStock - totalStock], the largest shortfall first; an
    article is listed exactly when [GET /articles] marks it [isLowStock]. *)
Theorem dashboard_low_stock (db : Db) :
  let low := lowStockArticles db in
  (forall x, In x low ->
     In (ls_article x) (articles db) /\
     ls_totalStock x = currentStockOf db (a_id (ls_article x)) /\
     exists m, a_minStock (ls_article x) = Some m /\
               ls_shortfall x = m - ls_totalStock x /\ 0 < ls_shortfall x) /\
  (forall a, In a (articles db) ->
     ((exists x, In x low /\ ls_article x = a) <->
      av_isLowStock (articleView fifo_le db a) = true)) /\
  StronglySorted (fun x y => ls_shortfall y <= ls_shortfall x) low.
Proof.
  intros low. split; [|split].
  - intros x Hx. apply lowStock_In in Hx as (Ha & Ht & m & Hm & Hs & Hlow).
    split; [done|]. split; [done|]. exists m. split; [done|]. split; [done|].
    rewrite Hs. lra.
  - intros a Ha. cbn [articleView av_isLowStock].
    rewrite (isLowStock_eq a _ (currentStockOf db (a_id a)))
      by apply totalStock_perm, findStock_perm.
    rewrite (isLowStock_spec a _ (currentStock_nonneg db (a_id a))).
    split.
    + intros (x & Hx & <-). apply lowStock_In in Hx as (_ & Ht & m & Hm & _ & Hlow).
      exists m. split; [done|]. by rewrite <- Ht.
    + intros (m & Hm & Hlow).
      exists (mkLowStockArticle a (currentStockOf db (a_id a))
                (m - currentStockOf db (a_id a))).
      split; [|done]. apply lowStock_In. simpl.
      split; [done|]. split; [done|]. by exists m.
  - unfold low, lowStockArticles.
    eapply StronglySorted_impl; [|apply sort_sorted].
    + intros x y H. simpl in H. lra.
    + intros x y. simpl. lra.
    + intros x y z. simpl. lra.
Qed.

Lemma earliestExpiryFirst_sorted (l : list Batch) :
  StronglySorted (fun x y => earliestExpiryFirst x y = true)
                 (orderBy earliestExpiryFirst l).
Proof.
  clear fifo_le parseInt startOfDay endOfDay addDays.
  apply orderBy_sorted.
  - intros a b. unfold earliestExpiryFirst.
    destruct (b_expiryDate a), (b_expiryDate b); try tauto. lia.
  - intros a b c. unfold earliestExpiryFirst.
    destruct (b_expiryDate a), (b_expiryDate b), (b_expiryDate c); try done. lia.
Qed.

Lemma expiringUntil_In (db : Db) (endDate : Z) (b : Batch) :
  In b (expiringUntil db endDate) <->
  In b (batches db) /\ 0 < b_quantity b /\
  exists d, b_expiryDate b = Some d /\ (d <= endDate)%Z.
Proof.
  clear fifo_le parseInt startOfDay endOfDay addDays.
  unfold expiringUntil.
  rewrite (Permutation_in' (eq_refl b) (orderBy_perm _ _)).
  rewrite filter_In, andb_true_iff, ltb_true.
  destruct (b_expiryDate b) as [d|]; simpl.
  - rewrite Z.leb_le. split; [intros (? & ? & ?); eauto|].
    intros (? & ? & d' & [= <-] & ?). tauto.
  - split; [by intros (_ & _ & ?)|]. by intros (_ & _ & ? & ? & _).
Qed.

Lemma filter_none {A : Type} (p : A -> bool) (l : list A) :
  Forall (fun x => p x = false) l -> List.filter p l = [].
Proof. induction 1 as [|x l Hx _ IH]; simpl; [done|]. by rewrite Hx. Qed.

(** A list in the order of the expiry dates splits at a date. *)
Lemma split_at_date (t : Z) (l : list Batch) :
  StronglySorted (fun x y => earliestExpiryFirst x y = true) l ->
  Forall (fun b => is_Some (b_expiryDate b)) l ->
  List.filter (fun b => from_option (fun d => (d <? t)%Z) false (b_expiryDate b)) l
  ++ List.filter (fun b => from_option (fun d => (t <=? d)%Z) false (b_expiryDate b)) l
  = l.
Proof.
  induction 1 as [|x l Hl IH Hx]; intros Hall; [done|].
  apply Forall_cons_1 in Hall as [[d Hd] Hall]. specialize (IH Hall).
  simpl. rewrite Hd. simpl.
  destruct (d <? t)%Z eqn:E.
  - rewrite (proj2 (Z.leb_gt t d)) by lia. simpl. by rewrite IH.
  - rewrite (proj2 (Z.leb_le t d)) by lia.
    assert (List.filter
              (fun b => from_option (fun d => (d <? t)%Z) false (b_expiryDate b)) l = [])
      as Hnone.
    { apply filter_none. apply List.Forall_forall. intros y Hy.
      pose proof (proj1 (List.Forall_forall _ _) Hx y Hy) as Hle.
      pose proof (proj1 (List.Forall_forall _ _) Hall y Hy) as [d' Hd'].
      unfold earliestExpiryFirst in Hle. rewrite Hd, Hd' in Hle. rewrite Hd'. simpl.
      lia. }
    rewrite Hnone in *. simpl in *. by rewrite IH.
Qed.

(** X22.  The expiring batches of the dashboard.  [expired] followed by
    [expiringSoon] is the list that [GET /articles/expiring] replies for 7
    days at the same instant: the batches in stock that expire by the end
    of the seventh day from now, in the order of their expiry dates.  The
    expired ones are those that expire before the start of today. *)
Theorem dashboard_expiring_partition (db : Db) (today : Z) :
  let all := expiringUntil db (endOfDay (addDays today 7)) in
  expired startOfDay endOfDay addDays db today
  ++ expiringSoon startOfDay endOfDay addDays db today = all /\
  (parseInt "7" = Some 7%Z ->
   articlesExpiring parseInt addDays endOfDay db today None = Ok all) /\
  (forall b, In b all <->
     In b (batches db) /\ 0 < b_quantity b /\
     exists d, b_expiryDate b = Some d /\ (d <= endOfDay (addDays today 7))%Z) /\
  (forall b, In b (expired startOfDay endOfDay addDays db today) <->
     In b all /\ exists d, b_expiryDate b = Some d /\ (d < startOfDay today)%Z) /\
  StronglySorted
    (fun x y => forall d d', b_expiryDate x = Some d -> b_expiryDate y = Some d' ->
                             (d <= d')%Z)
    all.
Proof.
  clear fifo_le.
  intros all. split; [|split; [|split; [|split]]].
  - unfold expired, expiringSoon, expiringBatches. fold all.
    apply split_at_date; [apply earliestExpiryFirst_sorted|].
    apply List.Forall_forall. intros b Hb.
    apply expiringUntil_In in Hb as (_ & _ & d & Hd & _). by eexists.
  - intros H7. unfold articlesExpiring. simpl. by rewrite H7.
  - intros b. apply expiringUntil_In.
  - intros b. unfold expired, expiringBatches. fold all. rewrite filter_In.
    destruct (b_expiryDate b) as [d|]; simpl.
    + rewrite Z.ltb_lt. split; [intros [? ?]; eauto|].
      intros [? (d' & [= <-] & ?)]. tauto.
    + split; [by intros [_ ?]|]. by intros [_ (? & ? & _)].
  - eapply StronglySorted_impl; [|apply earliestExpiryFirst_sorted].
    intros x y H d d' Hd Hd'. unfold earliestExpiryFirst in H.
    rewrite Hd, Hd' in H. lia.
Qed.

End DashboardFacts.

(** ** Completing a shopping list and the stock *)

Section CompletionStock.

Lemma created_stock (a : string) (now : Z) (items : list ShoppingListItem)
    (created : list Batch) :
  Forall2 (fun item b =>
             Some (b_articleId b) = i_articleId item /\
             b_quantity b = boughtQuantity item /\
             b_initialQuantity b = boughtQuantity item /\
             b_purchasePrice b = paidPrice item /\
             b_expiryDate b = i_expiryDate item /\
             b_purchaseDate b = default now (i_purchaseDate item))
          items created ->
  totalStock (rowsOf a created)
  == fold_left (fun sum i => sum + boughtQuantity i)
       (List.filter (fun i => bool_decide (i_articleId i = Some a)) items) 0.
Proof.
  induction 1 as [|item b items created (Ha & Hq & _) _ IH]; [reflexivity|].
  unfold rowsOf in *. simpl.
  destruct (bool_decide (b_articleId b = a)) eqn:E.
  - apply bool_decide_eq_true in E.
    rewrite bool_decide_eq_true_2 by congruence. simpl.
    rewrite totalStock_cons, IH, (fold_sum_acc boughtQuantity _ (0 + _)), Hq. lra.
  - apply bool_decide_eq_false in E.
    rewrite bool_decide_eq_false_2 by congruence. exact IH.
Qed.

Lemma find_list_replace (id : string) (new : ShoppingList) (ls : list ShoppingList) :
  sl_id new = id ->
  List.find (fun l => bool_decide (sl_id l = id))
            (List.map (fun l => if bool_decide (sl_id l = id) then new else l) ls)
  = (fun _ => new) <$> List.find (fun l => bool_decide (sl_id l = id)) ls.
Proof.
  intros Hnew. induction ls as [|x ls IH]; simpl; [done|].
  destruct (bool_decide (sl_id x = id)) eqn:E; [|by rewrite E].
  by rewrite Hnew, bool_decide_eq_true_2.
Qed.

(** X23.  Completing a shopping list adds what was bought to the stock,
    once: when a list that is not yet completed is completed, the stock of
    every article grows by the bought quantities of the purchased items of
    the list that name the article (the purchased quantity of an item, or
    its needed quantity when the purchased one is null or zero), and a
    second completion of the list is rejected and leaves the store as it
    is. *)
Theorem completion_adds_to_stock (db : Db) (id : string) (now : Z)
    (newIds : nat -> string) (list : ShoppingList) :
  List.find (fun l => bool_decide (sl_id l = id)) (shoppingLists db) = Some list ->
  sl_completedAt list = None ->
  let result := completeShoppingList db id now newIds in
  (forall a, stockOfArticle result.2 a == stockOfArticle db a + boughtOf db id a) /\
  (forall now' newIds',
     completeShoppingList result.2 id now' newIds'
     = (Err 400 "Shopping list already completed"%string, result.2)).
Proof.
  intros Hfind Hc result.
  assert (sl_id list = id) as Hid.
  { apply find_some in Hfind as [_ H]. by apply bool_decide_eq_true in H. }
  subst result. unfold completeShoppingList at 1 3 4. rewrite Hfind.
  rewrite bool_decide_eq_false_2 by (rewrite Hc; by intros [x ?]).
  match goal with
  | |- context [fold_left _ ?c db] =>
      set (created := c); destruct (fold_batchCreate created db) as (Hb & Hl & _)
  end.
  cbn [fst snd]. split.
  - intros a. unfold stockOfArticle. simpl. rewrite Hb.
    rewrite rowsOf_app, totalStock_app. apply Qplus_inj_l.
    unfold created.
    match goal with
    | |- context [imap _ ?l] => pose proof (created_batches now l newIds) as HF
    end.
    rewrite (created_stock a now _ _ HF). unfold boughtOf, purchasedItems.
    rewrite !filter_filter_and.
    erewrite List.filter_ext; [reflexivity|].
    intros i. simpl.
    destruct (bool_decide (i_listId i = id)), (i_isPurchased i); simpl; try done.
    by destruct (i_articleId i) as [x|].
  - intros now' newIds'. unfold completeShoppingList. simpl.
    rewrite find_list_replace by done. by rewrite Hl, Hfind.
Qed.

End CompletionStock.

(** ** Editing the items of a shopping list *)

Section ItemFacts.

Lemma findItem_replace (id id' : string) (new : ItemRow) (rows : list ItemRow) :
  ir_id new = id ->
  findItem (List.map (fun r => if bool_decide (ir_id r = id) then new else r) rows) id'
  = if bool_decide (id' = id) then (fun _ => new) <$> findItem rows id
    else findItem rows id'.
Proof.
  intros Hnew. unfold findItem.
  destruct (bool_decide (id' = id)) eqn:E.
  - apply bool_decide_eq_true in E. subst id'.
    induction rows as [|x l IH]; simpl; [done|].
    destruct (bool_decide (ir_id x = id)) eqn:Ex; [|by rewrite Ex].
    by rewrite Hnew, bool_decide_eq_true_2.
  - apply bool_decide_eq_false in E.
    induction rows as [|x l IH]; simpl; [done|].
    destruct (bool_decide (ir_id x = id)) eqn:Ex.
    + apply bool_decide_eq_true in Ex.
      rewrite !(bool_decide_eq_false_2 (_ = id')) by congruence. done.
    + destruct (bool_decide (ir_id x = id')) eqn:Ex'; [done|]. exact IH.
Qed.

(** X24.  Editing an item of a shopping list.  For an item that exists,
    [PUT /shopping-lists/:listId/items/:itemId] stores the needed quantity,
    the purchased flag and the purchased quantity of the body and leaves
    the other items as they are.  A new needed quantity gives a new
    estimated price, a whole number of cents, to an item that is linked to
    an article and has a positive needed quantity and a price; otherwise
    the price stays.  The recommended packs are never changed.
    The purchased quantity is [purchasedQuantity] of the body, else its
    [quantity], and when it is not zero it is the quantity that completion
    will put in stock for the item. *)
Theorem updateItem_rescales_price (rows : list ItemRow) (itemId : string)
    (body : UpdateItem) (row : ItemRow) :
  findItem rows itemId = Some row ->
  let item := ir_item row in
  exists updated rows',
    updateItem rows itemId body = (Ok updated, rows') /\
    findItem rows' itemId = Some updated /\
    (forall id', id' <> itemId -> findItem rows' id' = findItem rows id') /\
    let new := ir_item updated in
    i_listId new = i_listId item /\ i_articleId new = i_articleId item /\
    i_recommendedPacks new = i_recommendedPacks item /\
    i_neededQuantity new = default (i_neededQuantity item) (ui_neededQuantity body) /\
    i_isPurchased new = default (i_isPurchased item) (ui_purchased body) /\
    (forall q price,
       ui_neededQuantity body = Some q ->
       truthy_str (i_articleId item) = true -> 0 < i_neededQuantity item ->
       i_estimatedPrice item = Some price ->
       exists e cents,
         i_estimatedPrice new = Some e /\ e = inject_Z cents / 100) /\
    (ui_neededQuantity body = None \/ truthy_str (i_articleId item) = false \/
     i_neededQuantity item <= 0 \/ i_estimatedPrice item = None ->
     i_estimatedPrice new = i_estimatedPrice item) /\
    (forall q, ui_purchasedQuantity body = Some q -> i_purchasedQuantity new = Some q) /\
    (forall q, ui_purchasedQuantity body = None -> ui_quantity body = Some q ->
               i_purchasedQuantity new = Some q) /\
    (forall q, i_purchasedQuantity new = Some q -> ~ q == 0 -> boughtQuantity new = q).
Proof.
  intros Hfind item.
  assert (ir_id row = itemId) as Hid.
  { apply find_some in Hfind as [_ H]. by apply bool_decide_eq_true in H. }
  unfold updateItem. rewrite Hfind. fold item.
  eexists _, _. split; [reflexivity|].
  split; [by rewrite findItem_replace, bool_decide_eq_true_2, Hfind by done|].
  split; [intros id' Hne; by rewrite findItem_replace, bool_decide_eq_false_2|].
  cbn [ir_item i_listId i_articleId i_recommendedPacks i_neededQuantity
       i_estimatedPrice i_purchasedQuantity i_isPurchased].
  split; [done|]. split; [done|]. split; [done|]. split; [done|]. split; [done|].
  unfold newEstimatedPrice. rewrite Hfind. fold item.
  split; [|split; [|split; [|split]]].
  - intros q price -> Ha Hn Hp.
    rewrite Ha, (proj2 (ltb_true _ _) Hn), Hp.
    rewrite bool_decide_eq_true_2 by (by eexists). simpl.
    eexists _, _. split; reflexivity.
  - intros H. destruct (ui_neededQuantity body) as [q|]; [|done].
    destruct H as [H|[H|[H|H]]]; [done| | |].
    + by rewrite H.
    + rewrite (proj2 (ltb_false _ _) H). by rewrite andb_false_r.
    + rewrite H. rewrite bool_decide_eq_false_2 by (by intros [? ?]).
      by rewrite andb_false_r.
  - by intros q ->.
  - by intros q -> ->.
  - intros q Hq Hne. unfold boughtQuantity.
    cbn [i_purchasedQuantity i_neededQuantity]. rewrite Hq.
    destruct (Qeq_bool q 0) eqn:E; [|done]. by apply Qeq_bool_eq in E.
Qed.

End ItemFacts.

(** ** The prices of a generated shopping list *)

Section GeneratedPrices.

Variable dateToString : Z -> string.

Lemma pricedBatches_In (db : Db) (a : string) (b : Batch) :
  In b (pricedBatches db a) ->
  In b (batches db) /\ b_articleId b = a /\ is_Some (b_purchasePrice b).
Proof.
  unfold pricedBatches. intros Hb. apply In_take in Hb.
  eapply Permutation_in in Hb; [|apply orderBy_perm].
  apply filter_In in Hb as [Hb E]. apply andb_true_iff in E as [E1 E2].
  apply bool_decide_eq_true in E1, E2. done.
Qed.

Lemma pricedBatches_none (db : Db) (a : string) :
  pricedBatches db a = [] ->
  forall b, In b (batches db) -> b_articleId b = a -> b_purchasePrice b = None.
Proof.
  unfold pricedBatches. intros H b Hb Ha.
  destruct (b_purchasePrice b) as [p|] eqn:Hp; [|done]. exfalso.
  assert (In b (orderBy (fun a b => (b_purchaseDate b <=? b_purchaseDate a)%Z)
                  (List.filter (fun b => bool_decide (b_articleId b = a)
                                         && bool_decide (is_Some (b_purchasePrice b)))
                               (batches db)))) as Hin.
  { eapply Permutation_in; [symmetry; apply orderBy_perm|].
    apply filter_In. split; [done|]. apply andb_true_iff.
    split; apply bool_decide_eq_true; [done|]. rewrite Hp. by eexists. }
  destruct (orderBy _ _); [done|]. discriminate.
Qed.

Lemma avgPricePerPack_priced (db : Db) (a : string) :
  match avgPricePerPack db a with
  | Some avg =>
    exists b, In b (batches db) /\ b_articleId b = a /\ is_Some (b_purchasePrice b)
  | None =>
    forall b, In b (batches db) -> b_articleId b = a -> b_purchasePrice b = None
  end.
Proof.
  unfold avgPricePerPack.
  set (withPrice := List.filter _ (pricedBatches db a)).
  assert (withPrice = pricedBatches db a) as Hw.
  { unfold withPrice. apply forallb_filter_id, forallb_forall. intros b Hb.
    apply pricedBatches_In in Hb as (_ & _ & Hb). by apply bool_decide_eq_true. }
  destruct withPrice as [|b0 rest] eqn:Ew.
  - simpl. apply pricedBatches_none. by rewrite <- Hw.
  - simpl. exists b0. apply pricedBatches_In. rewrite <- Hw. by left.
Qed.

(** X25.  The prices of a generated shopping list.  When
    [POST /shopping-lists/generate] succeeds, the list and its items are
    added to the store and no batch changes; every item belongs to the new
    list and is not yet purchased.  An item has an estimated price, a whole
    number of cents, only when it names an existing article of which some
    batch has a purchase price; the price is null when the item names an
    existing article of which no batch has a price. *)
Theorem generated_item_prices (db : Db) (name : option string)
    (shopDate planUntil : Z) (fc : list ForecastItem) (newListId : string)
    (rows : list ShoppingListItem) (list : ShoppingList) (db' : Db) :
  generateShoppingList dateToString db name shopDate planUntil fc newListId
  = (Ok (list, rows), db') ->
  sl_id list = newListId /\ sl_completedAt list = None /\
  shoppingLists db' = (shoppingLists db ++ [list])%list /\
  shoppingListItems db' = (shoppingListItems db ++ rows)%list /\
  batches db' = batches db /\
  forall row, In row rows ->
    i_listId row = newListId /\ i_isPurchased row = false /\
    i_purchasedQuantity row = None /\
    match i_estimatedPrice row with
    | Some e =>
      exists a b cents,
        i_articleId row = Some a /\ is_Some (findArticle db a) /\
        In b (batches db) /\ b_articleId b = a /\ is_Some (b_purchasePrice b) /\
        e = inject_Z cents / 100
    | None =>
      forall a, i_articleId row = Some a -> a <> EmptyString ->
        is_Some (findArticle db a) ->
        forall b, In b (batches db) -> b_articleId b = a -> b_purchasePrice b = None
    end.
Proof.
  unfold generateShoppingList.
  destruct (negb _); [done|]. intros [= <- <- <-]. simpl.
  repeat split; try done.
  - by apply in_map_iff in H as (item & <- & _).
  - by apply in_map_iff in H as (item & <- & _).
  - by apply in_map_iff in H as (item & <- & _).
  - apply in_map_iff in H as (item & <- & _).
    unfold itemRow. cbn [i_estimatedPrice i_articleId i_recommendedPacks].
    unfold priceOf.
    destruct (truthy_str (n_articleId item)) eqn:Ea.
    + apply truthy_str_inv in Ea as (a & Ha & Hne). rewrite Ha.
      destruct (findArticle db a) as [art|] eqn:Hart.
      * pose proof (avgPricePerPack_priced db a) as Hb.
        destruct (avgPricePerPack db a) as [avg|] eqn:Eavg.
        -- destruct Hb as (b & ? & ? & ?).
           exists a, b. eexists. by split_and!.
        -- intros a' [= <-] _ _. exact Hb.
      * intros a' [= <-] _ [? H']. by rewrite Hart in H'.
    + intros a Ha Hne _. exfalso. rewrite Ha in Ea. simpl in Ea.
      by rewrite bool_decide_eq_false_2 in Ea.
Qed.

End GeneratedPrices.

(** ** The meal plan *)

Section MealPlanFacts.

Variable parseISO : string -> Z.
Variable startOfDay : Z -> Z.
Variable endOfDay : Z -> Z.

Lemma replace_self (rows : list EntryRow) (row : EntryRow) :
  List.NoDup (List.map er_id rows) -> In row rows ->
  List.map (fun r => if bool_decide (er_id r = er_id row) then row else r) rows = rows.
Proof.
  intros Hnd Hin. rewrite <- (List.map_id rows) at 2. apply List.map_ext_in.
  intros x Hx. destruct (bool_decide (er_id x = er_id row)) eqn:E; [|done].
  apply bool_decide_eq_true in E.
  pose proof (find_key er_id rows x Hnd Hx) as H1.
  pose proof (find_key er_id rows row Hnd Hin) as H2.
  rewrite E in H1. congruence.
Qed.

Lemma findEntry_replace (id : string) (new : EntryRow) (rows : list EntryRow) :
  er_id new = id ->
  findEntry (List.map (fun r => if bool_decide (er_id r = id) then new else r) rows) id
  = (fun _ => new) <$> findEntry rows id.
Proof.
  intros Hnew. unfold findEntry. induction rows as [|x l IH]; simpl; [done|].
  destruct (bool_decide (er_id x = id)) eqn:Ex; [|by rewrite Ex].
  by rewrite Hnew, bool_decide_eq_true_2.
Qed.

Lemma completed_not_planned (rows : list EntryRow) (db : Db) (id : string)
    (new : EntryRow) (shopDate planUntil : Z) :
  is_Some (e_completedAt (er_entry new)) ->
  findMealEntries
    (withEntries
       (List.map (fun r => if bool_decide (er_id r = id) then new else r) rows) db)
    shopDate planUntil
  = findMealEntries
      (withEntries (List.filter (fun r => negb (bool_decide (er_id r = id))) rows) db)
      shopDate planUntil.
Proof.
  intros [c Hc]. unfold findMealEntries, withEntries. simpl.
  induction rows as [|x l IH]; simpl; [done|].
  destruct (bool_decide (er_id x = id)); simpl.
  - rewrite Hc. rewrite bool_decide_eq_false_2 by done.
    by rewrite andb_false_r.
  - by rewrite IH.
Qed.

(** X26.  A completed meal no longer counts.  On an entry table with
    unique identifiers, [POST /meal-plan/:id/complete] of an entry that is
    not completed stamps it with the time; from then on the generator of
    shopping lists and [GET /meal-plan/ingredients] compute what they
    would without the entry; a second completion is rejected; and
    [POST /meal-plan/:id/uncomplete] gives back the table as it was, where
    it is rejected for an entry that is not completed. *)
Theorem completed_meal_leaves_plan (rows : list EntryRow) (db : Db) (id : string)
    (now : Z) (row : EntryRow) :
  List.NoDup (List.map er_id rows) ->
  findEntry rows id = Some row ->
  e_completedAt (er_entry row) = None ->
  exists updated rows',
    completeMeal rows id now = (Ok updated, rows') /\
    e_completedAt (er_entry updated) = Some now /\
    findEntry rows' id = Some updated /\
    (forall shopDate planUntil,
       let without :=
         withEntries (List.filter (fun r => negb (bool_decide (er_id r = id))) rows) db in
       requiredIngredients (withEntries rows' db) shopDate planUntil
       = requiredIngredients without shopDate planUntil /\
       ingredientMap (withEntries rows' db) shopDate planUntil
       = ingredientMap without shopDate planUntil) /\
    (forall now', exists e, completeMeal rows' id now' = (Err 400 e, rows')) /\
    uncompleteMeal rows' id = (Ok row, rows) /\
    (exists e, uncompleteMeal rows id = (Err 400 e, rows)).
Proof.
  intros Hnd Hfind Hc.
  pose proof (find_id_In er_id rows id row Hfind) as [Hin Hid].
  unfold completeMeal. rewrite Hfind, Hc.
  rewrite bool_decide_eq_false_2 by (by intros [? ?]).
  unfold setCompletedAt. rewrite Hid.
  set (updated := mkEntryRow id _).
  set (rows' := List.map _ rows).
  assert (findEntry rows' id = Some updated) as Hfind'
    by (unfold rows'; by rewrite findEntry_replace, Hfind).
  exists updated, rows'. split; [done|]. split; [done|]. split; [done|].
  split; [|split; [|split]].
  - intros shopDate planUntil.
    assert (findMealEntries (withEntries rows' db) shopDate planUntil
            = findMealEntries
                (withEntries
                   (List.filter (fun r => negb (bool_decide (er_id r = id))) rows) db)
                shopDate planUntil) as Heq
      by (apply completed_not_planned; by eexists).
    unfold requiredIngredients, ingredientMap. rewrite Heq. by split.
  - intros now'. rewrite Hfind'. simpl. by eexists.
  - unfold uncompleteMeal. rewrite Hfind'. simpl.
    f_equal.
    + f_equal. destruct row as [i [d sv c r]]. simpl in *. by subst.
    + unfold rows'. rewrite List.map_map.
      rewrite <- (replace_self rows row Hnd Hin) at 2. rewrite Hid.
      apply List.map_ext. intros x.
      destruct (bool_decide (er_id x = id)) eqn:E; simpl.
      * rewrite bool_decide_eq_true_2 by done.
        destruct row as [i [d sv c r]]. simpl in *. by subst.
      * by rewrite E.
  - unfold uncompleteMeal. rewrite Hfind, Hc.
    rewrite bool_decide_eq_false_2 by (by intros [? ?]). simpl. by eexists.
Qed.

(** The entries of the two ingredient maps, key by key. *)
Lemma aggregate_step (db : Db) (P : Prop) (name : string) (pm : Q)
    (m1 : IngredientMap) (m2 : RequiredMap) (ing : RecipeIngredient) :
  let R (kv1 : string * PlanIngredient) (kv2 : string * Required) :=
    fst kv1 = fst kv2 /\
    (P -> pi_articleId (snd kv1) = rq_articleId (snd kv2) /\
          pi_categoryMatch (snd kv1) = rq_categoryMatch (snd kv2) /\
          pi_unit (snd kv1) = rq_unit (snd kv2) /\
          pi_totalQuantity (snd kv1) = rq_totalQuantity (snd kv2)) in
  (P -> inCountedUnit db ing) ->
  Forall2 R m1 m2 ->
  Forall2 R (aggregateIngredient db name pm m1 ing) (requireIngredient db pm m2 ing).
Proof.
  intros R Hunit HR. unfold aggregateIngredient, requireIngredient.
  set (key := default EmptyString (or_str (ri_articleId ing) _)).
  set (pair := if truthy_str _ then _ else _).
  assert (P -> pair = (ri_quantity ing * pm, ri_unit ing)) as Hpair.
  { intros HP. specialize (Hunit HP). unfold pair, inCountedUnit in *.
    destruct (ri_articleId ing ≫= findArticle db) as [article|]; [|done].
    simpl. destruct (Hunit article eq_refl) as [H|H].
    - by rewrite H.
    - destruct (negb (bool_decide (a_defaultUnit article = EmptyString))); [|done].
      rewrite bool_decide_eq_true_2 by done. simpl. by rewrite H. }
  destruct pair as [needed unit].
  assert (P -> needed = ri_quantity ing * pm /\ unit = ri_unit ing) as Hnu
    by (intros HP; specialize (Hpair HP); by inversion Hpair).
  clear Hpair.
  assert (List.find (fun kv => bool_decide (fst kv = key)) m1 = None <->
          requiredGet key m2 = None) as Hnone.
  { rewrite requiredGet_None, (find_id_None fst).
    assert (List.map fst m1 = List.map fst m2) as ->; [|done].
    clear -HR. induction HR as [|x y l l' [H _] _ IH]; simpl; [done|]. by rewrite H, IH. }
  destruct (List.find _ m1) as [e1|] eqn:E1; destruct (requiredGet key m2) as [e2|] eqn:E2;
    simpl.
  - unfold requiredAdd. clear -HR Hnu.
    induction HR as [|x y l l' [Hk Hf] _ IH]; simpl; [constructor|].
    constructor; [|exact IH]. rewrite Hk.
    destruct (bool_decide (fst y = key)); [|by split].
    split; [done|]. intros HP. simpl.
    destruct (Hf HP) as (? & ? & ? & ->). destruct (Hnu HP) as [-> _]. done.
  - discriminate (proj2 Hnone eq_refl).
  - discriminate (proj1 Hnone eq_refl).
  - apply Forall2_app; [done|]. constructor; [|constructor].
    split; [done|]. intros HP. simpl. destruct (Hnu HP) as [-> ->]. done.
Qed.

Lemma aggregate_fold (db : Db) (P : Prop) (entries : list MealPlanEntry) :
  let R (kv1 : string * PlanIngredient) (kv2 : string * Required) :=
    fst kv1 = fst kv2 /\
    (P -> pi_articleId (snd kv1) = rq_articleId (snd kv2) /\
          pi_categoryMatch (snd kv1) = rq_categoryMatch (snd kv2) /\
          pi_unit (snd kv1) = rq_unit (snd kv2) /\
          pi_totalQuantity (snd kv1) = rq_totalQuantity (snd kv2)) in
  (P -> forall entry ing, In entry entries -> In ing (r_ingredients (e_recipe entry)) ->
        inCountedUnit db ing) ->
  forall m1 m2, Forall2 R m1 m2 ->
  Forall2 R (fold_left (aggregateEntry db) entries m1)
            (fold_left (requireEntry db) entries m2).
Proof.
  intros R. induction entries as [|e es IH]; intros Hunit m1 m2 HR; [done|].
  simpl.
  apply IH; [intros HP entry ing H1 H2; apply (Hunit HP entry ing); [by right|done]|].
  unfold aggregateEntry, requireEntry.
  generalize (e_servings e / r_servings (e_recipe e)). intros pm.
  assert (P -> forall ing, In ing (r_ingredients (e_recipe e)) -> inCountedUnit db ing)
    as Hings by (intros HP ing Hing; apply (Hunit HP e ing); [by left|done]).
  clear Hunit IH. revert m1 m2 HR Hings.
  induction (r_ingredients (e_recipe e)) as [|ing ings IH']; intros m1 m2 HR Hings; [done|].
  simpl. apply IH'.
  - apply aggregate_step; [|done]. intros HP. apply (Hings HP). by left.
  - intros HP i Hi. apply (Hings HP). by right.
Qed.

(** X27.  The ingredients of a period and the shopping list.
    [GET /meal-plan/ingredients] replies, for a period given by two
    non-empty dates, one entry for each key of the [requiredIngredients]
    that the generator of shopping lists computes for the same bounds, in
    the same order, and no key twice.  When every ingredient of the planned
    meals is measured in the unit that the generator counts it in, the
    entries also carry the same article, category, unit and total
    quantity. *)
Theorem plan_ingredients_agree (db : Db) (from to : string) :
  from <> EmptyString -> to <> EmptyString ->
  let fromDate := startOfDay (parseISO from) in
  let toDate := endOfDay (parseISO to) in
  let m := ingredientMap db fromDate toDate in
  let required := requiredIngredients db fromDate toDate in
  planIngredients parseISO startOfDay endOfDay db (Some from) (Some to)
  = Ok (List.map snd m) /\
  List.map fst m = List.map fst required /\
  List.NoDup (List.map fst m) /\
  ((forall entry ing,
      In entry (findMealEntries db fromDate toDate) ->
      In ing (r_ingredients (e_recipe entry)) -> inCountedUnit db ing) ->
   Forall2 (fun i r =>
              pi_articleId i = rq_articleId r /\
              pi_categoryMatch i = rq_categoryMatch r /\
              pi_unit i = rq_unit r /\
              pi_totalQuantity i = rq_totalQuantity r)
           (List.map snd m) (List.map snd required)).
Proof.
  intros Hfrom Hto fromDate toDate m required.
  assert (List.map fst m = List.map fst required) as Hkeys.
  { pose proof (aggregate_fold db False (findMealEntries db fromDate toDate)
                  (fun H => match H with end) [] [] (List.Forall2_nil _)) as HR.
    fold (ingredientMap db fromDate toDate) in HR. fold m in HR.
    fold (requiredIngredients db fromDate toDate) in HR. fold required in HR.
    clear -HR. induction HR as [|x y l l' [H _] _ IH]; simpl; [done|]. by rewrite H, IH. }
  split; [|split; [|split]].
  - unfold planIngredients. by rewrite !truthy_str_Some.
  - done.
  - rewrite Hkeys. apply requiredIngredients_inv.
  - intros Hunits.
    pose proof (aggregate_fold db True (findMealEntries db fromDate toDate)
                  (fun _ => Hunits) [] [] (List.Forall2_nil _)) as HR.
    fold (ingredientMap db fromDate toDate) in HR. fold m in HR.
    fold (requiredIngredients db fromDate toDate) in HR. fold required in HR.
    clear -HR. induction HR as [|x y l l' [_ H] _ IH]; simpl; constructor; [|done].
    by apply H.
Qed.

End MealPlanFacts.

Section RouteInstances.

Local Open Scope string_scope.

Lemma cellar_nonNegative : nonNegative Examples.cellar.
Proof. unfold nonNegative. simpl. repeat constructor; discriminate. Qed.

(** Milk in the cellar: the last priced purchase is 3 ml for 3. *)
Lemma article_detail_prices_witness :
  exists d, articleDetail expiryThenPurchase Examples.cellar "milk" = Ok d /\
    ad_lastPurchasePrice d = Some (3 / 3) /\
    exists b, In b (ad_allBatches d) /\ pricePerUnit b = Some (3 / 3) /\
      forall b', In b' (ad_allBatches d) /\ pricedPurchase b' ->
                 (b_purchaseDate b' <= b_purchaseDate b)%Z.
Proof.
  eexists. split; [reflexivity|].
  destruct (article_detail_prices expiryThenPurchase Examples.cellar "milk" _ eq_refl)
    as (_ & _ & _ & H).
  split; [reflexivity|].
  destruct (H _ eq_refl) as (b & [Hb _] & Hp & Hlast).
  exists b. by split_and!.
Defined.

(** In the cellar only milk is low on stock: 6 in stock, 10 wanted. *)
Lemma article_list_stock_witness :
  Permutation
    (List.map av_article
       (listArticles expiryThenPurchase (fun _ => true) (fun _ _ => 0)
          Examples.cellar None))
    (List.filter (fun _ => true) (articles Examples.cellar)) /\
  List.map av_article
    (listArticles expiryThenPurchase (fun _ => true) (fun _ _ => 0)
       Examples.cellar (Some "true"))
  = [Examples.milkMin].
Proof.
  destruct (article_list_stock expiryThenPurchase (fun _ => true) (fun _ _ => 0)
              Examples.cellar None cellar_nonNegative
              expiryThenPurchase_total expiryThenPurchase_trans
              expiryThenPurchase_expiry) as (_ & _ & H).
  split; [by apply H|reflexivity].
Defined.

Lemma dashboard_low_stock_witness :
  (exists x, In x (lowStockArticles Examples.cellar) /\ ls_article x = Examples.milkMin)
  <-> av_isLowStock (articleView expiryThenPurchase Examples.cellar Examples.milkMin)
      = true.
Proof.
  destruct (dashboard_low_stock expiryThenPurchase Examples.cellar) as (_ & H & _).
  apply H. by left.
Defined.

Lemma dashboard_expiring_partition_witness :
  (expired (fun d => d) (fun d => d) Z.add Examples.cellar 5
   ++ expiringSoon (fun d => d) (fun d => d) Z.add Examples.cellar 5)%list
  = expiringUntil Examples.cellar 12.
Proof.
  by destruct (dashboard_expiring_partition (fun _ => Some 7%Z) (fun d => d)
                 (fun d => d) Z.add Examples.cellar 5) as [H _].
Defined.

(** The list of the shop: 3 of milk are put in stock. *)
Lemma completion_adds_to_stock_witness :
  stockOfArticle (completeShoppingList Samples.shop "list-1" 30 (fun _ => "b-1")).2 "milk"
  == stockOfArticle Samples.shop "milk" + boughtOf Samples.shop "list-1" "milk".
Proof.
  destruct (completion_adds_to_stock Samples.shop "list-1" 30 (fun _ => "b-1")
              (mkList "list-1" "This week" 7 13 None) eq_refl eq_refl) as [H _].
  apply H.
Defined.

(** 3 of milk for 4.99 become 6, at a new price. *)
Lemma updateItem_rescales_price_witness :
  exists updated rows',
    updateItem Examples.basket "item-1" Examples.sixOfThem = (Ok updated, rows') /\
    i_recommendedPacks (ir_item updated) = 1%Z /\
    exists e cents, i_estimatedPrice (ir_item updated) = Some e /\
                    e = inject_Z cents / 100.
Proof.
  destruct (updateItem_rescales_price Examples.basket "item-1" Examples.sixOfThem
              _ eq_refl)
    as (updated & rows' & H1 & _ & _ & _ & _ & H2 & _ & _ & H3 & _).
  exists updated, rows'. split; [exact H1|]. split; [exact H2|].
  destruct (H3 6 (499 # 100) eq_refl eq_refl) as (e & cents & He & Hc);
    [by vm_compute|reflexivity|].
  exists e, cents. by split.
Defined.

(** Two packs of milk at a mean price of 1.5 are estimated at 3. *)
Lemma generated_item_prices_witness :
  exists rows list db',
    generateShoppingList (fun _ => EmptyString) Examples.market None 0 7 [] "list-9"
    = (Ok (list, rows), db') /\
    List.map i_estimatedPrice rows = [Some (300 / 100)] /\
    batches db' = batches Examples.market.
Proof.
  eexists _, _, _. split; [reflexivity|]. split; [reflexivity|].
  by destruct (generated_item_prices (fun _ => EmptyString) Examples.market None 0 7 []
                 "list-9" _ _ _ eq_refl) as (_ & _ & _ & _ & H & _).
Defined.

(** The meal of scenario A, once completed, asks for no milk. *)
Lemma completed_meal_leaves_plan_witness :
  exists updated rows',
    completeMeal Examples.week "e-1" 5 = (Ok updated, rows') /\
    requiredIngredients (withEntries rows' Samples.planA) 0 7 = [] /\
    uncompleteMeal rows' "e-1"
    = (Ok (mkEntryRow "e-1" (mkEntry 3 2 None Samples.milkRecipe)), Examples.week).
Proof.
  destruct (completed_meal_leaves_plan Examples.week Samples.planA "e-1" 5
              (mkEntryRow "e-1" (mkEntry 3 2 None Samples.milkRecipe)))
    as (updated & rows' & H1 & _ & _ & H2 & _ & H3 & _).
  - apply NoDup_ListNoDup. apply (bool_decide_unpack _). by vm_compute.
  - reflexivity.
  - reflexivity.
  - exists updated, rows'. split; [exact H1|]. split; [|exact H3].
    by destruct (H2 0%Z 7%Z) as [-> _].
Defined.

Lemma plan_ingredients_agree_witness :
  List.map fst (ingredientMap Samples.planA 0 7)
  = List.map fst (requiredIngredients Samples.planA 0 7).
Proof.
  by destruct (plan_ingredients_agree (fun _ => 3%Z) (fun d => (d - 3)%Z)
                 (fun d => (d + 4)%Z) Samples.planA "2026-01-03" "2026-01-03")
    as (_ & H & _).
Defined.

End RouteInstances.
